(** * Eligibility and authorisation engine of the desk-of-the-future backend

    A shallow embedding of the decision logic of the Express/Firebase
    backend: the app access matrix, the department eligibility pass with its
    auto-assignment and primary-department selection, the form and session
    eligibility checks, the automated submission scorer and the assignment
    status workflow.

    Conventions of the embedding.
    - A JavaScript object used as a dictionary is a finite map ([gmap]) when
      only point reads and writes are made, and an association list when the
      code iterates over it ([Object.entries], [Object.values]): the list is
      the iteration order.
    - An optional property is an [option]; [undefined] and [null] are both
      [None].  Truthiness tests ([!x], [x || d], [x && y]) are written out.
    - The Realtime Database is an explicit state; every write the code issues
      is also appended to a log, so that "no write happens" can be stated.
    - IEEE doubles are rationals together with a rounding function, of which
      only monotonicity and exactness on the constants used are assumed. *)

From Stdlib Require Import ZArith QArith Qround Lia List.
From stdpp Require Import gmap strings list fin_maps pretty.

Open Scope string_scope.
Open Scope Z_scope.

#[local] Set Warnings "-register-all".

(* ===================================================================== *)
(** * Part I.  The model                                                  *)
(* ===================================================================== *)

(** ** JavaScript values and numbers *)

(** JSON-like values, as they arrive in a request body or a snapshot. *)
Inductive JsVal : Type :=
| VUndefined
| VNull
| VBool (b : bool)
| VNum (z : Z)
| VStr (s : string)
| VArr (l : list JsVal)
| VObj (l : list (string * JsVal)).

(** [!!v] of JavaScript. *)
Definition js_truthy (v : JsVal) : bool :=
  match v with
  | VUndefined | VNull => false
  | VBool b => b
  | VNum z => negb (z =? 0)
  | VStr s => negb (String.eqb s "")
  | VArr _ | VObj _ => true
  end.

(** [a === b].  Two arrays or two objects coming from different documents
    are different references, hence never strictly equal. *)
Definition strict_eq (a b : JsVal) : bool :=
  match a, b with
  | VUndefined, VUndefined => true
  | VNull, VNull => true
  | VBool x, VBool y => Bool.eqb x y
  | VNum x, VNum y => x =? y
  | VStr x, VStr y => String.eqb x y
  | _, _ => false
  end.

(** [v.k]: property read on a value that is neither [undefined] nor [null]. *)
Fixpoint assoc {A : Type} (k : string) (l : list (string * A)) : option A :=
  match l with
  | [] => None
  | (k', a) :: l' => if String.eqb k k' then Some a else assoc k l'
  end.

Definition js_get (v : JsVal) (k : string) : JsVal :=
  match v with
  | VObj l => default VUndefined (assoc k l)
  | _ => VUndefined
  end.

(** [a[i]] on an array: [undefined] out of range. *)
Definition js_index (a : list JsVal) (i : nat) : JsVal :=
  nth i a VUndefined.

(** Truthiness of an optional string ([""] is falsy) and of an optional
    number ([0] is falsy). *)
Definition truthy_str (o : option string) : bool :=
  match o with
  | Some s => negb (String.eqb s "")
  | None => false
  end.

Definition truthy_num (o : option Z) : bool :=
  match o with
  | Some z => negb (z =? 0)
  | None => false
  end.

(** [a || b] on optional strings. *)
Definition or_str (a b : option string) : option string :=
  if truthy_str a then a else b.

(** Rounding of a real result to a double.  Round-to-nearest is monotone and
    leaves representable numbers alone; nothing else is used. *)
Class Rounding := {
  fl : Q -> Q;
  fl_mono : forall x y : Q, (x <= y)%Q -> (fl x <= fl y)%Q;
  fl_0 : (fl 0 == 0)%Q;
  fl_1 : (fl 1 == 1)%Q;
  fl_100 : (fl 100 == 100)%Q
}.

(** Exact arithmetic is one such rounding. *)
#[refine] Instance exact_rounding : Rounding := {| fl := fun q => q |}.
Proof. all: intros; try reflexivity; assumption. Defined.

(** A double that may be [NaN]. *)
Inductive jsnum : Type :=
| NaN
| Fin (q : Q).

Definition jsnum_of_Z (z : Z) : jsnum := Fin (inject_Z z).

(** [a >= b] and [a <= b]: false as soon as one side is [NaN]. *)
Definition jge (a b : jsnum) : bool :=
  match a, b with
  | Fin x, Fin y => Qle_bool y x
  | _, _ => false
  end.

Definition jle (a b : jsnum) : bool :=
  match a, b with
  | Fin x, Fin y => Qle_bool x y
  | _, _ => false
  end.

(** [Math.round]: the nearest integer, halves upwards. *)
Definition math_round (q : Q) : Z := Qfloor (q + (1 # 2))%Q.

(** ** User records

    The document stored under [/users/{uid}]; the authentication middleware
    hands the same document to the handlers as [req.userData]. *)
Record UserRecord : Type := {
  profile_role : option string;                  (* profile.role *)
  onboarding_primaryDepartment : option string;  (* onboarding.primaryDepartment *)
  department : option string;                    (* department *)
  perm_level : option Z;                         (* permissions.level *)
  perm_department : option string;               (* permissions.department *)
  perm_role : option string;                     (* permissions.role *)
  activity_createdAt : option Z;                 (* activity.createdAt *)
  activity_updatedAt : option Z                  (* activity.updatedAt *)
}.

(** The document with no property at all. *)
Definition empty_user : UserRecord :=
  {| profile_role := None; onboarding_primaryDepartment := None;
     department := None; perm_level := None; perm_department := None;
     perm_role := None; activity_createdAt := None;
     activity_updatedAt := None |}.

(** [s || d] where the result is read as a string. *)
Definition str_or (a : option string) (d : string) : string :=
  match a with
  | Some s => if String.eqb s "" then d else s
  | None => d
  end.

(** [n || d] on numbers. *)
Definition num_or (a : option Z) (d : Z) : Z :=
  match a with
  | Some z => if z =? 0 then d else z
  | None => d
  end.

(** ** App access matrix (applications router) *)

Module PERMISSION_LEVELS.
Definition BASIC : Z := 1.
Definition DEPARTMENT_ADMIN : Z := 2.
Definition CORPORATE : Z := 5.
Definition ADMIN : Z := 8.
Definition DEVELOPER : Z := 10.
End PERMISSION_LEVELS.

Module DEPARTMENTS.
Definition CORPORATE : string := "corporate".
Definition HR : string := "hr".
Definition MR : string := "mr".
Definition LR : string := "lr".
Definition MODERATION : string := "moderation".
Definition PUBLIC_RELATIONS : string := "public-relations".
Definition TALENT_ACQUISITION : string := "talent-acquisition".
End DEPARTMENTS.

(** The matrix, in the order of its object literal. *)
Definition APP_ACCESS_MATRIX : list (string * list string) :=
  [ ("universal", ["maia"; "forms"; "bake"; "dof"; "community"; "sessions"]);
    ("corporate", ["oam-corporate"; "uvm-corporate"; "pvm-corporate";
                   "courses-corporate"; "forms-manager"; "assignments-manager"]);
    ("moderation", ["oam-basic"; "uvm-basic"; "courses-moderation"; "bake-mod";
                    "assignments"]);
    ("public-relations", ["partners"; "pvm-basic"; "bake-partners"; "courses-pr";
                          "assignments"]);
    ("talent-acquisition", ["uvm-basic"; "myhr-manager"; "courses-ta"; "bake-hr";
                            "assignments"]);
    ("hr", ["myhr-basic"; "performance"; "courses-hr"; "bake"; "sessions-manager";
            "forms-manager"; "employee-directory"; "assignments-manager"]);
    ("mr", ["myhr-basic"; "performance"; "courses-mr"; "bake";
            "sessions-manager-basic"; "employee-directory"; "assignments"]);
    ("lr", ["myhr-basic"; "performance"; "courses-mr"; "bake"; "sessions"]) ].

(** [[...new Set(l)]]: the first occurrence of every element, in order. *)
Fixpoint dedupe_from (seen l : list string) : list string :=
  match l with
  | [] => []
  | x :: r =>
      if bool_decide (x ∈ seen) then dedupe_from seen r
      else x :: dedupe_from (x :: seen) r
  end.

Definition dedupe (l : list string) : list string := dedupe_from [] l.

(** [Object.values(APP_ACCESS_MATRIX).flat()]. *)
Definition all_matrix_apps : list string := concat (map snd APP_ACCESS_MATRIX).

Definition getUserDepartmentGroup (userData : UserRecord) : string :=
  let primaryDepartment := onboarding_primaryDepartment userData in
  let department := or_str (department userData) (perm_department userData) in
  str_or primaryDepartment (str_or department "basic").

(** [userData?.permissions?.level || PERMISSION_LEVELS.BASIC]. *)
Definition userLevelOf (userData : UserRecord) : Z :=
  num_or (perm_level userData) PERMISSION_LEVELS.BASIC.

(** The property names an object literal inherits from [Object.prototype].
    Reading one of them from the matrix gives a function (for [__proto__],
    the prototype object): a truthy value that is not iterable. *)
Definition OBJECT_PROTOTYPE_KEYS : list string :=
  [ "constructor"; "__defineGetter__"; "__defineSetter__"; "hasOwnProperty";
    "__lookupGetter__"; "__lookupSetter__"; "isPrototypeOf";
    "propertyIsEnumerable"; "toString"; "valueOf"; "__proto__";
    "toLocaleString" ].

Definition inherited_key (k : string) : bool :=
  bool_decide (k ∈ OBJECT_PROTOTYPE_KEYS).

(** What a function returns or throws. *)
Inductive Outcome (A : Type) : Type :=
| Return (a : A)
| Throw (message : string).
Arguments Return {A} a.
Arguments Throw {A} message.

(** [APP_ACCESS_MATRIX[userDepartment]] is an own entry of the matrix, an
    inherited property, or [undefined]; spreading an inherited property
    throws a [TypeError]. *)
Definition getUserAccessibleApps (userData : UserRecord) : Outcome (list string) :=
  let userDepartment := getUserDepartmentGroup userData in
  let userLevel := userLevelOf userData in
  let accessibleApps := default [] (assoc "universal" APP_ACCESS_MATRIX) in
  if PERMISSION_LEVELS.DEVELOPER <=? userLevel then
    Return (dedupe all_matrix_apps)
  else if String.eqb userDepartment DEPARTMENTS.CORPORATE
          || (PERMISSION_LEVELS.CORPORATE <=? userLevel) then
    Return (dedupe all_matrix_apps)
  else
    match assoc userDepartment APP_ACCESS_MATRIX with
    | Some apps => Return (dedupe (accessibleApps ++ apps)%list)
    | None =>
        if inherited_key userDepartment then
          Throw "APP_ACCESS_MATRIX[userDepartment] is not iterable"
        else Return (dedupe accessibleApps)
    end.

(** [hasAppAccess] catches whatever [getUserAccessibleApps] throws and
    answers [false]. *)
Definition hasAppAccess (userData : UserRecord) (appId : string) : bool :=
  match getUserAccessibleApps userData with
  | Return accessibleApps => bool_decide (appId ∈ accessibleApps)
  | Throw _ => false
  end.

(** The claim's wording, for comparison: the full app universe is every app
    of every category, and the ordinary set is the universal category plus
    the entry of the profile's department when the matrix has one. *)
Definition in_app_universe (app : string) : Prop :=
  exists category apps, In (category, apps) APP_ACCESS_MATRIX /\ In app apps.

Definition in_department_apps (dept app : string) : Prop :=
  (exists apps, assoc "universal" APP_ACCESS_MATRIX = Some apps /\ In app apps)
  \/ (exists apps, assoc dept APP_ACCESS_MATRIX = Some apps /\ In app apps).

(** The profiles the claim singles out. *)
Definition privileged (userData : UserRecord) : Prop :=
  10 <= userLevelOf userData
  \/ getUserDepartmentGroup userData = DEPARTMENTS.CORPORATE
  \/ 5 <= userLevelOf userData.

(** ** Primary-department priority (onboarding router) *)

(** Department hierarchy from high to low priority. *)
Definition DEPARTMENT_HIERARCHY : list string :=
  [ "corporate"; "moderation"; "public-relations"; "talent-acquisition";
    "hr"; "mr"; "lr" ].

(** [l.indexOf(x)]: the first position of [x], or [-1]. *)
Fixpoint indexOf_from (i : Z) (x : string) (l : list string) : Z :=
  match l with
  | [] => -1
  | y :: r => if String.eqb x y then i else indexOf_from (i + 1) x r
  end.

Definition indexOf (x : string) (l : list string) : Z := indexOf_from 0 x l.

(** One entry of [deptResults]. *)
Record DeptResult : Type := {
  dr_id : string;
  dr_name : string;
  dr_role : option string;
  dr_rank : option Z;
  dr_eligible : bool;
  dr_status : string
}.

(** The comparator handed to [sort]. *)
Definition priority_compare (a b : DeptResult) : Z :=
  let aIndex := indexOf (dr_id a) DEPARTMENT_HIERARCHY in
  let bIndex := indexOf (dr_id b) DEPARTMENT_HIERARCHY in
  if (aIndex =? -1) && (bIndex =? -1) then 0
  else if aIndex =? -1 then 1
  else if bIndex =? -1 then -1
  else aIndex - bIndex.

(** [Array.prototype.sort] is a stable sort; with a consistent comparator its
    result does not depend on the algorithm, so insertion sort stands for it:
    an element goes in front of the first one it does not follow. *)
Fixpoint sort_insert {A : Type} (cmp : A -> A -> Z) (x : A) (l : list A) : list A :=
  match l with
  | [] => [x]
  | y :: r => if cmp x y <=? 0 then x :: y :: r else y :: sort_insert cmp x r
  end.

Fixpoint js_sort {A : Type} (cmp : A -> A -> Z) (l : list A) : list A :=
  match l with
  | [] => []
  | x :: r => sort_insert cmp x (js_sort cmp r)
  end.

Definition getHighestPriorityDepartment (eligibleDepartments : list DeptResult)
  : option string :=
  match eligibleDepartments with
  | [] => None
  | _ =>
      let sortedByPriority :=
        js_sort priority_compare (List.filter dr_eligible eligibleDepartments) in
      match sortedByPriority with
      | first :: _ => Some (dr_id first)
      | [] => None
      end
  end.

(** The claim's wording: the place of a department in the hierarchy, the
    ones that are not listed coming after all the listed ones. *)
Fixpoint hierarchy_place_in (h : list string) (x : string) : nat :=
  match h with
  | [] => 0%nat
  | y :: r => if String.eqb x y then 0%nat else S (hierarchy_place_in r x)
  end.

Definition hierarchy_place (x : string) : nat :=
  hierarchy_place_in DEPARTMENT_HIERARCHY x.

(** ** Automated submission scorer (FirebaseService) *)

Record Validation : Type := {
  minLength : option Z;
  grammarCheck : bool
}.

Record Question : Type := {
  q_correct : JsVal                 (* question.correct *)
}.

Record Field : Type := {
  f_id : string;
  f_type : string;
  f_validation : option Validation;
  f_questions : list Question
}.

(** What [evaluateTextResponse] returns. *)
Record TextScore : Type := {
  ts_grammar : jsnum;
  ts_length : jsnum;
  ts_total : jsnum
}.

Inductive Recommendation : Type :=
| RecPending                        (* the initial 'pending' *)
| RecApprove
| RecReject
| RecReview.

(** [form.autoEvaluation.thresholds]; a missing or non-numeric bound
    compares as [NaN]. *)
Record Thresholds : Type := {
  autoApprove : jsnum;
  autoReject : jsnum
}.

Record Form : Type := {
  form_fields : list Field;
  form_thresholds : option Thresholds;        (* autoEvaluation?.thresholds *)
  req_minLevel : option Z;                    (* requirements.minLevel *)
  req_minDaysActive : option Z;               (* requirements.minDaysActive *)
  req_requiredDepartments : option (list string);
  req_blacklistedRoles : option (list string)
}.

Record Evaluation : Type := {
  grammarScore : jsnum;
  lengthScore : jsnum;
  quizScore : jsnum;
  overallScore : jsnum;
  recommendation : Recommendation
}.

Definition default_thresholds : Thresholds :=
  {| autoApprove := jsnum_of_Z 85; autoReject := jsnum_of_Z 40 |}.

(** [a + b] on doubles. *)
Definition jadd `{Rounding} (a b : jsnum) : jsnum :=
  match a, b with
  | Fin x, Fin y => Fin (fl (x + y))
  | _, _ => NaN
  end.

(** [Math.round((a / b) * 100)] for a divisor [b > 0]. *)
Definition round_percent `{Rounding} (a b : Q) : Z :=
  math_round (fl (fl (a / b) * 100)).

Definition is_array (v : JsVal) : bool :=
  match v with VArr _ => true | _ => false end.

Definition array_items (v : JsVal) : list JsVal :=
  match v with VArr l => l | _ => [] end.

(** The [forEach] of [evaluateQuizResponse]: the number of questions whose
    [correct] is strictly equal to the answer at the same index. *)
Fixpoint count_correct (answers : list JsVal) (index : nat)
    (questions : list Question) : nat :=
  match questions with
  | [] => 0%nat
  | question :: rest =>
      ((if strict_eq (js_index answers index) (q_correct question)
        then 1 else 0)
       + count_correct answers (S index) rest)%nat
  end.

(** With no question at all the quotient is [0 / 0]. *)
Definition evaluateQuizResponse `{Rounding} (response : JsVal) (field : Field)
  : jsnum :=
  if negb (js_truthy response)
     || negb (js_truthy (js_get response "answers"))
     || negb (is_array (js_get response "answers"))
  then Fin 0
  else
    let answers := array_items (js_get response "answers") in
    let correctAnswers := count_correct answers 0 (f_questions field) in
    let totalQuestions := length (f_questions field) in
    match totalQuestions with
    | O => NaN
    | _ => jsnum_of_Z (round_percent (inject_Z (Z.of_nat correctAnswers))
                                     (inject_Z (Z.of_nat totalQuestions)))
    end.

(** The response is missing, or its [answers] is missing or not an array. *)
Definition answers_missing (response : JsVal) : Prop :=
  js_truthy response = false
  \/ js_truthy (js_get response "answers") = false
  \/ is_array (js_get response "answers") = false.

(** The accumulators of the loop over [form.fields]. *)
Record ScoreAcc : Type := {
  acc_grammar : jsnum;
  acc_length : jsnum;
  acc_quiz : jsnum;
  acc_total : jsnum;
  acc_max : Z
}.

Definition score_field `{Rounding}
    (evaluateTextResponse : JsVal -> Validation -> TextScore)
    (responses : list (string * JsVal)) (acc : ScoreAcc) (field : Field)
  : ScoreAcc :=
  let response := default VUndefined (assoc (f_id field) responses) in
  let acc :=
    match f_validation field with
    | Some validation =>
        if String.eqb (f_type field) "text" then
          let textScore := evaluateTextResponse response validation in
          {| acc_grammar := jadd (acc_grammar acc) (ts_grammar textScore);
             acc_length := jadd (acc_length acc) (ts_length textScore);
             acc_quiz := acc_quiz acc;
             acc_total := jadd (acc_total acc) (ts_total textScore);
             acc_max := acc_max acc + 100 |}
        else acc
    | None => acc
    end in
  if String.eqb (f_type field) "quiz" then
    let quizScore := evaluateQuizResponse response field in
    {| acc_grammar := acc_grammar acc;
       acc_length := acc_length acc;
       acc_quiz := quizScore;
       acc_total := jadd (acc_total acc) quizScore;
       acc_max := acc_max acc + 100 |}
  else acc.

(** The final [if / else if / else] on the thresholds. *)
Definition recommend (overall : jsnum) (thresholds : Thresholds) : Recommendation :=
  if jge overall (autoApprove thresholds) then RecApprove
  else if jle overall (autoReject thresholds) then RecReject
  else RecReview.

(** The text scorer is a parameter: the claims on the recommendation and on
    the quiz score hold whatever it returns. *)
Definition evaluateFormSubmission `{Rounding}
    (evaluateTextResponse : JsVal -> Validation -> TextScore)
    (form : Form) (responses : list (string * JsVal)) : Evaluation :=
  let acc0 := {| acc_grammar := Fin 0; acc_length := Fin 0; acc_quiz := Fin 0;
                 acc_total := Fin 0; acc_max := 0 |} in
  let acc := fold_left (score_field evaluateTextResponse responses)
                       (form_fields form) acc0 in
  let overall :=
    if 0 <? acc_max acc then
      match acc_total acc with
      | Fin totalScore =>
          jsnum_of_Z (round_percent totalScore (inject_Z (acc_max acc)))
      | NaN => NaN
      end
    else Fin 0 in
  let thresholds := default default_thresholds (form_thresholds form) in
  {| grammarScore := acc_grammar acc;
     lengthScore := acc_length acc;
     quizScore := acc_quiz acc;
     overallScore := overall;
     recommendation := recommend overall thresholds |}.

(** The status a new submission is stored with ([submitForm]). *)
Definition submission_status_of (r : Recommendation) : string :=
  match r with
  | RecApprove => "approved"
  | RecReject => "rejected"
  | _ => "pending"
  end.

(** ** The Realtime Database *)

(** [departments/{id}/members/{uid}]. *)
Record MemberEntry : Type := {
  joinedAt : Z;
  m_role : option string;
  m_rank : option Z
}.

(** [departments/{id}]. *)
Record Department : Type := {
  dept_name : option string;
  dept_groupId : option string;
  dept_isActive : bool;                    (* truthiness of isActive *)
  dept_requiredRole : option Z;            (* settings?.requiredRole, when a number *)
  dept_autoApprove : bool;                 (* truthiness of settings?.autoApprove *)
  dept_members : gmap string MemberEntry
}.

(** [forms/submissions/{id}]. *)
Record Submission : Type := {
  sub_userId : string;
  sub_formId : string;
  sub_status : string
}.

Record Attendee : Type := {
  att_userId : string;
  att_status : string;
  att_registeredAt : Z
}.

(** What [session.attendees] is once read: nothing, an array, or (as soon as
    a child was added with [push]) an object keyed by push ids. *)
Inductive Attendees : Type :=
| AttUndefined
| AttArray (l : list Attendee)
| AttObject (l : list (string * Attendee)).

Record Capacity : Type := {
  cap_max : option Z;
  cap_current : option Z
}.

(** [sessions/sessions/{id}]. *)
Record Session : Type := {
  s_capacity : option Capacity;
  s_minLevel : option Z;                   (* requirements?.minLevel *)
  s_departments : option (list string);    (* requirements?.departments *)
  s_attendees : Attendees
}.

(** [assignments/tasks/{id}]. *)
Record Assignment : Type := {
  a_assignedTo : option string;
  a_status : option string;
  a_updatedAt : option Z;
  a_completedAt : option Z;
  a_completedBy : option string
}.

Record DB : Type := {
  users : gmap string UserRecord;
  departments : list (string * Department);   (* in Object.entries order *)
  templates : gmap string Form;
  submissions : list Submission;
  sessions : gmap string Session;
  tasks : gmap string Assignment
}.

(** The writes the modelled code issues. *)
Inductive Write : Type :=
| WSetProfileRole (uid : string) (role : option string)
    (* ref(`/users/${uid}/profile/role`).set(role) *)
| WSetMember (deptId uid : string) (entry : MemberEntry)
    (* ref(`/departments/${id}/members/${uid}`).set(entry) *)
| WUpdatePrimary (uid primary : string) (updatedAt : Z)
    (* updateUser(uid, {"onboarding/primaryDepartment": primary}) *)
| WPushAttendee (sessionId key : string) (a : Attendee)
    (* ref(`/sessions/sessions/${id}/attendees`).push(a) *)
| WIncrementCurrent (sessionId : string)
    (* ref(`.../capacity/current`).transaction(count => (count || 0) + 1) *)
| WUpdateTask (assignmentId status : string) (updatedAt : Z)
              (completedBy : option string).
    (* ref(`assignments/tasks/${id}`).update(updateData) *)

Definition set_profile_role (role : option string) (u : UserRecord) : UserRecord :=
  {| profile_role := role;
     onboarding_primaryDepartment := onboarding_primaryDepartment u;
     department := department u; perm_level := perm_level u;
     perm_department := perm_department u; perm_role := perm_role u;
     activity_createdAt := activity_createdAt u;
     activity_updatedAt := activity_updatedAt u |}.

Definition set_primary (primary : string) (updatedAt : Z) (u : UserRecord)
  : UserRecord :=
  {| profile_role := profile_role u;
     onboarding_primaryDepartment := Some primary;
     department := department u; perm_level := perm_level u;
     perm_department := perm_department u; perm_role := perm_role u;
     activity_createdAt := activity_createdAt u;
     activity_updatedAt := Some updatedAt |}.

Definition add_member (uid : string) (entry : MemberEntry) (d : Department)
  : Department :=
  {| dept_name := dept_name d; dept_groupId := dept_groupId d;
     dept_isActive := dept_isActive d; dept_requiredRole := dept_requiredRole d;
     dept_autoApprove := dept_autoApprove d;
     dept_members := <[uid := entry]> (dept_members d) |}.

(** The children of an [attendees] node, with their keys. *)
Definition attendee_children (a : Attendees) : list (string * Attendee) :=
  match a with
  | AttUndefined => []
  | AttArray l => imap (fun i x => (pretty i, x)) l
  | AttObject l => l
  end.

Definition push_attendee (key : string) (a : Attendee) (s : Session) : Session :=
  {| s_capacity := s_capacity s; s_minLevel := s_minLevel s;
     s_departments := s_departments s;
     s_attendees := AttObject (attendee_children (s_attendees s) ++ [(key, a)]) |}.

(** [count => (count || 0) + 1] on [capacity/current]. *)
Definition increment_current (s : Session) : Session :=
  let c := default {| cap_max := None; cap_current := None |} (s_capacity s) in
  {| s_capacity := Some {| cap_max := cap_max c;
                           cap_current := Some (num_or (cap_current c) 0 + 1) |};
     s_minLevel := s_minLevel s; s_departments := s_departments s;
     s_attendees := s_attendees s |}.

Definition empty_session : Session :=
  {| s_capacity := None; s_minLevel := None; s_departments := None;
     s_attendees := AttUndefined |}.

Definition empty_task : Assignment :=
  {| a_assignedTo := None; a_status := None; a_updatedAt := None;
     a_completedAt := None; a_completedBy := None |}.

Definition update_task (status : string) (updatedAt : Z)
    (completedBy : option string) (a : Assignment) : Assignment :=
  {| a_assignedTo := a_assignedTo a;
     a_status := Some status;
     a_updatedAt := Some updatedAt;
     a_completedAt := match completedBy with
                      | Some _ => Some updatedAt
                      | None => a_completedAt a
                      end;
     a_completedBy := match completedBy with
                      | Some by_ => Some by_
                      | None => a_completedBy a
                      end |}.

Definition with_users (db : DB) (u : gmap string UserRecord) : DB :=
  {| users := u; departments := departments db; templates := templates db;
     submissions := submissions db; sessions := sessions db; tasks := tasks db |}.

Definition with_departments (db : DB) (d : list (string * Department)) : DB :=
  {| users := users db; departments := d; templates := templates db;
     submissions := submissions db; sessions := sessions db; tasks := tasks db |}.

Definition with_sessions (db : DB) (s : gmap string Session) : DB :=
  {| users := users db; departments := departments db; templates := templates db;
     submissions := submissions db; sessions := s; tasks := tasks db |}.

Definition with_tasks (db : DB) (t : gmap string Assignment) : DB :=
  {| users := users db; departments := departments db; templates := templates db;
     submissions := submissions db; sessions := sessions db; tasks := t |}.

(** The effect of one write on the database.  Writing below a path that
    holds nothing creates it; setting [null] only removes. *)
Definition apply_write (w : Write) (db : DB) : DB :=
  match w with
  | WSetProfileRole uid role =>
      with_users db
        match role with
        | Some _ => <[uid := set_profile_role role
                               (default empty_user (users db !! uid))]> (users db)
        | None => alter (set_profile_role None) uid (users db)
        end
  | WSetMember deptId uid entry =>
      with_departments db
        (map (fun '(id, d) =>
                if String.eqb id deptId then (id, add_member uid entry d)
                else (id, d))
             (departments db))
  | WUpdatePrimary uid primary updatedAt =>
      with_users db
        (<[uid := set_primary primary updatedAt
                    (default empty_user (users db !! uid))]> (users db))
  | WPushAttendee sessionId key a =>
      with_sessions db
        (<[sessionId := push_attendee key a
                          (default empty_session (sessions db !! sessionId))]>
           (sessions db))
  | WIncrementCurrent sessionId =>
      with_sessions db
        (<[sessionId := increment_current
                          (default empty_session (sessions db !! sessionId))]>
           (sessions db))
  | WUpdateTask assignmentId status updatedAt completedBy =>
      with_tasks db
        (<[assignmentId := update_task status updatedAt completedBy
                             (default empty_task (tasks db !! assignmentId))]>
           (tasks db))
  end.

(** ** A state-and-exception monad for the service code

    The state is the database together with the log of the writes issued so
    far; an exception keeps the state reached when it was thrown. *)
Definition Store : Type := DB * list Write.

Definition M (A : Type) : Type := Store -> Outcome A * Store.

Definition ret {A : Type} (a : A) : M A := fun s => (Return a, s).

Definition bind {A B : Type} (m : M A) (k : A -> M B) : M B :=
  fun s =>
    match m s with
    | (Return a, s') => k a s'
    | (Throw e, s') => (Throw e, s')
    end.

Definition throw {A : Type} (message : string) : M A :=
  fun s => (Throw message, s).

(** A snapshot of the whole database. *)
Definition snapshot : M DB := fun s => (Return (fst s), s).

(** Issue a write: apply it and log it. *)
Definition emit (w : Write) : M unit :=
  fun s => (Return tt, (apply_write w (fst s), (snd s ++ [w])%list)).

Notation "x <- m ;; k" := (bind m (fun x => k))
  (at level 100, m at next level, k at level 200, right associativity).
Notation "m ;; k" := (bind m (fun _ => k))
  (at level 100, k at level 200, right associativity).

Fixpoint emit_all (ws : list Write) : M unit :=
  match ws with
  | [] => ret tt
  | w :: rest => emit w ;; emit_all rest
  end.

(** ** Authentication middleware (Firebase token path)

    [authenticateToken] verifies the token, reads [/users/{uid}] and passes
    the document on as [req.userData]; an unknown user ends the request. *)
Definition authenticateToken (uid : string) : M UserRecord :=
  db <- snapshot ;;
  match users db !! uid with
  | Some userData => ret userData
  | None => throw "User not found"
  end.

(** ** Department eligibility ([GET /api/onboarding/eligible]) *)

Definition MAIN_GROUP_ID : string := "5692925".

(** One element of the group-membership service's answer. *)
Record Membership : Type := {
  g_groupId : string;               (* g.group.id, as a property key *)
  g_roleName : string;              (* g.role.name *)
  g_roleRank : Z                    (* g.role.rank *)
}.

Record GroupInfo : Type := {
  gi_name : string;
  gi_rank : Z
}.

(** [memberships.forEach(g => groupRoleMap[g.group.id] = {...})]. *)
Definition build_groupRoleMap (memberships : list Membership)
  : gmap string GroupInfo :=
  fold_left (fun m g => <[g_groupId g :=
                            {| gi_name := g_roleName g; gi_rank := g_roleRank g |}]> m)
            memberships ∅.

(** What one callback of the loop over the departments produces: the entry
    it pushes on [deptResults], and the member entry it writes when it
    auto-adds the user. *)
Record DeptOutcome : Type := {
  do_result : DeptResult;
  do_write : option MemberEntry
}.

Definition evalDepartment (uid : string) (isMainGroupMember : bool)
    (groupRoleMap : gmap string GroupInfo) (now : Z)
    (id : string) (dept : Department) : option DeptOutcome :=
  if negb (dept_isActive dept) then None
  else
    let groupInfo := dept_groupId dept ≫= (fun g => groupRoleMap !! g) in
    let userRank := gi_rank <$> groupInfo in
    let userRoleName := gi_name <$> groupInfo in
    let requiredRank := default 0 (dept_requiredRole dept) in
    let isAlreadyMember := bool_decide (is_Some (dept_members dept !! uid)) in
    let result eligible status :=
      {| dr_id := id; dr_name := default "" (dept_name dept);
         dr_role := userRoleName; dr_rank := userRank;
         dr_eligible := eligible; dr_status := status |} in
    if isAlreadyMember then
      Some {| do_result := result true "active"; do_write := None |}
    else
      match groupInfo with
      | Some info =>
          if isMainGroupMember && (requiredRank <=? gi_rank info) then
            if dept_autoApprove dept then
              Some {| do_result := result true "active";
                      do_write := Some {| joinedAt := now;
                                          m_role := userRoleName;
                                          m_rank := userRank |} |}
            else
              Some {| do_result := result true "pending"; do_write := None |}
          else
            Some {| do_result := result false "ineligible"; do_write := None |}
      | None =>
          Some {| do_result := result false "ineligible"; do_write := None |}
      end.

Definition awaited (o : DeptOutcome) : bool :=
  match do_write o with Some _ => true | None => false end.

Definition member_write (uid : string) (o : DeptOutcome) : option Write :=
  WSetMember (dr_id (do_result o)) uid <$> do_write o.

(** The callbacks of [Promise.all(Object.entries(departments).map(...))] run
    in order, each up to its first [await]: a callback that writes nothing
    pushes its result at once; one that auto-adds issues its write and pushes
    when the write is acknowledged, acknowledgements coming in the order of
    the writes. *)
Definition dept_outcomes (uid : string) (isMainGroupMember : bool)
    (groupRoleMap : gmap string GroupInfo) (now : Z)
    (depts : list (string * Department)) : list DeptOutcome :=
  omap (fun '(id, dept) =>
          evalDepartment uid isMainGroupMember groupRoleMap now id dept) depts.

Definition dept_results (outcomes : list DeptOutcome) : list DeptResult :=
  (map do_result (List.filter (fun o => negb (awaited o)) outcomes)
   ++ map do_result (List.filter awaited outcomes))%list.

Definition auto_added (outcomes : list DeptOutcome) : list string :=
  map (fun o => dr_id (do_result o)) (List.filter awaited outcomes).

Record EligibleData : Type := {
  mainGroupMember : bool;
  mainGroupRole : option string;
  resp_departments : list DeptResult;
  autoAddDepartments : list string;
  resp_primaryDepartment : option string
}.

Inductive EligibleResponse : Type :=
| Eligible200 (data : EligibleData)
| Eligible500.

(** The handler.  [external] is the answer of the membership service
    ([None] when the call fails or times out), [now] the clock.  The partner
    list, which reads only, is left out. *)
Definition eligibleHandler (uid : string) (userData : UserRecord)
    (external : option (list Membership)) (now : Z) : M EligibleResponse :=
  match external with
  | None => ret Eligible500
  | Some memberships =>
      let groupRoleMap := build_groupRoleMap memberships in
      let mainGroupInfo := groupRoleMap !! MAIN_GROUP_ID in
      let isMainGroupMember := bool_decide (is_Some mainGroupInfo) in
      let mainGroupRole := gi_name <$> mainGroupInfo in
      emit (WSetProfileRole uid mainGroupRole) ;;
      db <- snapshot ;;
      let outcomes :=
        dept_outcomes uid isMainGroupMember groupRoleMap now (departments db) in
      emit_all (omap (member_write uid) outcomes) ;;
      let deptResults := dept_results outcomes in
      let autoAdd := auto_added outcomes in
      let primaryDepartment := onboarding_primaryDepartment userData in
      let finish primaryDepartment :=
        ret (Eligible200
               {| mainGroupMember := isMainGroupMember;
                  mainGroupRole := mainGroupRole;
                  resp_departments := deptResults;
                  autoAddDepartments := autoAdd;
                  resp_primaryDepartment :=
                    if truthy_str primaryDepartment then primaryDepartment
                    else None |}) in
      if negb (truthy_str primaryDepartment)
         && (0 <? Z.of_nat (length deptResults)) then
        let autoSelectedPrimary := getHighestPriorityDepartment deptResults in
        match autoSelectedPrimary with
        | Some selected =>
            if truthy_str autoSelectedPrimary then
              emit (WUpdatePrimary uid selected now) ;;
              finish autoSelectedPrimary
            else finish primaryDepartment
        | None => finish primaryDepartment
        end
      else finish primaryDepartment
  end.

(** A whole request: middleware, then handler. *)
Definition eligibleRequest (uid : string) (external : option (list Membership))
    (now : Z) : M EligibleResponse :=
  userData <- authenticateToken uid ;;
  eligibleHandler uid userData external now.

(** Running a computation on a database, with an empty log. *)
Definition run {A : Type} (m : M A) (db : DB) : Outcome A * Store := m (db, []).

Definition db_after {A : Type} (r : Outcome A * Store) : DB := fst (snd r).
Definition writes_of {A : Type} (r : Outcome A * Store) : list Write := snd (snd r).
Definition outcome_of {A : Type} (r : Outcome A * Store) : Outcome A := fst r.

(** The primary department stored for a user. *)
Definition stored_primary (db : DB) (uid : string) : option string :=
  users db !! uid ≫= onboarding_primaryDepartment.

(** The members of a department, by id. *)
Definition members_of (db : DB) (deptId : string) : gmap string MemberEntry :=
  match List.find (fun '(id, _) => String.eqb id deptId) (departments db) with
  | Some (_, d) => dept_members d
  | None => ∅
  end.

Definition writes_member (w : Write) (deptId uid : string) : Prop :=
  exists entry, w = WSetMember deptId uid entry.

Definition writes_primary (w : Write) (uid : string) : Prop :=
  exists primary updatedAt, w = WUpdatePrimary uid primary updatedAt.

(** The database after a list of writes. *)
Definition apply_writes (ws : list Write) (db : DB) : DB :=
  fold_left (fun d w => apply_write w d) ws db.

(** The department the handler selects and stores as primary, if any. *)
Definition auto_selected (userData : UserRecord) (results : list DeptResult)
  : option string :=
  if negb (truthy_str (onboarding_primaryDepartment userData))
     && (0 <? Z.of_nat (length results)) then
    match getHighestPriorityDepartment results with
    | Some selected => if truthy_str (Some selected) then Some selected else None
    | None => None
    end
  else None.

(** Department ids are the keys of an object: no id comes twice. *)
Definition distinct_ids (db : DB) : Prop := NoDup (map fst (departments db)).

(** The user is newly eligible for the department: in the main group, of
    sufficient rank in the backing group, and not yet a member. *)
Definition newly_eligible (uid : string) (memberships : list Membership)
    (dept : Department) (info : GroupInfo) : Prop :=
  is_Some (build_groupRoleMap memberships !! MAIN_GROUP_ID)
  /\ (exists g, dept_groupId dept = Some g
                /\ build_groupRoleMap memberships !! g = Some info)
  /\ default 0 (dept_requiredRole dept) <= gi_rank info
  /\ dept_members dept !! uid = None.

(** ** Form and session eligibility, session registration (FirebaseService) *)

Record EligibilityResult : Type := {
  eligible : bool;
  reason : option string
}.

(** [a < b] on doubles. *)
Definition jlt (a b : jsnum) : bool :=
  match a, b with
  | Fin x, Fin y => negb (Qle_bool y x)
  | _, _ => false
  end.

(** [requirements.minLevel && user.permissions?.level < requirements.minLevel]:
    a missing level compares false. *)
Definition below_min_level (minLevel level : option Z) : bool :=
  truthy_num minLevel &&
  match level, minLevel with
  | Some l, Some m => l <? m
  | _, _ => false
  end.

(** [(Date.now() - createdAt) / (1000 * 60 * 60 * 24)]. *)
Definition daysSinceJoin `{Rounding} (now : Z) (createdAt : option Z) : jsnum :=
  match createdAt with
  | Some c => Fin (fl (inject_Z (now - c) / inject_Z (1000 * 60 * 60 * 24)))
  | None => NaN
  end.

Definition too_recent `{Rounding} (now : Z) (minDaysActive createdAt : option Z)
  : bool :=
  truthy_num minDaysActive &&
  jlt (daysSinceJoin now createdAt) (jsnum_of_Z (default 0 minDaysActive)).

(** [list && !list.includes(x)], [x] possibly undefined. *)
Definition not_in_required (required : option (list string)) (x : option string)
  : bool :=
  match required with
  | Some l => negb (match x with
                    | Some d => bool_decide (d ∈ l)
                    | None => false
                    end)
  | None => false
  end.

(** [list && list.includes(x)]. *)
Definition in_blacklist (blacklist : option (list string)) (x : option string)
  : bool :=
  match blacklist, x with
  | Some l, Some r => bool_decide (r ∈ l)
  | _, _ => false
  end.

(** [ref('/forms/submissions').orderByChild('userId').equalTo(userId)
    .orderByChild('formId')]: a query takes one ordering, and the database
    client throws on the second [orderByChild], before anything is read. *)
Definition existingSubmission_query (userId formId : string)
  : M (list Submission) :=
  throw "Query.orderByChild: You can't combine multiple orderBy calls.".

Definition pending_or_approved (sub : Submission) : bool :=
  String.eqb (sub_status sub) "pending" || String.eqb (sub_status sub) "approved".

Definition checkFormEligibility `{Rounding} (now : Z) (formId userId : string)
  : M EligibilityResult :=
  db <- snapshot ;;
  match templates db !! formId, users db !! userId with
  | Some form, Some user =>
      if below_min_level (req_minLevel form) (perm_level user) then
        ret {| eligible := false;
               reason := Some ("Minimum level "
                               +:+ pretty (default 0 (req_minLevel form))
                               +:+ " required") |}
      else if too_recent now (req_minDaysActive form) (activity_createdAt user) then
        ret {| eligible := false;
               reason := Some ("Must be active for "
                               +:+ pretty (default 0 (req_minDaysActive form))
                               +:+ " days") |}
      else if not_in_required (req_requiredDepartments form) (perm_department user) then
        ret {| eligible := false; reason := Some "Department requirement not met" |}
      else if in_blacklist (req_blacklistedRoles form) (perm_role user) then
        ret {| eligible := false; reason := Some "Role restriction applies" |}
      else
        existingSubmission <- existingSubmission_query userId formId ;;
        if existsb pending_or_approved existingSubmission then
          ret {| eligible := false; reason := Some "Already submitted or approved" |}
        else
          ret {| eligible := true; reason := None |}
  | _, _ => ret {| eligible := false; reason := Some "Form or user not found" |}
  end.

(** The requirement checks other than the duplicate-submission guard. *)
Definition form_requirements_met `{Rounding} (now : Z) (form : Form)
    (user : UserRecord) : bool :=
  negb (below_min_level (req_minLevel form) (perm_level user))
  && negb (too_recent now (req_minDaysActive form) (activity_createdAt user))
  && negb (not_in_required (req_requiredDepartments form) (perm_department user))
  && negb (in_blacklist (req_blacklistedRoles form) (perm_role user)).

(** [session.attendees?.some(...)]: a plain object has no [some], the call
    throws a [TypeError]. *)
Definition checkSessionEligibility (session : Session) (userId : string)
  : M EligibilityResult :=
  db <- snapshot ;;
  match users db !! userId with
  | None => ret {| eligible := false; reason := Some "User not found" |}
  | Some user =>
      if below_min_level (s_minLevel session) (perm_level user) then
        ret {| eligible := false;
               reason := Some ("Minimum level "
                               +:+ pretty (default 0 (s_minLevel session))
                               +:+ " required") |}
      else if not_in_required (s_departments session) (perm_department user) then
        ret {| eligible := false; reason := Some "Department requirement not met" |}
      else
        match s_attendees session with
        | AttObject _ => throw "session.attendees?.some is not a function"
        | AttUndefined => ret {| eligible := true; reason := None |}
        | AttArray l =>
            if existsb (fun attendee => String.eqb (att_userId attendee) userId) l
            then ret {| eligible := false;
                        reason := Some "Already registered for this session" |}
            else ret {| eligible := true; reason := None |}
        end
  end.

(** [a >= b] on numbers that may be undefined. *)
Definition ge_undef (a b : option Z) : bool :=
  match a, b with
  | Some x, Some y => y <=? x
  | _, _ => false
  end.

(** [key] is the id [push] generates, [now] the clock. *)
Definition registerForSession (now : Z) (key : string)
    (sessionId userId : string) : M bool :=
  db <- snapshot ;;
  match sessions db !! sessionId with
  | None => throw "Session not found"
  | Some session =>
      match s_capacity session with
      | None => throw "Cannot read properties of undefined (reading 'current')"
      | Some capacity =>
          if ge_undef (cap_current capacity) (cap_max capacity) then
            throw "Session is full"
          else
            userEligible <- checkSessionEligibility session userId ;;
            if negb (eligible userEligible) then
              throw (default "null" (reason userEligible))
            else
              let attendeeData :=
                {| att_userId := userId; att_status := "confirmed";
                   att_registeredAt := now |} in
              emit (WPushAttendee sessionId key attendeeData) ;;
              emit (WIncrementCurrent sessionId) ;;
              ret true
      end
  end.

(** What is stored for a session: its counter and its attendees. *)
Definition stored_current (db : DB) (sessionId : string) : option Z :=
  match sessions db !! sessionId with
  | Some session => s_capacity session ≫= cap_current
  | None => None
  end.

Definition stored_attendees (db : DB) (sessionId : string) : option Attendees :=
  s_attendees <$> sessions db !! sessionId.

(** ** Assignment status workflow ([PATCH /api/assignments/:id/status]) *)

Definition validTransitions : list (string * list string) :=
  [ ("pending", ["in_progress"]);
    ("in_progress", ["under_review"; "pending"]);
    ("under_review", ["completed"; "in_progress"]);
    ("completed", []) ].

Inductive PatchResponse : Type :=
| Patch404                                   (* Assignment not found *)
| Patch403NotAuthorized                      (* Not authorized to update *)
| Patch403OnlyManagers                       (* Only managers can approve *)
| Patch400 (from to : option string)         (* Invalid status transition *)
| Patch200 (oldStatus : option string) (newStatus : string).

(** ** Paths of the database client

    A path handed to [db.ref] or [child] is refused, the client throws, when
    it holds one of the characters [. # $ [ ]] or a control character; [/]
    separates the segments of a path. *)
Definition refused_char (c : Ascii.ascii) : bool :=
  bool_decide (Ascii.N_of_ascii c ∈ [46; 35; 36; 91; 93; 127]%N)
  || (Ascii.N_of_ascii c <? 32)%N.

Definition path_refused (path : string) : bool :=
  existsb refused_char (String.list_ascii_of_string path).

Definition has_slash (s : string) : bool :=
  existsb (fun c => (Ascii.N_of_ascii c =? 47)%N) (String.list_ascii_of_string s).

(** An id spliced into a path names one child when it is not empty and
    holds no [/]. *)
Definition one_segment (s : string) : bool :=
  negb (String.eqb s "") && negb (has_slash s).

(** An id that names one child, that the client accepts, and that an object
    read from the database holds as a key of its own: [obj["__proto__"] = v]
    sets no property. *)
Definition plain_key (s : string) : bool :=
  one_segment s && negb (String.eqb s "__proto__") && negb (path_refused s).

(** [validTransitions[from]?.includes(to)] for a [from] that is an own key
    of the table or names no property at all. *)
Definition transition_listed (from to : option string) : bool :=
  match from ≫= (fun f => assoc f validTransitions), to with
  | Some targets, Some t => bool_decide (t ∈ targets)
  | _, _ => false
  end.

(** For a stored status that names a property the table inherits
    ([constructor], [toString], ...), [validTransitions[from]] is a function
    or the prototype object: it has no [includes], and the call throws. *)
Definition inherited_status (from : option string) : bool :=
  match from with
  | Some f => inherited_key f
  | None => false
  end.

(** [level] is [req.userData?.permissions?.level], [status] the requested
    status of the request body, [assignmentId] one path segment.  The
    reference [db.ref(`assignments/tasks/${assignmentId}`)] is built first. *)
Definition patchAssignmentStatus (now : Z) (assignmentId : string)
    (status : option string) (userId : string) (level : option Z)
  : M PatchResponse :=
  let userPermissionLevel := num_or level 0 in
  if path_refused assignmentId then
    throw "Reference.child failed: the path holds an invalid character"
  else
  db <- snapshot ;;
  match tasks db !! assignmentId with
  | None => ret Patch404
  | Some assignment =>
      let isAssignedUser :=
        bool_decide (a_assignedTo assignment = Some userId) in
      let isManager := 5 <=? userPermissionLevel in
      if negb isAssignedUser && negb isManager then ret Patch403NotAuthorized
      else if negb isManager && isAssignedUser
              && bool_decide (a_status assignment = Some "under_review")
              && negb (bool_decide (status = Some "in_progress")) then
        ret Patch403OnlyManagers
      else if inherited_status (a_status assignment) then
        throw "validTransitions[assignment.status]?.includes is not a function"
      else if negb (transition_listed (a_status assignment) status) then
        ret (Patch400 (a_status assignment) status)
      else
        match status with
        | Some newStatus =>
            emit (WUpdateTask assignmentId newStatus (now / 1000)
                    (if String.eqb newStatus "completed" then Some userId
                     else None)) ;;
            ret (Patch200 (a_status assignment) newStatus)
        | None => ret (Patch400 (a_status assignment) status)
        end
  end.

Definition stored_status (db : DB) (assignmentId : string) : option string :=
  tasks db !! assignmentId ≫= a_status.

Definition is_manager (level : option Z) : bool := 5 <=? num_or level 0.

(** Sample records used in the examples. *)
Definition user_with (level : option Z) (primary dept : option string) : UserRecord :=
  {| profile_role := None; onboarding_primaryDepartment := primary;
     department := None; perm_level := level; perm_department := dept;
     perm_role := None; activity_createdAt := None; activity_updatedAt := None |}.

Definition dept_result (id : string) (eligible : bool) (status : string) : DeptResult :=
  {| dr_id := id; dr_name := ""; dr_role := None; dr_rank := None;
     dr_eligible := eligible; dr_status := status |}.

(** Sample quiz, responses and forms used in the examples. *)
Definition sample_quiz : Field :=
  {| f_id := "field_1"; f_type := "quiz"; f_validation := None;
     f_questions := [ {| q_correct := VNum 1 |}; {| q_correct := VStr "b" |} ] |}.

Definition sample_responses : list (string * JsVal) :=
  [ ("field_1", VObj [("answers", VArr [VNum 1; VStr "c"])]) ].

Definition form_with (fields : list Field) (thresholds : option Thresholds) : Form :=
  {| form_fields := fields; form_thresholds := thresholds;
     req_minLevel := None; req_minDaysActive := None;
     req_requiredDepartments := None; req_blacklistedRoles := None |}.

(** A text scorer that gives nothing, for forms without text fields. *)
Definition no_text_score (_ : JsVal) (_ : Validation) : TextScore :=
  {| ts_grammar := Fin 0; ts_length := Fin 0; ts_total := Fin 0 |}.

(** A form whose reject bound is above its approve bound. *)
Definition overlapping_form : Form :=
  form_with [sample_quiz]
    (Some {| autoApprove := jsnum_of_Z 50; autoReject := jsnum_of_Z 60 |}).

(** The edges the workflow is said to have. *)
Definition workflow_edges : list (string * string) :=
  [ ("pending", "in_progress");
    ("in_progress", "under_review");
    ("in_progress", "pending");
    ("under_review", "completed");
    ("under_review", "in_progress") ].

(** Sample databases used in the examples. *)
Definition empty_db : DB :=
  {| users := ∅; departments := []; templates := ∅; submissions := [];
     sessions := ∅; tasks := ∅ |}.

(** User [u1] (level 3, department hr), form [f1] (level 2 and department hr
    required) and one submission of [u1] for [f1] per given status. *)
Definition forms_db (statuses : list string) : DB :=
  {| users := {[ "u1" := user_with (Some 3) None (Some "hr") ]};
     departments := [];
     templates :=
       {[ "f1" := {| form_fields := []; form_thresholds := None;
                     req_minLevel := Some 2; req_minDaysActive := None;
                     req_requiredDepartments := Some ["hr"; "corporate"];
                     req_blacklistedRoles := None |} ]};
     submissions :=
       map (fun st => {| sub_userId := "u1"; sub_formId := "f1";
                         sub_status := st |}) statuses;
     sessions := ∅; tasks := ∅ |}.

(** Session [s1] with the given counter, bound and attendees. *)
Definition session_db (current max : Z) (attendees : Attendees) : DB :=
  {| users := {[ "u1" := user_with (Some 3) None (Some "hr") ]};
     departments := []; templates := ∅; submissions := [];
     sessions :=
       {[ "s1" := {| s_capacity := Some {| cap_max := Some max;
                                           cap_current := Some current |};
                     s_minLevel := None; s_departments := None;
                     s_attendees := attendees |} ]};
     tasks := ∅ |}.

(** Task [t1], assigned to [u1], in the given status. *)
Definition task_db (status : string) : DB :=
  {| users := ∅; departments := []; templates := ∅; submissions := [];
     sessions := ∅;
     tasks := {[ "t1" := {| a_assignedTo := Some "u1"; a_status := Some status;
                            a_updatedAt := None; a_completedAt := None;
                            a_completedBy := None |} ]} |}.

(** The writes of a run, in order: the profile role, the member entries of
    the auto-approved departments, and the primary department when one is
    selected. *)
Definition handler_writes (uid : string) (userData : UserRecord)
    (memberships : list Membership) (now : Z) (db : DB) : list Write :=
  let groupRoleMap := build_groupRoleMap memberships in
  let isMainGroupMember := bool_decide (is_Some (groupRoleMap !! MAIN_GROUP_ID)) in
  let outcomes :=
    dept_outcomes uid isMainGroupMember groupRoleMap now (departments db) in
  (WSetProfileRole uid (gi_name <$> groupRoleMap !! MAIN_GROUP_ID)
   :: omap (member_write uid) outcomes
   ++ match auto_selected userData (dept_results outcomes) with
      | Some selected => [WUpdatePrimary uid selected now]
      | None => []
      end)%list.

Definition handler_data (uid : string) (userData : UserRecord)
    (memberships : list Membership) (now : Z) (db : DB) : EligibleData :=
  let groupRoleMap := build_groupRoleMap memberships in
  let isMainGroupMember := bool_decide (is_Some (groupRoleMap !! MAIN_GROUP_ID)) in
  let outcomes :=
    dept_outcomes uid isMainGroupMember groupRoleMap now (departments db) in
  {| mainGroupMember := isMainGroupMember;
     mainGroupRole := gi_name <$> groupRoleMap !! MAIN_GROUP_ID;
     resp_departments := dept_results outcomes;
     autoAddDepartments := auto_added outcomes;
     resp_primaryDepartment :=
       match auto_selected userData (dept_results outcomes) with
       | Some selected => Some selected
       | None => if truthy_str (onboarding_primaryDepartment userData)
                 then onboarding_primaryDepartment userData else None
       end |}.

(** What a list of writes does to the department stored under [id]. *)
Definition dept_after (id : string) (ws : list Write) (d : Department) : Department :=
  fold_left (fun d w =>
               match w with
               | WSetMember deptId uid entry =>
                   if String.eqb id deptId then add_member uid entry d else d
               | _ => d
               end) ws d.

(** The entry written for a user of the given standing in the backing group. *)
Definition member_entry (now : Z) (info : GroupInfo) : MemberEntry :=
  {| joinedAt := now; m_role := Some (gi_name info); m_rank := Some (gi_rank info) |}.

(** A registry with a department that asks for approval ([moderation]) and
    one that auto-approves ([hr]); user [42] is stored with the given primary
    department. *)
Definition sample_department (groupId : string) (requiredRole : Z)
    (autoApprove : bool) : Department :=
  {| dept_name := None; dept_groupId := Some groupId; dept_isActive := true;
     dept_requiredRole := Some requiredRole; dept_autoApprove := autoApprove;
     dept_members := ∅ |}.

Definition onboarding_db (primary : option string) : DB :=
  {| users := {[ "42" := user_with (Some 1) primary None ]};
     departments := [ ("hr", sample_department "200" 10 true);
                      ("moderation", sample_department "100" 50 false) ];
     templates := ∅; submissions := []; sessions := ∅; tasks := ∅ |}.

(** The user is in the main group, in group 100 with rank 60 and in group
    200 with rank 20. *)
Definition sample_memberships : list Membership :=
  [ {| g_groupId := "5692925"; g_roleName := "Member"; g_roleRank := 1 |};
    {| g_groupId := "100"; g_roleName := "Moderator"; g_roleRank := 60 |};
    {| g_groupId := "200"; g_roleName := "HR Staff"; g_roleRank := 20 |} ].

(** ** Setting the primary department by hand
    ([POST /api/onboarding/set-primary-department]) *)

(** [ref(`/departments/${id}`).once("value")] for an [id] that names one
    child of [/departments] (a [plain_key]). *)
Definition lookup_department (db : DB) (id : string) : option Department :=
  snd <$> List.find (fun '(k, _) => String.eqb k id) (departments db).

Inductive SetPrimaryResponse : Type :=
| SetPrimary400 (error : string)
| SetPrimary500
| SetPrimary200 (primaryDepartment : string).

(** [departmentId] is the field of the request body, [external] the answer
    of the membership service ([None] when the call fails). *)
Definition setPrimaryDepartment (userId : string) (departmentId : option string)
    (external : option (list Membership)) (now : Z) : M SetPrimaryResponse :=
  match departmentId with
  | Some id =>
      if negb (truthy_str departmentId) then
        ret (SetPrimary400 "Department ID is required")
      else
        match external with
        | None => ret SetPrimary500
        | Some memberships =>
            let groupRoleMap := build_groupRoleMap memberships in
            let mainGroupInfo := groupRoleMap !! MAIN_GROUP_ID in
            let isMainGroupMember := bool_decide (is_Some mainGroupInfo) in
            if negb isMainGroupMember then
              ret (SetPrimary400 "User must be a member of the main group")
            else
              db <- snapshot ;;
              match lookup_department db id with
              | None => ret (SetPrimary400 "Invalid or inactive department")
              | Some department =>
                  if negb (dept_isActive department) then
                    ret (SetPrimary400 "Invalid or inactive department")
                  else
                    let groupInfo :=
                      dept_groupId department ≫= (fun g => groupRoleMap !! g) in
                    let requiredRank := default 0 (dept_requiredRole department) in
                    let isAlreadyMember :=
                      bool_decide (is_Some (dept_members department !! userId)) in
                    let eligible :=
                      if isAlreadyMember then true
                      else match groupInfo with
                           | Some info =>
                               isMainGroupMember && (requiredRank <=? gi_rank info)
                           | None => false
                           end in
                    if negb eligible then
                      ret (SetPrimary400 "User is not eligible for this department")
                    else
                      emit (WUpdatePrimary userId id now) ;;
                      ret (SetPrimary200 id)
              end
        end
  | None => ret (SetPrimary400 "Department ID is required")
  end.

(** A whole request: middleware, then handler. *)
Definition setPrimaryRequest (userId : string) (departmentId : option string)
    (external : option (list Membership)) (now : Z) : M SetPrimaryResponse :=
  _ <- authenticateToken userId ;;
  setPrimaryDepartment userId departmentId external now.

(** The conditions under which the handler accepts a department: the user is
    in the main group, the department is active, and the user is a member of
    it already or has the required rank in its backing group. *)
Definition may_set_primary (userId : string) (memberships : list Membership)
    (dept : Department) : Prop :=
  is_Some (build_groupRoleMap memberships !! MAIN_GROUP_ID)
  /\ dept_isActive dept = true
  /\ (is_Some (dept_members dept !! userId)
      \/ exists g info,
           dept_groupId dept = Some g
           /\ build_groupRoleMap memberships !! g = Some info
           /\ default 0 (dept_requiredRole dept) <= gi_rank info).

(** ** Route guards (authentication middleware) *)

(** [req.userData] as the middleware builds it: the user document and the
    [isApiKey] flag. *)
Record ReqUser : Type := {
  ru_data : UserRecord;
  ru_isApiKey : bool
}.

Inductive GuardResult : Type :=
| Next
| Deny403 (error : string).

(** [req.userData?.permissions?.level || 0]. *)
Definition guard_level (req : option ReqUser) : Z :=
  num_or (req ≫= (fun r => perm_level (ru_data r))) 0.

(** [req.userData?.isApiKey || false]. *)
Definition guard_isApiKey (req : option ReqUser) : bool :=
  match req with Some r => ru_isApiKey r | None => false end.

Definition requirePermission (minLevel : Z) (req : option ReqUser) : GuardResult :=
  let userLevel := guard_level req in
  let isApiKey := guard_isApiKey req in
  if isApiKey && (10 <=? userLevel) then Next
  else if userLevel <? minLevel then
    Deny403 ("Insufficient permissions. Required: " +:+ pretty minLevel
             +:+ ", Current: " +:+ pretty userLevel)
  else Next.

Definition requireDepartment (department : string) (req : option ReqUser)
  : GuardResult :=
  let userDepartment := req ≫= (fun r => perm_department (ru_data r)) in
  let userLevel := guard_level req in
  let isApiKey := guard_isApiKey req in
  if isApiKey && (10 <=? userLevel) then Next
  else if (8 <=? userLevel) || bool_decide (userDepartment = Some department) then Next
  else Deny403 "Department access denied".

(** The [roles] argument: one role or an array of roles. *)
Inductive RolesArg : Type :=
| OneRole (role : string)
| ManyRoles (roles : list string).

(** [Array.isArray(roles) ? roles : [roles]]. *)
Definition allowedRoles (roles : RolesArg) : list string :=
  match roles with
  | OneRole r => [r]
  | ManyRoles l => l
  end.

(** [list.includes(x)] for a possibly undefined [x]. *)
Definition includes_opt (l : list string) (x : option string) : bool :=
  match x with
  | Some s => bool_decide (s ∈ l)
  | None => false
  end.

Definition requireRole (roles : RolesArg) (req : option ReqUser) : GuardResult :=
  let userRole := req ≫= (fun r => perm_role (ru_data r)) in
  let userLevel := guard_level req in
  let isApiKey := guard_isApiKey req in
  if isApiKey && (10 <=? userLevel) then Next
  else if 8 <=? userLevel then Next
  else if negb (includes_opt (allowedRoles roles) userRole) then
    Deny403 "Role access denied"
  else Next.

Definition requireDepartmentOrRole (department : string) (roles : RolesArg)
    (req : option ReqUser) : GuardResult :=
  let userDepartment := req ≫= (fun r => perm_department (ru_data r)) in
  let userRole := req ≫= (fun r => perm_role (ru_data r)) in
  let userLevel := guard_level req in
  let isApiKey := guard_isApiKey req in
  if isApiKey && (10 <=? userLevel) then Next
  else if 8 <=? userLevel then Next
  else if bool_decide (userDepartment = Some department)
          || includes_opt (allowedRoles roles) userRole then Next
  else Deny403 "Department or role access denied".

(** A request user with the given permissions. *)
Definition req_user (level : option Z) (dept role : option string) (isApiKey : bool)
  : option ReqUser :=
  Some {| ru_data :=
            {| profile_role := None; onboarding_primaryDepartment := None;
               department := None; perm_level := level; perm_department := dept;
               perm_role := role; activity_createdAt := None;
               activity_updatedAt := None |};
          ru_isApiKey := isApiKey |}.

(** ** Listing the applications (applications router) *)

(** [getUserRoles]; [roles] is [permissions.roles] when it is an array. *)
Definition getUserRoles (roles : option (list string)) (userData : UserRecord)
  : list string :=
  match roles with
  | Some l => l
  | None => if truthy_str (perm_role userData)
            then [default "" (perm_role userData)]
            else ["basic_access"]
  end.

Definition permission_passes (roles : option (list string)) (userData : UserRecord)
    (perm : string) : bool :=
  let userLevel := userLevelOf userData in
  let userDepartment := getUserDepartmentGroup userData in
  if String.eqb perm "basic_access" then PERMISSION_LEVELS.BASIC <=? userLevel
  else if String.eqb perm "department_admin" then
    PERMISSION_LEVELS.DEPARTMENT_ADMIN <=? userLevel
  else if String.eqb perm "corporate_access" then
    String.eqb userDepartment DEPARTMENTS.CORPORATE
  else if String.eqb perm "admin_access" then PERMISSION_LEVELS.ADMIN <=? userLevel
  else if String.eqb perm "developer_access" then
    PERMISSION_LEVELS.DEVELOPER <=? userLevel
  else if String.eqb perm "group_access" then PERMISSION_LEVELS.BASIC <=? userLevel
  else if String.eqb perm "department_access" then
    PERMISSION_LEVELS.BASIC <=? userLevel
  else bool_decide (perm ∈ getUserRoles roles userData).

Definition hasRequiredPermissions (roles : option (list string))
    (userData : UserRecord) (requiredPermissions : option (list string)) : bool :=
  match requiredPermissions with
  | None | Some [] => true
  | Some perms =>
      let userLevel := userLevelOf userData in
      let userDepartment := getUserDepartmentGroup userData in
      if PERMISSION_LEVELS.DEVELOPER <=? userLevel then true
      else if String.eqb userDepartment DEPARTMENTS.CORPORATE
              || (PERMISSION_LEVELS.CORPORATE <=? userLevel) then true
      else existsb (permission_passes roles userData) perms
  end.

(** [applications/{id}], as far as the listing reads it. *)
Record Application : Type := {
  app_enabled : option bool;
  app_requiredPermissions : option (list string);
  app_department : option string;
  app_category : option string
}.

Record AppFilters : Type := {
  flt_department : option string;
  flt_category : option string;
  flt_enabled : option bool          (* [enabled = true] when absent *)
}.

(** [s.includes(pat)]. *)
Fixpoint js_includes (pat s : string) : bool :=
  String.prefix pat s
  || match s with
     | EmptyString => false
     | String _ rest => js_includes pat rest
     end.

(** [s.replace(pat, rep)]: the first occurrence only. *)
Fixpoint js_replace (pat rep s : string) : string :=
  if String.prefix pat s then
    rep +:+ String.substring (String.length pat)
              (String.length s - String.length pat) s
  else match s with
       | EmptyString => EmptyString
       | String c rest => String c (js_replace pat rep rest)
       end.

(** The test of the [filter] callback of [filterApplications]. *)
Definition app_listed (roles : option (list string))
    (applications : list (string * Application)) (userData : UserRecord)
    (filters : AppFilters) (appId : string) (app : Application) : bool :=
  let enabled := default true (flt_enabled filters) in
  let userLevel := userLevelOf userData in
  if enabled && bool_decide (app_enabled app = Some false) then false
  else if (PERMISSION_LEVELS.CORPORATE <=? userLevel)
          && js_includes "-basic" appId
          && bool_decide (is_Some (assoc (js_replace "-basic" "-corporate" appId)
                                     applications)) then false
  else if negb (hasAppAccess userData appId) then false
  else if negb (hasRequiredPermissions roles userData (app_requiredPermissions app))
  then false
  else if truthy_str (flt_department filters) && truthy_str (app_department app)
          && negb (bool_decide (app_department app = flt_department filters))
  then false
  else if truthy_str (flt_category filters)
          && negb (bool_decide (app_category app = flt_category filters))
  then false
  else true.

Definition filterApplications (roles : option (list string))
    (applications : list (string * Application)) (userData : UserRecord)
    (filters : AppFilters) : list (string * Application) :=
  List.filter (fun '(appId, app) =>
                 app_listed roles applications userData filters appId app)
              applications.

Definition no_filters : AppFilters :=
  {| flt_department := None; flt_category := None; flt_enabled := None |}.

Definition plain_app : Application :=
  {| app_enabled := None; app_requiredPermissions := None;
     app_department := None; app_category := None |}.

(** A catalog with a lesser duplicate. *)
Definition sample_catalog : list (string * Application) :=
  [ ("oam-basic", plain_app); ("oam-corporate", plain_app); ("forms", plain_app) ].

(** The attendee record [registerForSession] pushes. *)
Definition confirmed_attendee (userId : string) (now : Z) : Attendee :=
  {| att_userId := userId; att_status := "confirmed"; att_registeredAt := now |}.


(** ** Sequences of status updates *)

(** One [PATCH /api/assignments/:id/status] request. *)
Record PatchRequest : Type := {
  pr_now : Z;
  pr_assignmentId : string;
  pr_status : option string;
  pr_userId : string;
  pr_level : option Z
}.

(** The database after a request, and after a sequence of requests. *)
Definition patch_step (db : DB) (rq : PatchRequest) : DB :=
  db_after (run (patchAssignmentStatus (pr_now rq) (pr_assignmentId rq)
                   (pr_status rq) (pr_userId rq) (pr_level rq)) db).

Definition run_patches (rqs : list PatchRequest) (db : DB) : DB :=
  fold_left patch_step rqs db.

(** How far a status is along pending, in_progress, under_review,
    completed. *)
Definition progress (status : option string) : nat :=
  match status with
  | Some s =>
      if String.eqb s "in_progress" then 1
      else if String.eqb s "under_review" then 2
      else if String.eqb s "completed" then 3
      else 0
  | None => 0
  end%nat.

(** The write of an accepted status update. *)
Definition status_write (now : Z) (assignmentId to userId : string) : Write :=
  WUpdateTask assignmentId to (now / 1000)
    (if String.eqb to "completed" then Some userId else None).

(** The assigned user starts the task and hands it in, a manager approves. *)
Definition sample_requests : list PatchRequest :=
  [ {| pr_now := 1; pr_assignmentId := "t1"; pr_status := Some "in_progress";
       pr_userId := "u1"; pr_level := Some 3 |};
    {| pr_now := 2; pr_assignmentId := "t1"; pr_status := Some "under_review";
       pr_userId := "u1"; pr_level := Some 3 |};
    {| pr_now := 3; pr_assignmentId := "t1"; pr_status := Some "completed";
       pr_userId := "boss"; pr_level := Some 5 |} ].

(** ** Text responses (FirebaseService.evaluateTextResponse)

    A string is the sequence of its code units, each below 256. *)

Definition code_unit (c : Ascii.ascii) : N := Ascii.N_of_ascii c.

(** [\s] and the characters [trim] removes, among the code units below 256:
    tab, line feed, vertical tab, form feed, carriage return, space and
    no-break space. *)
Definition js_whitespace (c : Ascii.ascii) : bool :=
  bool_decide (code_unit c ∈ [9; 10; 11; 12; 13; 32; 160]%N).

(** [[.!?]]. *)
Definition is_terminator (c : Ascii.ascii) : bool :=
  bool_decide (code_unit c ∈ [46; 33; 63]%N).

(** [[A-Z]]. *)
Definition is_upper (c : Ascii.ascii) : bool :=
  (65 <=? code_unit c)%N && (code_unit c <=? 90)%N.

(** [s.split(/[sep]+/)]: the pieces between the maximal runs of separators,
    with an empty first or last piece when the string starts or ends with a
    separator.  [piece] is the current piece, reversed; [in_run] tells that
    the previous character was a separator. *)
Fixpoint split_runs (sep : Ascii.ascii -> bool) (cs piece : list Ascii.ascii) (in_run : bool)
  : list (list Ascii.ascii) :=
  match cs with
  | [] => [rev piece]
  | c :: rest =>
      if sep c then
        if in_run then split_runs sep rest piece true
        else rev piece :: split_runs sep rest [] true
      else split_runs sep rest (c :: piece) false
  end.

Definition js_split (sep : Ascii.ascii -> bool) (s : string) : list (list Ascii.ascii) :=
  split_runs sep (String.list_ascii_of_string s) [] false.

Fixpoint drop_leading (p : Ascii.ascii -> bool) (cs : list Ascii.ascii) : list Ascii.ascii :=
  match cs with
  | [] => []
  | c :: rest => if p c then drop_leading p rest else cs
  end.

(** [s.trim()]. *)
Definition js_trim (cs : list Ascii.ascii) : list Ascii.ascii :=
  rev (drop_leading js_whitespace (rev (drop_leading js_whitespace cs))).

(** [Math.min(100, x)]. *)
Definition min_100 (x : Q) : Q := if Qle_bool 100 x then 100 else x.

Definition zero_text_score : TextScore :=
  {| ts_grammar := Fin 0; ts_length := Fin 0; ts_total := Fin 0 |}.

(** The four checks of the grammar score, 25 points each. *)
Definition grammar_points `{Rounding} (s : string) : Z :=
  let cs := String.list_ascii_of_string s in
  let sentences :=
    List.filter (fun piece => negb (Nat.eqb (length (js_trim piece)) 0))
                (js_split is_terminator s) in
  let words := length (js_split js_whitespace s) in
  let avgWordsPerSentence :=
    Fin (fl (inject_Z (Z.of_nat words)
             / inject_Z (Z.of_nat (Nat.max (length sentences) 1)))) in
  let hasCapitalization :=
    match js_trim cs with c :: _ => is_upper c | [] => false end in
  let hasPunctuation :=
    match rev (js_trim cs) with c :: _ => is_terminator c | [] => false end in
  (if jge avgWordsPerSentence (jsnum_of_Z 5) then 25 else 0)
  + (if hasCapitalization then 25 else 0)
  + (if hasPunctuation then 25 else 0)
  + (if (2 <=? length sentences)%nat then 25 else 0).

Definition length_points `{Rounding} (s : string) (minLength : option Z) : Q :=
  let len := Z.of_nat (String.length s) in
  match minLength with
  | Some m =>
      if m =? 0 then 0
      else if m <=? len then 100
      else min_100 (fl (fl (inject_Z len / inject_Z m) * 100))
  | None => 0
  end.

Definition evaluateTextResponse `{Rounding} (response : JsVal)
    (validation : Validation) : TextScore :=
  match response with
  | VStr s =>
      if String.eqb s "" then zero_text_score
      else
        let lengthScore := length_points s (minLength validation) in
        let grammarScore :=
          if grammarCheck validation then inject_Z (grammar_points s) else 0%Q in
        {| ts_grammar := Fin grammarScore;
           ts_length := Fin lengthScore;
           ts_total := Fin (fl (fl (grammarScore + lengthScore) / 2)) |}
  | _ => zero_text_score
  end.

(** The scorer of the service with its own text scorer. *)
Definition scoreSubmission `{Rounding} (form : Form)
    (responses : list (string * JsVal)) : Evaluation :=
  evaluateFormSubmission evaluateTextResponse form responses.



(** A quiz field that has lost its questions. *)
Definition empty_quiz : Field :=
  {| f_id := "field_2"; f_type := "quiz"; f_validation := None;
     f_questions := [] |}.


(** ** The forms store: submissions, reviews and counters

    [forms/templates/{id}] holds, beside the fields of [Form], the
    department of the form and its [analytics] counters. *)
Record FormAnalytics : Type := {
  an_totalSubmissions : option Z;
  an_approved : option Z;
  an_rejected : option Z;
  an_pending : option Z
}.

Record Template : Type := {
  tpl_form : Form;
  tpl_department : option string;
  tpl_analytics : FormAnalytics
}.

(** [evaluation.manual] of a reviewed submission. *)
Record ManualReview : Type := {
  reviewedBy : string;
  reviewedAt : Z;
  mr_score : jsnum;
  mr_feedback : string;
  mr_decision : string
}.

(** [forms/submissions/{id}] in full. *)
Record StoredSubmission : Type := {
  st_sub : Submission;                       (* formId, userId, status *)
  st_responses : list (string * JsVal);
  st_automated : option Evaluation;          (* evaluation.automated *)
  st_manual : option ManualReview;           (* evaluation.manual *)
  st_submittedAt : Z;
  st_updatedAt : Z
}.

Record FormsStore : Type := {
  fs_templates : gmap string Template;
  fs_submissions : gmap string StoredSubmission
}.

(** [transaction(count => (count || 0) + 1)]. *)
Definition count_up (count : option Z) : option Z := Some (num_or count 0 + 1).

(** [transaction(count => Math.max(0, (count || 0) - 1))]. *)
Definition count_down (count : option Z) : option Z :=
  Some (Z.max 0 (num_or count 0 - 1)).

Definition with_analytics (tpl : Template) (a : FormAnalytics) : Template :=
  {| tpl_form := tpl_form tpl; tpl_department := tpl_department tpl;
     tpl_analytics := a |}.

(** The counters [submitForm] moves for a submission stored with [status]. *)
Definition count_submission (status : string) (a : FormAnalytics) : FormAnalytics :=
  let total := count_up (an_totalSubmissions a) in
  if String.eqb status "approved" then
    {| an_totalSubmissions := total; an_approved := count_up (an_approved a);
       an_rejected := an_rejected a; an_pending := an_pending a |}
  else if String.eqb status "rejected" then
    {| an_totalSubmissions := total; an_approved := an_approved a;
       an_rejected := count_up (an_rejected a); an_pending := an_pending a |}
  else
    {| an_totalSubmissions := total; an_approved := an_approved a;
       an_rejected := an_rejected a; an_pending := count_up (an_pending a) |}.

(** [submitForm]; [key] is the key [push()] hands out and [now] the clock.
    With no form under [formId], [form.fields] is read from [null]. *)
Definition submitForm `{Rounding} (now : Z) (key formId userId : string)
    (responses : list (string * JsVal)) (fs : FormsStore)
  : Outcome StoredSubmission * FormsStore :=
  match fs_templates fs !! formId with
  | None => (Throw "Cannot read properties of null (reading 'fields')", fs)
  | Some tpl =>
      let evaluation := scoreSubmission (tpl_form tpl) responses in
      let submissionData :=
        {| st_sub := {| sub_userId := userId; sub_formId := formId;
                        sub_status :=
                          submission_status_of (recommendation evaluation) |};
           st_responses := responses;
           st_automated := Some evaluation;
           st_manual := None;
           st_submittedAt := now;
           st_updatedAt := now |} in
      (Return submissionData,
       {| fs_templates :=
            <[formId := with_analytics tpl
                          (count_submission (sub_status (st_sub submissionData))
                                            (tpl_analytics tpl))]>
              (fs_templates fs);
          fs_submissions := <[key := submissionData]> (fs_submissions fs) |})
  end.

(** The answers of [PUT /submissions/:submissionId/review]. *)
Inductive ReviewResponse : Type :=
| ReviewOk (message : string)
| ReviewError (status : Z) (error : string).

(** [['approved', 'rejected'].includes(decision)]. *)
Definition review_decision (decision : JsVal) : option string :=
  match decision with
  | VStr d => if String.eqb d "approved" || String.eqb d "rejected"
              then Some d else None
  | _ => None
  end.

Definition trimmed (s : string) : string :=
  String.string_of_list_ascii (js_trim (String.list_ascii_of_string s)).

(** [!feedback || feedback.trim().length < 10]. *)
Definition feedback_too_short (feedback : option string) : bool :=
  match feedback with
  | Some s => String.eqb s "" || (String.length (trimmed s) <? 10)%nat
  | None => true
  end.

(** [score !== undefined && (score < 0 || score > 100)]. *)
Definition score_out_of_range (score : option Z) : bool :=
  match score with
  | Some s => (s <? 0) || (100 <? s)
  | None => false
  end.

(** The counters a review moves: [analytics/{decision}] goes up and
    [analytics/pending] goes down, not below 0. *)
Definition count_review (decision : string) (a : FormAnalytics) : FormAnalytics :=
  let a :=
    if String.eqb decision "approved" then
      {| an_totalSubmissions := an_totalSubmissions a;
         an_approved := count_up (an_approved a);
         an_rejected := an_rejected a; an_pending := an_pending a |}
    else
      {| an_totalSubmissions := an_totalSubmissions a;
         an_approved := an_approved a;
         an_rejected := count_up (an_rejected a); an_pending := an_pending a |} in
  {| an_totalSubmissions := an_totalSubmissions a; an_approved := an_approved a;
     an_rejected := an_rejected a; an_pending := count_down (an_pending a) |}.

(** The submission after [update({status, "evaluation/manual", updatedAt})]. *)
Definition reviewed (now : Z) (reviewerId decision : string) (score : jsnum)
    (feedback : option string) (submission : StoredSubmission) : StoredSubmission :=
  {| st_sub := {| sub_userId := sub_userId (st_sub submission);
                  sub_formId := sub_formId (st_sub submission);
                  sub_status := decision |};
     st_responses := st_responses submission;
     st_automated := st_automated submission;
     st_manual := Some {| reviewedBy := reviewerId;
                          reviewedAt := now;
                          mr_score := score;
                          mr_feedback := trimmed (default "" feedback);
                          mr_decision := decision |};
     st_submittedAt := st_submittedAt submission;
     st_updatedAt := now |}.

(** The store after the update of the submission and the two transactions
    on the counters of its form. *)
Definition after_review (fs : FormsStore) (submissionId decision : string)
    (tpl : Template) (submission : StoredSubmission) : FormsStore :=
  {| fs_templates :=
       <[sub_formId (st_sub submission) :=
           with_analytics tpl (count_review decision (tpl_analytics tpl))]>
         (fs_templates fs);
     fs_submissions := <[submissionId := submission]> (fs_submissions fs) |}.

(** [form.department !== req.userData.permissions.department
     && req.userData.permissions.level < 7]. *)
Definition other_department (tpl : Template) (user : UserRecord) : bool :=
  negb (bool_decide (tpl_department tpl = perm_department user))
  && match perm_level user with
     | Some level => level <? 7
     | None => false
     end.

(** [score || submission.evaluation.automated.overallScore]; nothing when
    the submission has no automated evaluation to read. *)
Definition manual_score (score : option Z) (submission : StoredSubmission)
  : option jsnum :=
  if truthy_num score then option_map jsnum_of_Z score
  else option_map overallScore (st_automated submission).

(** The review route: [requirePermission(3)], then the handler.  [score] is
    absent or an integer.  A missing form, or a submission without automated
    evaluation when no score is given, makes the handler throw. *)
Definition reviewSubmission (now : Z) (req : option ReqUser)
    (reviewerId submissionId : string) (decision : JsVal)
    (feedback : option string) (score : option Z) (fs : FormsStore)
  : Outcome ReviewResponse * FormsStore :=
  match requirePermission 3 req, req with
  | Deny403 error, _ => (Return (ReviewError 403 error), fs)
  | Next, None =>
      (Throw "Cannot read properties of undefined (reading 'permissions')", fs)
  | Next, Some r =>
      match review_decision decision with
      | None =>
          (Return (ReviewError 400 "Decision must be either 'approved' or 'rejected'"),
           fs)
      | Some d =>
          if feedback_too_short feedback then
            (Return (ReviewError 400 "Feedback must be at least 10 characters long"), fs)
          else if score_out_of_range score then
            (Return (ReviewError 400 "Score must be between 0 and 100"), fs)
          else
            match fs_submissions fs !! submissionId with
            | None => (Return (ReviewError 404 "Submission not found"), fs)
            | Some submission =>
                if negb (String.eqb (sub_status (st_sub submission)) "pending") then
                  (Return (ReviewError 400 "Only pending submissions can be reviewed"),
                   fs)
                else
                  match fs_templates fs !! sub_formId (st_sub submission) with
                  | None =>
                      (Throw "Cannot read properties of null (reading 'department')", fs)
                  | Some tpl =>
                      if other_department tpl (ru_data r) then
                        (Return (ReviewError 403
                           "You can only review submissions for your department"), fs)
                      else
                        match manual_score score submission with
                        | None =>
                            (Throw
                               "Cannot read properties of undefined (reading 'automated')",
                             fs)
                        | Some s =>
                            (Return (ReviewOk ("Submission " +:+ d)),
                             after_review fs submissionId d tpl
                               (reviewed now reviewerId d s feedback submission))
                        end
                  end
            end
      end
  end.

(** The submissions stored for a form with a given status. *)
Definition with_status (formId status : string) (e : string * StoredSubmission) : Prop :=
  sub_formId (st_sub (snd e)) = formId /\ sub_status (st_sub (snd e)) = status.

Definition of_form (formId : string) (e : string * StoredSubmission) : Prop :=
  sub_formId (st_sub (snd e)) = formId.

#[local] Instance with_status_dec formId status e : Decision (with_status formId status e).
Proof. unfold with_status. apply _. Defined.

#[local] Instance of_form_dec formId e : Decision (of_form formId e).
Proof. unfold of_form. apply _. Defined.







(** A store of templates whose counters are unset and without submissions. *)
Definition fresh_store (forms : gmap string Form) : FormsStore :=
  {| fs_templates :=
       (fun form => {| tpl_form := form; tpl_department := None;
                       tpl_analytics := {| an_totalSubmissions := None;
                                           an_approved := None;
                                           an_rejected := None;
                                           an_pending := None |} |}) <$> forms;
     fs_submissions := ∅ |}.

(** A store with one pending submission, and the same after its review. *)
Definition submitted_store : FormsStore :=
  snd (submitForm (H := exact_rounding) 1000 "s1" "form_1" "42" sample_responses
         (fresh_store {["form_1" := form_with [sample_quiz] None]})).

Definition reviewed_store : FormsStore :=
  snd (reviewSubmission 2000 (req_user (Some 5) None None false) "lead" "s1"
         (VStr "rejected") (Some "Too short an answer.") (Some 30) submitted_store).


(** ** Favorites and usage statistics (applications service)

    The functions below read and write the node [users/{userId}/settings]
    of the user they are called for; [Settings] is the content of that
    node.  Reads and writes are taken to succeed. *)
Record AnalyticsData : Type := {
  lastAccessed : option (string * Z);      (* { appId, timestamp } *)
  usageStats : gmap string Z;              (* no property: the empty map *)
  totalAccesses : option Z;
  ad_updatedAt : option Z
}.

Record Settings : Type := {
  us_favorites : option JsVal;             (* settings/favorites, if it exists *)
  us_updatedAt : option Z;                 (* settings/updatedAt *)
  us_analytics : option AnalyticsData      (* settings/analytics, if it exists *)
}.

(** [userId && typeof userId === 'string' && userId.trim() !== '']. *)
Definition validateUserId (userId : JsVal) : bool :=
  match userId with
  | VStr s => negb (String.eqb s "") && negb (String.eqb (trimmed s) "")
  | _ => false
  end.

(** The favourites a snapshot holds: the array itself, the values of an
    object, and nothing for a missing node or any other value. *)
Definition favorite_ids (node : option JsVal) : list JsVal :=
  match node with
  | Some (VArr favorites) => favorites
  | Some (VObj favorites) => map snd favorites
  | _ => []
  end.

(** [array.includes(x)] on the values modelled ([SameValueZero] is [===]
    where there is no [NaN]). *)
Definition array_includes (l : list JsVal) (x : JsVal) : bool :=
  existsb (fun y => strict_eq y x) l.

(** The user id as it is spliced into [users/${userId}/settings/...]. *)
Definition user_key (userId : JsVal) : string :=
  match userId with VStr s => s | _ => "" end.

(** [getUserFavorites] catches every error and answers [[]]; the client
    refuses a path built from an id that holds [. # $ [ ]]. *)
Definition getUserFavorites (userId : JsVal) (st : Settings) : list JsVal :=
  if negb (validateUserId userId) then []
  else if path_refused (user_key userId) then []
  else favorite_ids (us_favorites st).

(** [Math.floor(Date.now() / 1000)]. *)
Definition unix_seconds (now : Z) : Z := now / 1000.

(** [addToFavorites] logs and rethrows what it catches. *)
Definition addToFavorites (now : Z) (userId appId : JsVal) (st : Settings)
  : Outcome unit * Settings :=
  if negb (validateUserId userId) || negb (js_truthy appId) then
    (Throw "Invalid userId or appId provided", st)
  else if path_refused (user_key userId) then
    (Throw "Reference.child failed: the path holds an invalid character", st)
  else
    let currentFavorites := favorite_ids (us_favorites st) in
    if negb (array_includes currentFavorites appId) then
      (Return tt,
       {| us_favorites := Some (VArr (currentFavorites ++ [appId])%list);
          us_updatedAt := Some (unix_seconds now);
          us_analytics := us_analytics st |})
    else (Return tt, st).

Definition removeFromFavorites (now : Z) (userId appId : JsVal) (st : Settings)
  : Outcome unit * Settings :=
  if negb (validateUserId userId) || negb (js_truthy appId) then
    (Throw "Invalid userId or appId provided", st)
  else if path_refused (user_key userId) then
    (Throw "Reference.child failed: the path holds an invalid character", st)
  else
    let currentFavorites := favorite_ids (us_favorites st) in
    let updatedFavorites :=
      List.filter (fun id => negb (strict_eq id appId)) currentFavorites in
    (Return tt,
     {| us_favorites := Some (VArr updatedFavorites);
        us_updatedAt := Some (unix_seconds now);
        us_analytics := us_analytics st |}).

Definition no_analytics : AnalyticsData :=
  {| lastAccessed := None; usageStats := ∅; totalAccesses := None;
     ad_updatedAt := None |}.

(** [trackAppAccess]; [appId] is a string.  The function catches its own
    error and only logs it: nothing is written for an invalid user id or
    app id, nor for a user id the client refuses; for an app id the client
    refuses, [lastAccessed] is already written when
    [child(`usageStats/${appId}`)] throws. *)
Definition trackAppAccess (now : Z) (userId : JsVal) (appId : string)
    (st : Settings) : Settings :=
  if negb (validateUserId userId) || String.eqb appId "" then st
  else if path_refused (user_key userId) then st
  else
    let analytics := default no_analytics (us_analytics st) in
    let unixTimestamp := unix_seconds now in
    if path_refused appId then
      {| us_favorites := us_favorites st;
         us_updatedAt := us_updatedAt st;
         us_analytics :=
           Some {| lastAccessed := Some (appId, unixTimestamp);
                   usageStats := usageStats analytics;
                   totalAccesses := totalAccesses analytics;
                   ad_updatedAt := ad_updatedAt analytics |} |}
    else
      {| us_favorites := us_favorites st;
         us_updatedAt := us_updatedAt st;
         us_analytics :=
           Some {| lastAccessed := Some (appId, unixTimestamp);
                   usageStats :=
                     <[appId := num_or (usageStats analytics !! appId) 0 + 1]>
                       (usageStats analytics);
                   totalAccesses := Some (num_or (totalAccesses analytics) 0 + 1);
                   ad_updatedAt := Some unixTimestamp |} |}.

Record UserAnalytics : Type := {
  mostUsed : list (string * Z);            (* { appId, count } *)
  ua_lastAccessed : option (string * Z);
  ua_usageStats : gmap string Z;
  ua_totalAccesses : Z
}.

Definition empty_analytics : UserAnalytics :=
  {| mostUsed := []; ua_lastAccessed := None; ua_usageStats := ∅;
     ua_totalAccesses := 0 |}.

(** The comparator [([,a], [,b]) => b - a]. *)
Definition compare_usage (x y : string * Z) : Z := snd y - snd x.

(** [getUserAnalytics]; [entries] stands for [Object.entries], which lists
    every property once, in an order left open here. *)
Definition getUserAnalytics (entries : gmap string Z -> list (string * Z))
    (userId : JsVal) (st : Settings) : UserAnalytics :=
  if negb (validateUserId userId) then empty_analytics
  else
    match us_analytics st with
    | None => empty_analytics
    | Some analyticsData =>
        {| mostUsed := take 5 (js_sort compare_usage (entries (usageStats analyticsData)));
           ua_lastAccessed := lastAccessed analyticsData;
           ua_usageStats := usageStats analyticsData;
           ua_totalAccesses := num_or (totalAccesses analyticsData) 0 |}
    end.

(** A series of tracked accesses, each with its clock. *)
Definition track_all (userId : JsVal) (calls : list (Z * string)) (st : Settings)
  : Settings :=
  fold_left (fun st call => trackAppAccess (fst call) userId (snd call) st) calls st.

(** How often [appId] occurs among the tracked app ids. *)
Definition times_tracked (appId : string) (calls : list (Z * string)) : Z :=
  Z.of_nat (length (List.filter (fun call => String.eqb (snd call) appId) calls)).

Definition tracked (calls : list (Z * string)) : Z :=
  Z.of_nat (length (List.filter (fun call => negb (String.eqb (snd call) "")) calls)).

Definition new_settings : Settings :=
  {| us_favorites := None; us_updatedAt := None; us_analytics := None |}.

(** A value that [===] compares by content. *)
Definition primitive (v : JsVal) : bool :=
  match v with VArr _ | VObj _ => false | _ => true end.

(** A boolean, a number or a string: what the database stores as it is. *)
Definition plain_value (v : JsVal) : bool :=
  match v with VBool _ | VNum _ | VStr _ => true | _ => false end.

(** The stored favourites are plain values. *)
Definition plain_favorites (st : Settings) : bool :=
  forallb plain_value (favorite_ids (us_favorites st)).

(** Every tracked app id is empty or names one child of [usageStats]. *)
Definition plain_calls (calls : list (Z * string)) : bool :=
  forallb (fun call => String.eqb (snd call) "" || plain_key (snd call)) calls.

(** No two favourites are [===]. *)
Fixpoint distinct_favorites (l : list JsVal) : bool :=
  match l with
  | [] => true
  | x :: rest => negb (array_includes rest x) && distinct_favorites rest
  end.

(** The counts of a list of [{ appId, count }] never go up. *)
Fixpoint descending (l : list (string * Z)) : Prop :=
  match l with
  | [] => True
  | x :: rest => Forall (fun y => snd y <= snd x) rest /\ descending rest
  end.

Definition sample_settings : Settings :=
  {| us_favorites := None; us_updatedAt := None;
     us_analytics :=
       Some {| lastAccessed := Some ("forms", 1700000000);
               usageStats := {["forms" := 2; "bake" := 1]};
               totalAccesses := Some 3;
               ad_updatedAt := Some 1700000000 |} |}.

(** The claim's wording, for comparison: the correct-answer count is the
    number of questions whose answer, at the same position, is the correct
    one. *)
Definition answer_is_correct (answers : list JsVal) (questions : list Question)
    (i : nat) : bool :=
  match nth_error questions i with
  | Some question => strict_eq (js_index answers i) (q_correct question)
  | None => false
  end.

Definition correct_answers (answers : list JsVal) (questions : list Question) : nat :=
  length (List.filter (answer_is_correct answers questions)
                      (seq 0 (length questions))).

(* ===================================================================== *)
(** * Part II.  Properties                                                *)
(* ===================================================================== *)

(** ** Deduplication *)

Lemma elem_of_dedupe_from (seen l : list string) (x : string) :
  x ∈ dedupe_from seen l <-> x ∈ l /\ x ∉ seen.
Proof.
  revert seen. induction l as [|y r IH]; intros seen; simpl.
  - split; [intros Hx; inversion Hx | intros [Hx _]; inversion Hx].
  - case_bool_decide as Hy.
    + rewrite IH, elem_of_cons. split.
      * intros [? ?]; auto.
      * intros [[-> | ?] Hn]; [contradiction | auto].
    + rewrite !elem_of_cons, IH, elem_of_cons. split.
      * intros [-> | [Hx Hn]]; [auto | split; [auto | intros ?; apply Hn; auto]].
      * intros [[-> | Hx] Hn]; [auto |].
        destruct (decide (x = y)) as [-> | Hne]; [auto |].
        right. split; [assumption | intros [? | ?]; contradiction].
Qed.

Lemma NoDup_dedupe_from (seen l : list string) : NoDup (dedupe_from seen l).
Proof.
  revert seen. induction l as [|y r IH]; intros seen; simpl.
  - constructor.
  - case_bool_decide as Hy; [apply IH |].
    constructor; [| apply IH].
    rewrite elem_of_dedupe_from, elem_of_cons. intros [_ Hn]. apply Hn. auto.
Qed.

Lemma In_dedupe (l : list string) (x : string) : In x (dedupe l) <-> In x l.
Proof.
  unfold dedupe. rewrite <- !list_elem_of_In, elem_of_dedupe_from.
  split; [intros [? _]; assumption | intros ?; split; [assumption |]].
  intros Hx; inversion Hx.
Qed.

Lemma In_all_matrix_apps (app : string) :
  In app all_matrix_apps <-> in_app_universe app.
Proof.
  unfold all_matrix_apps, in_app_universe. rewrite in_concat. split.
  - intros (apps & Hin & Happ). apply in_map_iff in Hin as ([category apps'] & <- & Hin).
    exists category, apps'. auto.
  - intros (category & apps & Hin & Happ). exists apps. split; [| assumption].
    apply in_map_iff. exists (category, apps). auto.
Qed.

(** ** App access matrix *)

Lemma getUserAccessibleApps_privileged (userData : UserRecord) :
  privileged userData ->
  getUserAccessibleApps userData = Return (dedupe all_matrix_apps).
Proof.
  unfold privileged, getUserAccessibleApps, PERMISSION_LEVELS.DEVELOPER,
    PERMISSION_LEVELS.CORPORATE.
  intros Hp.
  destruct (10 <=? userLevelOf userData) eqn:H10; [reflexivity |].
  destruct (String.eqb_spec (getUserDepartmentGroup userData) DEPARTMENTS.CORPORATE)
    as [Hc | Hc]; [reflexivity |].
  destruct (5 <=? userLevelOf userData) eqn:H5; [reflexivity |].
  apply Z.leb_gt in H10, H5. destruct Hp as [? | [? | ?]]; [lia | contradiction | lia].
Qed.

Lemma inherited_key_not_listed (k : string) :
  inherited_key k = true -> assoc k APP_ACCESS_MATRIX = None.
Proof.
  unfold inherited_key, OBJECT_PROTOTYPE_KEYS. intros Hk.
  apply bool_decide_eq_true in Hk.
  repeat (apply elem_of_cons in Hk as [-> | Hk]; [reflexivity |]).
  inversion Hk.
Qed.

(** An ordinary profile: the lookup of its department decides. *)
Lemma getUserAccessibleApps_ordinary (userData : UserRecord) :
  ~ privileged userData ->
  getUserAccessibleApps userData =
    if inherited_key (getUserDepartmentGroup userData)
    then Throw "APP_ACCESS_MATRIX[userDepartment] is not iterable"
    else Return (dedupe (default [] (assoc "universal" APP_ACCESS_MATRIX)
                         ++ default [] (assoc (getUserDepartmentGroup userData)
                                          APP_ACCESS_MATRIX))%list).
Proof.
  unfold privileged, getUserAccessibleApps, PERMISSION_LEVELS.DEVELOPER,
    PERMISSION_LEVELS.CORPORATE.
  intros Hp.
  destruct (10 <=? userLevelOf userData) eqn:H10;
    [exfalso; apply Hp; left; apply Z.leb_le; assumption |].
  destruct (String.eqb_spec (getUserDepartmentGroup userData) DEPARTMENTS.CORPORATE)
    as [Hc | Hc]; [exfalso; apply Hp; right; left; assumption |].
  destruct (5 <=? userLevelOf userData) eqn:H5;
    [exfalso; apply Hp; right; right; apply Z.leb_le; assumption |].
  simpl orb. cbv iota.
  destruct (inherited_key (getUserDepartmentGroup userData)) eqn:Hk.
  - rewrite (inherited_key_not_listed _ Hk). reflexivity.
  - destruct (assoc (getUserDepartmentGroup userData) APP_ACCESS_MATRIX) as [apps |];
      simpl default; [reflexivity | rewrite app_nil_r; reflexivity].
Qed.

Lemma classic_privileged (userData : UserRecord) :
  privileged userData \/ ~ privileged userData.
Proof.
  unfold privileged.
  destruct (Z_le_dec 10 (userLevelOf userData)); [auto |].
  destruct (Z_le_dec 5 (userLevelOf userData)); [auto |].
  destruct (decide (getUserDepartmentGroup userData = DEPARTMENTS.CORPORATE));
    [auto |].
  right. intros [? | [? | ?]]; contradiction.
Qed.

Lemma Return_inj {A : Type} (a b : A) : Return a = Return b -> a = b.
Proof. intros [= ->]. reflexivity. Qed.

Lemma hasAppAccess_In (userData : UserRecord) (appId : string) :
  hasAppAccess userData appId = true
  <-> exists apps, getUserAccessibleApps userData = Return apps /\ In appId apps.
Proof.
  unfold hasAppAccess. destruct (getUserAccessibleApps userData) as [apps | message].
  - rewrite bool_decide_eq_true, list_elem_of_In. split.
    + intros Hin. exists apps. auto.
    + intros (apps' & [= <-] & Hin). exact Hin.
  - split; [discriminate | intros (apps & [=] & _)].
Qed.

(** C5.  A profile whose level is at least 10, whose department is corporate
    or whose level is at least 5 gets the deduplicated union of all the
    category lists of the matrix, that is the whole app universe.  Any other
    profile gets the universal list followed by its department's entry when
    the matrix has one, deduplicated, as long as its department is not the
    name of a property the matrix inherits ([constructor], [toString], ...):
    for such a department the function throws, and [hasAppAccess] then
    denies every app, the universal ones included. *)
Theorem accessible_apps_by_profile (userData : UserRecord) :
  (privileged userData ->
     getUserAccessibleApps userData = Return (dedupe all_matrix_apps)
     /\ NoDup (dedupe all_matrix_apps)
     /\ forall app, In app (dedupe all_matrix_apps) <-> in_app_universe app)
  /\ (~ privileged userData ->
      inherited_key (getUserDepartmentGroup userData) = false ->
      exists apps,
        getUserAccessibleApps userData = Return apps
        /\ apps = dedupe (default [] (assoc "universal" APP_ACCESS_MATRIX)
                          ++ default [] (assoc (getUserDepartmentGroup userData)
                                           APP_ACCESS_MATRIX))%list
        /\ NoDup apps
        /\ forall app, In app apps
                       <-> in_department_apps (getUserDepartmentGroup userData) app)
  /\ (~ privileged userData ->
      inherited_key (getUserDepartmentGroup userData) = true ->
      assoc (getUserDepartmentGroup userData) APP_ACCESS_MATRIX = None
      /\ (exists message, getUserAccessibleApps userData = Throw message)
      /\ forall appId, hasAppAccess userData appId = false).
Proof.
  split; [| split].
  - intros Hp. rewrite (getUserAccessibleApps_privileged _ Hp).
    split; [reflexivity |]. split; [apply NoDup_dedupe_from |]. intros app.
    rewrite In_dedupe. apply In_all_matrix_apps.
  - intros Hp Hk. rewrite (getUserAccessibleApps_ordinary _ Hp), Hk.
    eexists. split; [reflexivity |]. split; [reflexivity |].
    split; [apply NoDup_dedupe_from |]. intros app.
    rewrite In_dedupe, in_app_iff. unfold in_department_apps.
    split; (intros [H | H]; [left | right]).
    + destruct (assoc "universal" APP_ACCESS_MATRIX) as [apps |]; [eauto | destruct H].
    + destruct (assoc _ APP_ACCESS_MATRIX) as [apps |]; [eauto | destruct H].
    + destruct H as (apps & -> & H). exact H.
    + destruct H as (apps & -> & H). exact H.
  - intros Hp Hk. split; [apply inherited_key_not_listed; exact Hk |].
    split.
    + rewrite (getUserAccessibleApps_ordinary _ Hp), Hk. eexists. reflexivity.
    + intros appId. unfold hasAppAccess.
      rewrite (getUserAccessibleApps_ordinary _ Hp), Hk. reflexivity.
Qed.

Lemma accessible_apps_by_profile_witness :
  (exists message,
     getUserAccessibleApps (user_with (Some 1) None (Some "constructor"))
     = Throw message)
  /\ hasAppAccess (user_with (Some 1) None (Some "constructor")) "forms" = false.
Proof.
  destruct (proj2 (proj2 (accessible_apps_by_profile
                            (user_with (Some 1) None (Some "constructor")))))
    as (_ & Hthrow & Hdenied).
  - unfold privileged. vm_compute.
    intros [H | [H | H]]; try discriminate; apply H; reflexivity.
  - reflexivity.
  - split; [exact Hthrow | apply Hdenied].
Defined.

(** ** Primary-department priority *)

Lemma indexOf_from_place (h : list string) (i : Z) (x : string) :
  (In x h -> indexOf_from i x h = i + Z.of_nat (hierarchy_place_in h x)
             /\ (hierarchy_place_in h x < length h)%nat)
  /\ (~ In x h -> indexOf_from i x h = -1
                  /\ hierarchy_place_in h x = length h).
Proof.
  revert i. induction h as [|y r IH]; intros i; simpl.
  - split; [intros [] | auto].
  - destruct (String.eqb_spec x y) as [-> | Hne].
    + split; [intros _; split; lia | intros Hn; exfalso; apply Hn; auto].
    + destruct (IH (i + 1)) as [IHin IHout]. split.
      * intros [-> | Hin]; [contradiction |].
        destruct (IHin Hin) as [-> Hlt]. split; lia.
      * intros Hn. destruct IHout as [-> ->]; [intros ?; apply Hn; auto | auto].
Qed.

(** The comparator orders two entries as their places in the hierarchy do. *)
Lemma priority_compare_place (a b : DeptResult) :
  (priority_compare a b <=? 0)
  = (hierarchy_place (dr_id a) <=? hierarchy_place (dr_id b))%nat.
Proof.
  unfold priority_compare, indexOf, hierarchy_place.
  destruct (indexOf_from_place DEPARTMENT_HIERARCHY 0 (dr_id a)) as [Ha Ha'].
  destruct (indexOf_from_place DEPARTMENT_HIERARCHY 0 (dr_id b)) as [Hb Hb'].
  remember (hierarchy_place_in DEPARTMENT_HIERARCHY (dr_id a)) as pa.
  remember (hierarchy_place_in DEPARTMENT_HIERARCHY (dr_id b)) as pb.
  remember (length DEPARTMENT_HIERARCHY) as n.
  destruct (in_dec String.string_dec (dr_id a) DEPARTMENT_HIERARCHY) as [Ia | Ia];
    destruct (in_dec String.string_dec (dr_id b) DEPARTMENT_HIERARCHY) as [Ib | Ib].
  - destruct (Ha Ia) as [-> La], (Hb Ib) as [-> Lb].
    destruct (Z.eqb_spec (0 + Z.of_nat pa) (-1)); [lia |].
    destruct (Z.eqb_spec (0 + Z.of_nat pb) (-1)); [lia |].
    cbn [andb].
    destruct (Nat.leb_spec pa pb); [apply Z.leb_le | apply Z.leb_gt]; lia.
  - destruct (Ha Ia) as [-> La], (Hb' Ib) as [-> ->].
    destruct (Z.eqb_spec (0 + Z.of_nat pa) (-1)); [lia |].
    cbn. symmetry. apply Nat.leb_le. lia.
  - destruct (Ha' Ia) as [-> ->], (Hb Ib) as [-> Lb].
    destruct (Z.eqb_spec (0 + Z.of_nat pb) (-1)); [lia |].
    cbn. symmetry. apply Nat.leb_gt. lia.
  - destruct (Ha' Ia) as [-> ->], (Hb' Ib) as [-> ->].
    cbn. symmetry. apply Nat.leb_le. lia.
Qed.

Section SortHead.
Context {A : Type} (cmp : A -> A -> Z) (key : A -> nat).
Hypothesis cmp_key : forall x y, (cmp x y <=? 0) = (key x <=? key y)%nat.

Lemma In_sort_insert (x y : A) (l : list A) :
  In y (sort_insert cmp x l) <-> y = x \/ In y l.
Proof.
  induction l as [|z r IH]; simpl.
  - intuition.
  - destruct (cmp x z <=? 0); simpl; [intuition | rewrite IH; intuition].
Qed.

Lemma In_js_sort (y : A) (l : list A) : In y (js_sort cmp l) <-> In y l.
Proof.
  induction l as [|x r IH]; simpl; [reflexivity |].
  rewrite In_sort_insert, IH. intuition.
Qed.

(** The first element of the sorted array has the least key. *)
Lemma js_sort_head_least (l : list A) (m : A) (rest : list A) :
  js_sort cmp l = m :: rest ->
  In m l /\ forall x, In x l -> (key m <= key x)%nat.
Proof.
  revert m rest. induction l as [|x r IH]; intros m rest; simpl; [discriminate |].
  destruct (js_sort cmp r) as [|y sorted] eqn:Hs; simpl.
  - intros [= <- <-]. split; [auto |].
    intros z [<- | Hz]; [lia |].
    apply (In_js_sort z) in Hz. rewrite Hs in Hz. destruct Hz.
  - destruct (IH y sorted eq_refl) as [Hy Hmin].
    rewrite cmp_key. destruct (Nat.leb_spec (key x) (key y)).
    + intros [= <- <-]. split; [auto |].
      intros z [<- | Hz]; [lia | specialize (Hmin z Hz); lia].
    + intros [= <- <-]. split; [auto |].
      intros z [<- | Hz]; [lia | apply Hmin; assumption].
Qed.

Lemma js_sort_nil (l : list A) : js_sort cmp l = [] -> l = [].
Proof.
  destruct l as [|x r]; [reflexivity |]. intros Hs.
  assert (Hin : In x (js_sort cmp (x :: r))) by (apply In_js_sort; simpl; auto).
  rewrite Hs in Hin. destruct Hin.
Qed.
End SortHead.

Lemma getHighestPriorityDepartment_least (results : list DeptResult) (id : string) :
  getHighestPriorityDepartment results = Some id ->
  exists best, id = dr_id best /\ In best results /\ dr_eligible best = true
    /\ forall d, In d results -> dr_eligible d = true ->
         (hierarchy_place (dr_id best) <= hierarchy_place (dr_id d))%nat.
Proof.
  unfold getHighestPriorityDepartment. destruct results as [|r0 rs]; [discriminate |].
  set (results := r0 :: rs).
  destruct (js_sort priority_compare (List.filter dr_eligible results))
    as [|best rest] eqn:Hs; [discriminate |].
  intros [= <-]. exists best.
  destruct (js_sort_head_least priority_compare (fun d => hierarchy_place (dr_id d))
              priority_compare_place _ _ _ Hs) as [Hin Hmin].
  apply filter_In in Hin as [Hin He]. repeat split; try assumption.
  intros d Hd Hed. apply Hmin. apply filter_In. auto.
Qed.

Lemma getHighestPriorityDepartment_some (results : list DeptResult) (d : DeptResult) :
  In d results -> dr_eligible d = true ->
  exists id, getHighestPriorityDepartment results = Some id.
Proof.
  intros Hd He. unfold getHighestPriorityDepartment.
  destruct results as [|r0 rs]; [destruct Hd |].
  destruct (js_sort priority_compare (List.filter dr_eligible (r0 :: rs)))
    as [|best rest] eqn:Hs; [| eauto].
  apply js_sort_nil in Hs.
  assert (Hin : In d (List.filter dr_eligible (r0 :: rs))) by (apply filter_In; auto).
  rewrite Hs in Hin. destruct Hin.
Qed.

Lemma getHighestPriorityDepartment_none (results : list DeptResult) :
  (forall d, In d results -> dr_eligible d = false) ->
  getHighestPriorityDepartment results = None.
Proof.
  intros Hnone.
  destruct (getHighestPriorityDepartment results) as [id |] eqn:Hg; [| reflexivity].
  apply getHighestPriorityDepartment_least in Hg as (best & _ & Hin & He & _).
  rewrite (Hnone best Hin) in He. discriminate.
Qed.

Lemma hierarchy_place_listed (x : string) :
  (In x DEPARTMENT_HIERARCHY -> (hierarchy_place x < 7)%nat)
  /\ (~ In x DEPARTMENT_HIERARCHY -> hierarchy_place x = 7%nat).
Proof.
  unfold hierarchy_place.
  destruct (indexOf_from_place DEPARTMENT_HIERARCHY 0 x) as [Hin Hout]. split.
  - intros H. apply (Hin H).
  - intros H. apply (Hout H).
Qed.




(** Ties between departments outside the hierarchy keep the order of the
    results, and nothing is selected when no department is eligible. *)
Example primary_department_unlisted :
  getHighestPriorityDepartment
    [dept_result "games" true "pending"; dept_result "events" true "active"]
  = Some "games"
  /\ getHighestPriorityDepartment [dept_result "hr" false "ineligible"] = None.
Proof. split; reflexivity. Qed.

(** ** Quiz score *)

Lemma math_round_bounds (q : Q) :
  (0 <= q)%Q -> (q <= 100)%Q -> 0 <= math_round q <= 100.
Proof.
  intros Hlo Hhi. unfold math_round. split.
  - change 0 with (Qfloor (0 + (1 # 2))). apply Qfloor_resp_le.
    apply Qplus_le_compat; [assumption | apply Qle_refl].
  - change 100 with (Qfloor (100 + (1 # 2))). apply Qfloor_resp_le.
    apply Qplus_le_compat; [assumption | apply Qle_refl].
Qed.

(** A rounded percentage of a part of a whole lies between 0 and 100. *)
Lemma round_percent_bounds `{Rounding} (a b : Q) :
  (0 <= a)%Q -> (a <= b)%Q -> (0 < b)%Q -> 0 <= round_percent a b <= 100.
Proof.
  intros Ha Hab Hb. unfold round_percent.
  assert (Hq0 : (0 <= a / b)%Q).
  { apply Qle_shift_div_l; [assumption |]. rewrite Qmult_0_l. assumption. }
  assert (Hq1 : (a / b <= 1)%Q).
  { apply Qle_shift_div_r; [assumption |]. rewrite Qmult_1_l. assumption. }
  apply fl_mono in Hq0, Hq1. rewrite fl_0 in Hq0. rewrite fl_1 in Hq1.
  assert (Hp0 : (0 <= fl (a / b) * 100)%Q).
  { apply Qmult_le_0_compat; [assumption | discriminate]. }
  assert (Hp1 : (fl (a / b) * 100 <= 100)%Q).
  { apply Qle_trans with (1 * 100)%Q;
      [apply Qmult_le_compat_r; [assumption | discriminate] | discriminate]. }
  apply fl_mono in Hp0, Hp1. rewrite fl_0 in Hp0. rewrite fl_100 in Hp1.
  apply math_round_bounds; assumption.
Qed.

Lemma count_correct_le (answers : list JsVal) (index : nat)
    (questions : list Question) :
  (count_correct answers index questions <= length questions)%nat.
Proof.
  revert index. induction questions as [|q rest IH]; intros index; simpl; [lia |].
  specialize (IH (S index)).
  destruct (strict_eq (js_index answers index) (q_correct q)); lia.
Qed.

Lemma fl_proper `{Rounding} (x y : Q) : (x == y)%Q -> (fl x == fl y)%Q.
Proof.
  intros Hxy. apply Qle_antisym; apply fl_mono; rewrite Hxy; apply Qle_refl.
Qed.

Lemma math_round_proper (x y : Q) : (x == y)%Q -> math_round x = math_round y.
Proof. intros Hxy. unfold math_round. rewrite Hxy. reflexivity. Qed.

Lemma round_percent_mono `{Rounding} (a b c : Q) :
  (a <= b)%Q -> (0 < c)%Q -> round_percent a c <= round_percent b c.
Proof.
  intros Hab Hc. unfold round_percent, math_round.
  apply Qfloor_resp_le, Qplus_le_compat; [| apply Qle_refl].
  apply fl_mono, Qmult_le_compat_r; [| discriminate].
  apply fl_mono. unfold Qdiv. apply Qmult_le_compat_r; [exact Hab |].
  apply Qlt_le_weak, Qinv_lt_0_compat. exact Hc.
Qed.

Lemma round_percent_all `{Rounding} (n : Q) :
  (0 < n)%Q -> round_percent n n = 100.
Proof.
  intros Hn. unfold round_percent.
  assert (Hq : (n / n == 1)%Q).
  { unfold Qdiv. apply Qmult_inv_r. intros Hz. rewrite Hz in Hn. discriminate. }
  assert (Hp : (fl (fl (n / n) * 100) == 100)%Q).
  { rewrite <- fl_100 at 2. apply fl_proper.
    rewrite (fl_proper _ _ Hq), fl_1. reflexivity. }
  rewrite (math_round_proper _ _ Hp). reflexivity.
Qed.

Lemma round_percent_none `{Rounding} (n : Q) : round_percent 0 n = 0.
Proof.
  unfold round_percent.
  assert (Hq : (0 / n == 0)%Q) by (unfold Qdiv; apply Qmult_0_l).
  assert (Hp : (fl (fl (0 / n) * 100) == 0)%Q).
  { rewrite <- fl_0 at 2. apply fl_proper.
    rewrite (fl_proper _ _ Hq), fl_0. reflexivity. }
  rewrite (math_round_proper _ _ Hp). reflexivity.
Qed.

Lemma length_filter_shift (f : nat -> bool) (l : list nat) :
  length (List.filter f (map S l)) = length (List.filter (fun i => f (S i)) l).
Proof.
  induction l as [| i rest IH]; [reflexivity |]. cbn [map List.filter].
  destruct (f (S i)); cbn [length]; rewrite IH; reflexivity.
Qed.

(** The loop of the code counts what the claim calls the correct answers. *)
Lemma count_correct_from (answers : list JsVal) (questions : list Question)
    (index : nat) :
  count_correct answers index questions
  = length (List.filter
              (fun i => match nth_error questions i with
                        | Some question =>
                            strict_eq (js_index answers (index + i))
                                      (q_correct question)
                        | None => false
                        end)
              (seq 0 (length questions))).
Proof.
  revert index. induction questions as [| q rest IH]; intros index; [reflexivity |].
  cbn [count_correct length seq List.filter nth_error].
  rewrite Nat.add_0_r, IH.
  assert (Hext : length (List.filter
                   (fun i => match nth_error rest i with
                             | Some question =>
                                 strict_eq (js_index answers (S index + i))
                                           (q_correct question)
                             | None => false
                             end) (seq 0 (length rest)))
                 = length (List.filter
                     (fun i => match nth_error (q :: rest) i with
                               | Some question =>
                                   strict_eq (js_index answers (index + i))
                                             (q_correct question)
                               | None => false
                               end) (seq 1 (length rest)))).
  { rewrite <- seq_shift, length_filter_shift. f_equal.
    apply List.filter_ext. intros i. cbn [nth_error].
    replace (index + S i)%nat with (S index + i)%nat by lia. reflexivity. }
  rewrite Hext.
  destruct (strict_eq (js_index answers index) (q_correct q)); reflexivity.
Qed.

Lemma count_correct_is_correct_answers (answers : list JsVal)
    (questions : list Question) :
  count_correct answers 0 questions = correct_answers answers questions.
Proof. rewrite count_correct_from. reflexivity. Qed.

Lemma correct_answers_le (answers : list JsVal) (questions : list Question) :
  (correct_answers answers questions <= length questions)%nat.
Proof.
  rewrite <- count_correct_is_correct_answers. apply count_correct_le.
Qed.

Lemma correct_answers_all (answers : list JsVal) (questions : list Question) :
  (forall i, (i < length questions)%nat ->
             answer_is_correct answers questions i = true) ->
  correct_answers answers questions = length questions.
Proof.
  intros Hall. unfold correct_answers.
  rewrite forallb_filter_id; [apply length_seq |].
  apply forallb_forall. intros i Hi. apply in_seq in Hi. apply Hall. lia.
Qed.

Lemma correct_answers_none (answers : list JsVal) (questions : list Question) :
  (forall i, answer_is_correct answers questions i = false) ->
  correct_answers answers questions = 0%nat.
Proof.
  intros Hnone. unfold correct_answers.
  induction (seq 0 (length questions)) as [| i rest IH]; [reflexivity |].
  cbn [List.filter]. rewrite Hnone. exact IH.
Qed.

Lemma evaluateQuizResponse_present `{Rounding} (response : JsVal) (field : Field) :
  ~ answers_missing response -> f_questions field <> [] ->
  evaluateQuizResponse response field
  = jsnum_of_Z
      (round_percent
         (inject_Z (Z.of_nat (correct_answers
                                (array_items (js_get response "answers"))
                                (f_questions field))))
         (inject_Z (Z.of_nat (length (f_questions field))))).
Proof.
  unfold evaluateQuizResponse, answers_missing. intros Hpresent Hne.
  destruct (js_truthy response); [| exfalso; auto].
  destruct (js_truthy (js_get response "answers")); [| exfalso; auto].
  destruct (is_array (js_get response "answers")); [| exfalso; auto].
  cbn [negb orb]. rewrite count_correct_is_correct_answers.
  destruct (f_questions field) as [| q rest]; [contradiction | reflexivity].
Qed.

(** C10.  For a quiz field with at least one question the score is an
    integer between 0 and 100, and it is 0 when the response, or its
    [answers], is missing or is not an array.  Otherwise the score is the
    rounded percentage of the correct-answer count, the number of questions
    answered with the correct value at their position, in the number of
    questions: 100 when every answer is correct, 0 when none is, and never
    lower for more correct answers.  With no question and an array of
    answers the quotient is [0 / 0] and the score is [NaN]. *)
Theorem quiz_score_in_range `{Rounding} (response : JsVal) (field : Field) :
  (f_questions field <> [] ->
     exists score : Z,
       evaluateQuizResponse response field = jsnum_of_Z score
       /\ 0 <= score <= 100)
  /\ (answers_missing response ->
        evaluateQuizResponse response field = jsnum_of_Z 0)
  /\ (f_questions field = [] -> ~ answers_missing response ->
        evaluateQuizResponse response field = NaN)
  /\ (f_questions field <> [] -> ~ answers_missing response ->
      evaluateQuizResponse response field
      = jsnum_of_Z
          (round_percent
             (inject_Z (Z.of_nat (correct_answers
                                    (array_items (js_get response "answers"))
                                    (f_questions field))))
             (inject_Z (Z.of_nat (length (f_questions field)))))
      /\ (correct_answers (array_items (js_get response "answers"))
            (f_questions field) <= length (f_questions field))%nat
      /\ ((forall i, (i < length (f_questions field))%nat ->
             answer_is_correct (array_items (js_get response "answers"))
               (f_questions field) i = true) ->
          evaluateQuizResponse response field = jsnum_of_Z 100)
      /\ ((forall i,
             answer_is_correct (array_items (js_get response "answers"))
               (f_questions field) i = false) ->
          evaluateQuizResponse response field = jsnum_of_Z 0)
      /\ (forall other score score',
            ~ answers_missing other ->
            (correct_answers (array_items (js_get response "answers"))
               (f_questions field)
             <= correct_answers (array_items (js_get other "answers"))
                  (f_questions field))%nat ->
            evaluateQuizResponse response field = jsnum_of_Z score ->
            evaluateQuizResponse other field = jsnum_of_Z score' ->
            score <= score')).
Proof.
  split; [| split; [| split]].
  - unfold evaluateQuizResponse. intros Hne.
    destruct (negb (js_truthy response)
              || negb (js_truthy (js_get response "answers"))
              || negb (is_array (js_get response "answers"))).
    { exists 0. split; [reflexivity | lia]. }
    destruct (f_questions field) as [|q rest] eqn:Hq; [contradiction |].
    eexists. split; [reflexivity |].
    pose proof (count_correct_le (array_items (js_get response "answers")) 0
                  (q :: rest)) as Hle.
    apply round_percent_bounds.
    + unfold Qle. cbn [Qnum Qden inject_Z]. lia.
    + unfold Qle. cbn [Qnum Qden inject_Z]. lia.
    + unfold Qlt. cbn [Qnum Qden inject_Z length]. lia.
  - unfold evaluateQuizResponse, answers_missing.
    intros [-> | [-> | ->]]; simpl; rewrite ?orb_true_r; reflexivity.
  - unfold evaluateQuizResponse, answers_missing. intros -> Hpresent.
    destruct (js_truthy response); [| exfalso; auto].
    destruct (js_truthy (js_get response "answers")); [| exfalso; auto].
    destruct (is_array (js_get response "answers")); [| exfalso; auto].
    reflexivity.
  - intros Hne Hpresent.
    assert (Hpos : (0 < inject_Z (Z.of_nat (length (f_questions field))))%Q).
    { destruct (f_questions field); [contradiction |].
      unfold Qlt. cbn [Qnum Qden inject_Z length]. lia. }
    rewrite (evaluateQuizResponse_present response field Hpresent Hne).
    split; [reflexivity |]. split; [apply correct_answers_le |].
    split; [| split].
    + intros Hall. rewrite (correct_answers_all _ _ Hall).
      rewrite (round_percent_all _ Hpos). reflexivity.
    + intros Hnone. rewrite (correct_answers_none _ _ Hnone).
      change (inject_Z (Z.of_nat 0)) with 0%Q.
      rewrite round_percent_none. reflexivity.
    + intros other score score' Hother Hle.
      rewrite (evaluateQuizResponse_present other field Hother Hne).
      unfold jsnum_of_Z. intros Hs Hs'.
      assert (Hz : forall a b : Z, Fin (inject_Z a) = Fin (inject_Z b) -> a = b)
        by (intros a b [= Hab]; exact Hab).
      apply Hz in Hs, Hs'. subst score score'.
      apply round_percent_mono; [| exact Hpos].
      unfold Qle. cbn [Qnum Qden inject_Z]. lia.
Qed.

Lemma quiz_score_in_range_witness :
  evaluateQuizResponse (H := exact_rounding)
    (VObj [("answers", VArr [VNum 1; VStr "b"])]) sample_quiz
  = jsnum_of_Z 100.
Proof.
  apply (proj2 (proj2 (proj2 (quiz_score_in_range (H := exact_rounding)
                  (VObj [("answers", VArr [VNum 1; VStr "b"])]) sample_quiz)))).
  - discriminate.
  - unfold answers_missing. cbn. intros [H | [H | H]]; discriminate.
  - intros [| [| i]] Hi; [reflexivity | reflexivity |].
    cbn [sample_quiz f_questions length] in Hi. lia.
Defined.

(** One answer out of two is right: 50.  A response without [answers]: 0. *)
Example quiz_score_half :
  evaluateQuizResponse (H := exact_rounding)
    (VObj [("answers", VArr [VNum 1; VStr "c"])]) sample_quiz = jsnum_of_Z 50
  /\ evaluateQuizResponse (H := exact_rounding) (VStr "b") sample_quiz = jsnum_of_Z 0.
Proof. split; reflexivity. Qed.

(** ** Recommendation *)

Lemma recommend_cases (overall : jsnum) (thresholds : Thresholds) :
  (recommend overall thresholds = RecApprove
     <-> jge overall (autoApprove thresholds) = true)
  /\ (recommend overall thresholds = RecReject
     <-> jge overall (autoApprove thresholds) = false
         /\ jle overall (autoReject thresholds) = true)
  /\ (recommend overall thresholds = RecReview
     <-> jge overall (autoApprove thresholds) = false
         /\ jle overall (autoReject thresholds) = false).
Proof.
  unfold recommend.
  destruct (jge overall (autoApprove thresholds));
    destruct (jle overall (autoReject thresholds));
    repeat split; intros; try discriminate; try tauto;
    match goal with H : _ /\ _ |- _ => destruct H; discriminate end.
Qed.

(** Below the reject bound means below the approve bound, when the bounds
    are in order. *)
Lemma jle_below_approve (overall : jsnum) (thresholds : Thresholds) :
  jlt (autoReject thresholds) (autoApprove thresholds) = true ->
  jle overall (autoReject thresholds) = true ->
  jge overall (autoApprove thresholds) = false.
Proof.
  unfold jlt, jle, jge.
  destruct overall as [|s], (autoReject thresholds) as [|r],
    (autoApprove thresholds) as [|a]; try discriminate; try reflexivity.
  intros Hra Hsr. apply negb_true_iff in Hra.
  apply Qle_bool_iff in Hsr.
  destruct (Qle_bool a s) eqn:Has; [| reflexivity].
  apply Qle_bool_iff in Has.
  assert (Har : (a <= r)%Q) by (eapply Qle_trans; eassumption).
  apply Qle_bool_iff in Har. congruence.
Qed.

(** C7, as amended.  The recommendation of a scored submission is "approve"
    exactly when the overall score reaches the approve bound; "reject"
    exactly when it does not and the score is at most the reject bound;
    "review" otherwise.  When the reject bound is below the approve bound, as
    with the defaults 85 and 40, "reject" is exactly a score at most the
    reject bound; and the defaults give "approve" at 90, "reject" at 30 and
    "review" at 60. *)
Theorem recommendation_by_thresholds `{Rounding}
    (evaluateTextResponse : JsVal -> Validation -> TextScore)
    (form : Form) (responses : list (string * JsVal)) :
  let evaluation := evaluateFormSubmission evaluateTextResponse form responses in
  let thresholds := default default_thresholds (form_thresholds form) in
  let score := overallScore evaluation in
  (recommendation evaluation = RecApprove
     <-> jge score (autoApprove thresholds) = true)
  /\ (recommendation evaluation = RecReject
     <-> jge score (autoApprove thresholds) = false
         /\ jle score (autoReject thresholds) = true)
  /\ (recommendation evaluation = RecReview
     <-> jge score (autoApprove thresholds) = false
         /\ jle score (autoReject thresholds) = false)
  /\ (jlt (autoReject thresholds) (autoApprove thresholds) = true ->
      (recommendation evaluation = RecReject
         <-> jle score (autoReject thresholds) = true))
  /\ (form_thresholds form = None ->
      (recommendation evaluation = RecApprove <-> jge score (jsnum_of_Z 85) = true)
      /\ (recommendation evaluation = RecReject <-> jle score (jsnum_of_Z 40) = true))
  /\ recommend (jsnum_of_Z 90) default_thresholds = RecApprove
  /\ recommend (jsnum_of_Z 30) default_thresholds = RecReject
  /\ recommend (jsnum_of_Z 60) default_thresholds = RecReview.
Proof.
  intros evaluation thresholds score.
  assert (Hrec : recommendation evaluation = recommend score thresholds)
    by reflexivity.
  rewrite Hrec.
  destruct (recommend_cases score thresholds) as (Ha & Hr & Hv).
  assert (Hordered : jlt (autoReject thresholds) (autoApprove thresholds) = true ->
            (recommend score thresholds = RecReject
             <-> jle score (autoReject thresholds) = true)).
  { intros Hlt. rewrite Hr. split; [intros [_ ?]; assumption |].
    intros Hle. split; [| assumption].
    apply jle_below_approve; assumption. }
  split; [exact Ha |]. split; [exact Hr |]. split; [exact Hv |].
  split; [exact Hordered |]. split.
  - intros Hnone.
    assert (Hdefault : thresholds = default_thresholds)
      by (unfold thresholds; rewrite Hnone; reflexivity).
    rewrite Hdefault in *.
    split; [exact Ha | apply Hordered; reflexivity].
  - repeat split; reflexivity.
Qed.

Lemma recommendation_by_thresholds_witness :
  recommendation (evaluateFormSubmission (H := exact_rounding) no_text_score
                    (form_with [sample_quiz] None) sample_responses) = RecReject
  <-> jle (overallScore (evaluateFormSubmission (H := exact_rounding) no_text_score
                           (form_with [sample_quiz] None) sample_responses))
          (jsnum_of_Z 40) = true.
Proof.
  apply (proj1 (proj2 (proj2 (proj2 (proj2
           (recommendation_by_thresholds (H := exact_rounding) no_text_score
              (form_with [sample_quiz] None) sample_responses)))))).
  reflexivity.
Defined.

(** With the bounds 50 and 60 a score of 50 is at most the reject bound and
    yet recommended for approval: "reject exactly when the score is at most
    the reject bound" fails there. *)
Lemma reject_bound_not_exact :
  overallScore (evaluateFormSubmission (H := exact_rounding) no_text_score
                  overlapping_form sample_responses) = jsnum_of_Z 50
  /\ recommendation (evaluateFormSubmission (H := exact_rounding) no_text_score
                       overlapping_form sample_responses) = RecApprove
  /\ ~ (recommendation (evaluateFormSubmission (H := exact_rounding) no_text_score
                          overlapping_form sample_responses) = RecReject
        <-> jle (overallScore (evaluateFormSubmission (H := exact_rounding)
                                 no_text_score overlapping_form sample_responses))
                (autoReject (default default_thresholds
                               (form_thresholds overlapping_form))) = true).
Proof.
  split; [reflexivity |]. split; [reflexivity |].
  intros [_ Hback].
  assert (Hrej : recommendation
                   (evaluateFormSubmission (H := exact_rounding) no_text_score
                      overlapping_form sample_responses) = RecReject)
    by (apply Hback; reflexivity).
  discriminate Hrej.
Qed.

(** ** Duplicate-submission guard *)

(** C6.  The duplicate guard is never reached.  When the form and the user
    exist and the other requirements are met, the check builds its query on
    the submissions with two orderings, and the call throws, whatever
    submissions are stored: it answers neither "Already submitted or
    approved" for a pending or approved submission nor [eligible = true]
    for rejected ones only.  An answer is always a refusal on the form, the
    user or a requirement.  The check writes nothing. *)
Theorem form_eligibility_duplicate_guard `{Rounding} (now : Z)
    (formId userId : string) (db : DB) :
  (forall form user,
     templates db !! formId = Some form -> users db !! userId = Some user ->
     form_requirements_met now form user = true ->
     exists message,
       outcome_of (run (checkFormEligibility now formId userId) db) = Throw message)
  /\ (forall result,
        outcome_of (run (checkFormEligibility now formId userId) db) = Return result ->
        eligible result = false
        /\ reason result <> Some "Already submitted or approved"
        /\ (templates db !! formId = None \/ users db !! userId = None
            \/ exists form user,
                 templates db !! formId = Some form /\ users db !! userId = Some user
                 /\ form_requirements_met now form user = false))
  /\ db_after (run (checkFormEligibility now formId userId) db) = db
  /\ writes_of (run (checkFormEligibility now formId userId) db) = [].
Proof.
  unfold run, checkFormEligibility, existingSubmission_query, bind, snapshot, ret,
    throw, outcome_of, db_after, writes_of, form_requirements_met. cbn [fst snd].
  split; [| split].
  - intros form user -> -> Hreq.
    repeat (apply andb_true_iff in Hreq as [Hreq ?]).
    repeat match goal with
           | Hn : negb ?b = true |- _ => apply negb_true_iff in Hn; rewrite Hn
           end.
    eexists. reflexivity.
  - intros result.
    destruct (templates db !! formId) as [form |] eqn:Hform; cbn [fst snd];
      [| intros [= <-]; split; [reflexivity | split; [discriminate | auto]]].
    destruct (users db !! userId) as [user |] eqn:Huser; cbn [fst snd];
      [| intros [= <-]; split; [reflexivity | split; [discriminate | auto]]].
    destruct (below_min_level _ _) eqn:H1; cbn [fst snd];
      [intros [= <-]; split; [reflexivity | split; [discriminate |]];
       right; right; exists form, user; split; [reflexivity |];
       split; [reflexivity |]; rewrite H1; reflexivity |].
    destruct (too_recent _ _ _) eqn:H2; cbn [fst snd];
      [intros [= <-]; split; [reflexivity | split; [discriminate |]];
       right; right; exists form, user; split; [reflexivity |];
       split; [reflexivity |]; rewrite H1, H2; reflexivity |].
    destruct (not_in_required _ _) eqn:H3; cbn [fst snd];
      [intros [= <-]; split; [reflexivity | split; [discriminate |]];
       right; right; exists form, user; split; [reflexivity |];
       split; [reflexivity |]; rewrite H1, H2, H3; reflexivity |].
    destruct (in_blacklist _ _) eqn:H4; cbn [fst snd];
      [intros [= <-]; split; [reflexivity | split; [discriminate |]];
       right; right; exists form, user; split; [reflexivity |];
       split; [reflexivity |]; rewrite H1, H2, H3, H4; reflexivity |].
    discriminate.
  - destruct (templates db !! formId) as [form |]; [| auto].
    destruct (users db !! userId) as [user |]; [| auto].
    destruct (below_min_level _ _); [auto |].
    destruct (too_recent _ _ _); [auto |].
    destruct (not_in_required _ _); [auto |].
    destruct (in_blacklist _ _); auto.
Qed.

Lemma form_eligibility_duplicate_guard_witness :
  (exists message,
     outcome_of (run (checkFormEligibility (H := exact_rounding) 1700000000000
                        "f1" "u1") (forms_db ["rejected"; "approved"]))
     = Throw message)
  /\ exists message,
       outcome_of (run (checkFormEligibility (H := exact_rounding) 1700000000000
                          "f1" "u1") (forms_db ["rejected"; "rejected"]))
       = Throw message.
Proof.
  split.
  - eapply (proj1 (form_eligibility_duplicate_guard (H := exact_rounding)
                     1700000000000 "f1" "u1" (forms_db ["rejected"; "approved"]))).
    + reflexivity.
    + reflexivity.
    + reflexivity.
  - eapply (proj1 (form_eligibility_duplicate_guard (H := exact_rounding)
                     1700000000000 "f1" "u1" (forms_db ["rejected"; "rejected"]))).
    + reflexivity.
    + reflexivity.
    + reflexivity.
Defined.

(** ** Session registration *)

Lemma checkSessionEligibility_reads_only (session : Session) (userId : string)
    (s : Store) :
  snd (checkSessionEligibility session userId s) = s.
Proof.
  unfold checkSessionEligibility, bind, snapshot, ret, throw. cbn [fst snd].
  destruct (users (fst s) !! userId) as [user |]; [| reflexivity].
  destruct (below_min_level _ _); [reflexivity |].
  destruct (not_in_required _ _); [reflexivity |].
  destruct (s_attendees session) as [| l | l]; [reflexivity | | reflexivity].
  destruct (existsb _ l); reflexivity.
Qed.

(** C8.  Registering for a session whose counter equals its bound throws
    "Session is full"; and whenever a registration throws, nothing was
    written: the database, hence the counter and the attendees of the
    session, is as before.  A registration that goes through pushes the
    attendee and then increments the counter. *)
Theorem full_session_registration_rejected (now : Z) (key sessionId userId : string)
    (db : DB) :
  (forall session capacity c,
     sessions db !! sessionId = Some session ->
     s_capacity session = Some capacity ->
     cap_current capacity = Some c -> cap_max capacity = Some c ->
     outcome_of (run (registerForSession now key sessionId userId) db)
     = Throw "Session is full")
  /\ (forall message,
        outcome_of (run (registerForSession now key sessionId userId) db)
        = Throw message ->
        db_after (run (registerForSession now key sessionId userId) db) = db
        /\ writes_of (run (registerForSession now key sessionId userId) db) = []
        /\ stored_current
             (db_after (run (registerForSession now key sessionId userId) db))
             sessionId = stored_current db sessionId
        /\ stored_attendees
             (db_after (run (registerForSession now key sessionId userId) db))
             sessionId = stored_attendees db sessionId)
  /\ (forall ok,
        outcome_of (run (registerForSession now key sessionId userId) db)
        = Return ok ->
        writes_of (run (registerForSession now key sessionId userId) db)
        = [ WPushAttendee sessionId key
              {| att_userId := userId; att_status := "confirmed";
                 att_registeredAt := now |};
            WIncrementCurrent sessionId ]).
Proof.
  unfold run, registerForSession, outcome_of, db_after, writes_of,
    bind, snapshot, throw, ret, emit.
  cbn [fst snd].
  destruct (sessions db !! sessionId) as [session |].
  2: { split; [intros ? ? ? [=] | split; [intros; repeat split | intros ? [=]]]. }
  destruct (s_capacity session) as [capacity |] eqn:Hcap.
  2: { split; [intros ? ? ? [= <-] ?; congruence
              | split; [intros; repeat split | intros ? [=]]]. }
  destruct (ge_undef (cap_current capacity) (cap_max capacity)) eqn:Hfull.
  { split; [reflexivity | split; [intros; repeat split | intros ? [=]]]. }
  split.
  { intros ? ? c [= <-] Hcap' Hcur Hmax. rewrite Hcap in Hcap'.
    injection Hcap' as <-. unfold ge_undef in Hfull.
    rewrite Hcur, Hmax, Z.leb_refl in Hfull. discriminate. }
  pose proof (checkSessionEligibility_reads_only session userId (db, [])) as Hro.
  destruct (checkSessionEligibility session userId (db, [])) as [[res | err] s'];
    cbn [snd] in Hro; subst s'.
  2: { split; [intros; repeat split | intros ? [=]]. }
  destruct (negb (eligible res)).
  { split; [intros; repeat split | intros ? [=]]. }
  split; [intros ? [=] | reflexivity].
Qed.

Lemma full_session_registration_rejected_witness :
  outcome_of (run (registerForSession 1700000000000 "-Nk1" "s1" "u1")
                (session_db 10 10 AttUndefined))
  = Throw "Session is full"
  /\ stored_current
       (db_after (run (registerForSession 1700000000000 "-Nk1" "s1" "u1")
                    (session_db 10 10 AttUndefined))) "s1" = Some 10.
Proof.
  pose proof (full_session_registration_rejected 1700000000000 "-Nk1" "s1" "u1"
                (session_db 10 10 AttUndefined)) as (Hfull & Hkeep & _).
  assert (Hthrow :
            outcome_of (run (registerForSession 1700000000000 "-Nk1" "s1" "u1")
                          (session_db 10 10 AttUndefined))
            = Throw "Session is full").
  { eapply Hfull; reflexivity. }
  split; [exact Hthrow |].
  destruct (Hkeep _ Hthrow) as (_ & _ & -> & _). reflexivity.
Defined.

(** With a free place the registration goes through and the counter moves
    from 9 to 10. *)
Example registration_with_free_place :
  outcome_of (run (registerForSession 1700000000000 "-Nk1" "s1" "u1")
                (session_db 9 10 AttUndefined)) = Return true
  /\ stored_current
       (db_after (run (registerForSession 1700000000000 "-Nk1" "s1" "u1")
                    (session_db 9 10 AttUndefined))) "s1" = Some 10.
Proof. split; reflexivity. Qed.

(** ** Assignment status workflow *)

Lemma transition_listed_edges (from to : option string) :
  transition_listed from to = true
  <-> exists f t, from = Some f /\ to = Some t /\ In (f, t) workflow_edges.
Proof.
  unfold transition_listed, validTransitions, workflow_edges. split.
  - destruct from as [f |]; [| discriminate]. cbn [mbind option_bind assoc].
    destruct to as [t |].
    2: { repeat (destruct (String.eqb f _); [discriminate |]). discriminate. }
    repeat match goal with
           | |- context [String.eqb f ?k] =>
               destruct (String.eqb_spec f k) as [-> | ?]
           end;
      try discriminate;
      intros Hin; apply bool_decide_eq_true in Hin;
      repeat (apply elem_of_cons in Hin as [-> | Hin]);
      try (inversion Hin; fail);
      eexists _, _; (split; [reflexivity |]); (split; [reflexivity |]);
      simpl; auto 8.
  - intros (f & t & -> & -> & Hin). simpl in Hin.
    repeat destruct Hin as [[= <- <-] | Hin]; try reflexivity. destruct Hin.
Qed.

Lemma workflow_edges_not_from_completed (from to : string) :
  In (from, to) workflow_edges -> from <> "completed".
Proof.
  simpl. intros Hin ->.
  repeat destruct Hin as [[=] | Hin]. destruct Hin.
Qed.

Lemma workflow_edges_under_review (to : string) :
  In ("under_review", to) workflow_edges -> to = "completed" \/ to = "in_progress".
Proof.
  simpl. intros Hin.
  repeat destruct Hin as [[= <-] | Hin]; auto. destruct Hin.
Qed.

Lemma workflow_edges_not_inherited (from to : string) :
  In (from, to) workflow_edges -> inherited_key from = false.
Proof.
  simpl. intros Hin.
  repeat (destruct Hin as [[= <- <-] | Hin]; [reflexivity |]). destruct Hin.
Qed.

(** A request either leaves the database alone, with an answer that is not
    a success or with an exception, or it is an accepted update along a
    listed edge, with its single write. *)
Lemma patchAssignmentStatus_run_cases (now : Z) (assignmentId : string)
    (status : option string) (userId : string) (level : option Z) (db : DB) :
  (exists outcome,
     (forall old new, outcome <> Return (Patch200 old new))
     /\ run (patchAssignmentStatus now assignmentId status userId level) db
        = (outcome, (db, [])))
  \/ (exists assignment from to,
        tasks db !! assignmentId = Some assignment
        /\ a_status assignment = Some from /\ status = Some to
        /\ In (from, to) workflow_edges
        /\ (to = "completed" -> 5 <= num_or level 0)
        /\ (a_assignedTo assignment = Some userId \/ 5 <= num_or level 0)
        /\ run (patchAssignmentStatus now assignmentId status userId level) db
           = (Return (Patch200 (Some from) to),
              (apply_write (status_write now assignmentId to userId) db,
               [status_write now assignmentId to userId]))).
Proof.
  unfold run, patchAssignmentStatus.
  destruct (path_refused assignmentId).
  { left. eexists. split; [| reflexivity]. discriminate. }
  unfold bind, snapshot, ret, emit, throw. cbn [fst snd].
  destruct (tasks db !! assignmentId) as [assignment |] eqn:Htask.
  2: { left. exists (Return Patch404). split; [discriminate | reflexivity]. }
  destruct (negb (bool_decide (a_assignedTo assignment = Some userId))
            && negb (5 <=? num_or level 0)) eqn:Hauth.
  { left. exists (Return Patch403NotAuthorized). split; [discriminate | reflexivity]. }
  destruct (negb (5 <=? num_or level 0)
            && bool_decide (a_assignedTo assignment = Some userId)
            && bool_decide (a_status assignment = Some "under_review")
            && negb (bool_decide (status = Some "in_progress"))) eqn:Honly.
  { left. exists (Return Patch403OnlyManagers). split; [discriminate | reflexivity]. }
  destruct (inherited_status (a_status assignment)).
  { left. eexists (Throw _). split; [discriminate | reflexivity]. }
  destruct (transition_listed (a_status assignment) status) eqn:Hlisted; cbn [negb].
  2: { left. eexists (Return (Patch400 _ _)). split; [discriminate | reflexivity]. }
  apply transition_listed_edges in Hlisted as (from & to & Hfrom & -> & Hin).
  right. exists assignment, from, to.
  split; [reflexivity |]. split; [exact Hfrom |]. split; [reflexivity |].
  split; [exact Hin |]. split; [| split; [| rewrite Hfrom; reflexivity]].
  - intros ->.
    assert (Hur : from = "under_review").
    { simpl in Hin. repeat destruct Hin as [[= <-] | Hin]; try reflexivity.
      destruct Hin. }
    subst from.
    destruct (5 <=? num_or level 0) eqn:Hmgr; [apply Z.leb_le; assumption |].
    exfalso. cbn [negb andb] in Hauth, Honly.
    rewrite andb_true_r in Hauth. apply negb_false_iff in Hauth.
    rewrite Hauth in Honly. rewrite (bool_decide_eq_true_2 _ Hfrom) in Honly.
    cbn in Honly. discriminate.
  - apply andb_false_iff in Hauth as [Hassigned | Hmgr].
    + left. apply negb_false_iff, bool_decide_eq_true in Hassigned. exact Hassigned.
    + right. apply negb_false_iff, Z.leb_le in Hmgr. exact Hmgr.
Qed.

Lemma stored_status_status_write (now : Z) (assignmentId to userId id : string)
    (db : DB) :
  stored_status (apply_write (status_write now assignmentId to userId) db) id
  = if decide (assignmentId = id) then Some to else stored_status db id.
Proof.
  unfold stored_status, status_write. cbn [apply_write tasks with_tasks].
  rewrite lookup_insert. case_decide; reflexivity.
Qed.

(** C9.  For an assignment id that names one child of the tasks: a status
    update goes through exactly for the edges pending -> in_progress,
    in_progress -> under_review, in_progress -> pending,
    under_review -> completed and under_review -> in_progress, requested by
    the assigned user or by a manager (permission level at least 5),
    under_review -> completed by a manager only; nothing leaves completed.
    Every other request is rejected and writes nothing, so the status stays
    as it was: it is answered with an error, unless the database client
    refuses the id or the stored status names a property the table of
    transitions inherits, in which cases the handler throws. *)
Theorem assignment_status_workflow (now : Z) (assignmentId : string)
    (status : option string) (userId : string) (level : option Z) (db : DB) :
  one_segment assignmentId = true ->
  (forall old new,
     outcome_of (run (patchAssignmentStatus now assignmentId status userId level) db)
     = Return (Patch200 old new) ->
     exists assignment from,
       tasks db !! assignmentId = Some assignment
       /\ a_status assignment = Some from /\ old = Some from /\ status = Some new
       /\ In (from, new) workflow_edges
       /\ from <> "completed"
       /\ (a_assignedTo assignment = Some userId \/ 5 <= num_or level 0)
       /\ ((from, new) = ("under_review", "completed") -> 5 <= num_or level 0)
       /\ stored_status
            (db_after (run (patchAssignmentStatus now assignmentId status userId
                              level) db)) assignmentId = Some new)
  /\ (forall assignment from to,
        path_refused assignmentId = false ->
        tasks db !! assignmentId = Some assignment ->
        a_status assignment = Some from -> status = Some to ->
        In (from, to) workflow_edges ->
        a_assignedTo assignment = Some userId \/ 5 <= num_or level 0 ->
        ((from, to) = ("under_review", "completed") -> 5 <= num_or level 0) ->
        outcome_of (run (patchAssignmentStatus now assignmentId status userId
                           level) db)
        = Return (Patch200 (Some from) to))
  /\ ((forall old new,
         outcome_of (run (patchAssignmentStatus now assignmentId status userId
                            level) db)
         <> Return (Patch200 old new)) ->
      db_after (run (patchAssignmentStatus now assignmentId status userId
                       level) db) = db
      /\ writes_of (run (patchAssignmentStatus now assignmentId status userId
                           level) db) = [])
  /\ (path_refused assignmentId = false ->
      (forall assignment from,
         tasks db !! assignmentId = Some assignment ->
         a_status assignment = Some from -> inherited_key from = false) ->
      exists response,
        outcome_of (run (patchAssignmentStatus now assignmentId status userId
                           level) db) = Return response)
  /\ (path_refused assignmentId = true ->
      exists message,
        outcome_of (run (patchAssignmentStatus now assignmentId status userId
                           level) db) = Throw message).
Proof.
  intros _. split; [| split; [| split; [| split]]].
  - intros old new Hok. unfold outcome_of, db_after in *.
    destruct (patchAssignmentStatus_run_cases now assignmentId status userId level db)
      as [(outcome & Hno & Hrun)
         | (assignment & from & to & Ht & Hfrom & Hto & Hin & Hmgr & Hauth & Hrun)];
      rewrite Hrun in *; cbn [fst snd] in *.
    + exfalso. exact (Hno old new Hok).
    + injection Hok as <- <-. exists assignment, from.
      split; [exact Ht |]. split; [exact Hfrom |]. split; [reflexivity |].
      split; [exact Hto |]. split; [exact Hin |].
      split; [exact (workflow_edges_not_from_completed _ _ Hin) |].
      split; [exact Hauth |].
      split; [intros [= _ ->]; apply Hmgr; reflexivity |].
      rewrite stored_status_status_write. case_decide; [reflexivity | contradiction].
  - intros assignment from to Hpath Ht Hfrom -> Hin Hauth Hmgr.
    assert (Hlisted : transition_listed (a_status assignment) (Some to) = true)
      by (apply transition_listed_edges; eauto).
    pose proof (workflow_edges_not_inherited _ _ Hin) as Hown.
    unfold run, patchAssignmentStatus, outcome_of. rewrite Hpath.
    unfold bind, snapshot, ret, emit, throw. cbn [fst snd].
    rewrite Ht, Hlisted. unfold inherited_status. rewrite Hfrom, Hown.
    cbn [negb].
    destruct (bool_decide (a_assignedTo assignment = Some userId)) eqn:Hassigned;
      [apply bool_decide_eq_true in Hassigned
      | apply bool_decide_eq_false in Hassigned];
      (destruct (5 <=? num_or level 0) eqn:Hlevel;
         [apply Z.leb_le in Hlevel | apply Z.leb_gt in Hlevel]);
      cbn [negb andb fst snd]; try reflexivity.
    + destruct (decide (from = "under_review")) as [-> | Hur].
      * destruct (workflow_edges_under_review _ Hin) as [-> | ->].
        -- specialize (Hmgr eq_refl). lia.
        -- rewrite !bool_decide_eq_true_2 by reflexivity. reflexivity.
      * rewrite (bool_decide_eq_false_2 (Some from = Some "under_review"))
          by congruence.
        reflexivity.
    + destruct Hauth; [contradiction | lia].
  - intros Hno. unfold outcome_of, db_after, writes_of in *.
    destruct (patchAssignmentStatus_run_cases now assignmentId status userId level db)
      as [(outcome & _ & Hrun)
         | (assignment & from & to & _ & _ & _ & _ & _ & _ & Hrun)];
      rewrite Hrun in *; cbn [fst snd] in *.
    + auto.
    + exfalso. exact (Hno _ _ eq_refl).
  - intros Hpath Hown. unfold run, patchAssignmentStatus, outcome_of.
    rewrite Hpath. unfold bind, snapshot, ret, emit, throw. cbn [fst snd].
    destruct (tasks db !! assignmentId) as [assignment |] eqn:Htask; [| eauto].
    destruct (negb _ && negb _); [eauto |].
    destruct (negb _ && _ && _ && _); [eauto |].
    assert (Hst : inherited_status (a_status assignment) = false).
    { unfold inherited_status. destruct (a_status assignment) as [from |] eqn:Hfrom;
        [| reflexivity].
      exact (Hown assignment from eq_refl Hfrom). }
    rewrite Hst.
    destruct (negb (transition_listed _ _)); [eauto |].
    destruct status; cbn [fst snd]; eauto.
  - intros Hpath. unfold run, patchAssignmentStatus, outcome_of, throw.
    rewrite Hpath. cbn [fst]. eauto.
Qed.

Lemma assignment_status_workflow_witness :
  outcome_of (run (patchAssignmentStatus 1700000000000 "t1" (Some "completed")
                     "boss" (Some 7)) (task_db "under_review"))
  = Return (Patch200 (Some "under_review") "completed").
Proof.
  eapply (proj1 (proj2 (assignment_status_workflow 1700000000000 "t1"
                          (Some "completed") "boss" (Some 7)
                          (task_db "under_review") eq_refl))).
  - reflexivity.
  - reflexivity.
  - reflexivity.
  - reflexivity.
  - simpl. auto.
  - right. simpl. lia.
  - intros _. simpl. lia.
Defined.

(** The assigned user, of level 3, may send a task under review back to work
    but not complete it; a completed task accepts nothing. *)
Example assignment_status_refusals :
  outcome_of (run (patchAssignmentStatus 1700000000000 "t1" (Some "in_progress")
                     "u1" (Some 3)) (task_db "under_review"))
  = Return (Patch200 (Some "under_review") "in_progress")
  /\ outcome_of (run (patchAssignmentStatus 1700000000000 "t1" (Some "completed")
                        "u1" (Some 3)) (task_db "under_review"))
     = Return Patch403OnlyManagers
  /\ outcome_of (run (patchAssignmentStatus 1700000000000 "t1" (Some "in_progress")
                        "boss" (Some 10)) (task_db "completed"))
     = Return (Patch400 (Some "completed") (Some "in_progress")).
Proof. repeat split; reflexivity. Qed.

(** ** Department eligibility: what a run of the handler does *)

Lemma emit_all_run (ws : list Write) (db : DB) (log : list Write) :
  emit_all ws (db, log) = (Return tt, (apply_writes ws db, (log ++ ws)%list)).
Proof.
  revert db log. induction ws as [|w rest IH]; intros db log; simpl.
  - unfold ret. rewrite app_nil_r. reflexivity.
  - unfold bind, emit. cbn [fst snd]. rewrite IH.
    rewrite <- app_assoc. reflexivity.
Qed.

Lemma apply_writes_cons (w : Write) (ws : list Write) (db : DB) :
  apply_writes (w :: ws) db = apply_writes ws (apply_write w db).
Proof. reflexivity. Qed.

Lemma apply_writes_app (ws1 ws2 : list Write) (db : DB) :
  apply_writes (ws1 ++ ws2) db = apply_writes ws2 (apply_writes ws1 db).
Proof. unfold apply_writes. apply fold_left_app. Qed.

Lemma departments_set_profile_role (uid : string) (role : option string) (db : DB) :
  departments (apply_write (WSetProfileRole uid role) db) = departments db.
Proof. reflexivity. Qed.

Lemma eligibleHandler_run (uid : string) (userData : UserRecord)
    (memberships : list Membership) (now : Z) (db : DB) :
  run (eligibleHandler uid userData (Some memberships) now) db
  = (Return (Eligible200 (handler_data uid userData memberships now db)),
     (apply_writes (handler_writes uid userData memberships now db) db,
      handler_writes uid userData memberships now db)).
Proof.
  unfold run, eligibleHandler, handler_data, handler_writes.
  unfold bind at 1. unfold emit at 1. cbn [fst snd app].
  unfold bind at 1. unfold snapshot at 1. cbn [fst snd].
  rewrite departments_set_profile_role.
  set (grm := build_groupRoleMap memberships).
  set (outcomes := dept_outcomes uid _ grm now (departments db)).
  unfold bind at 1. rewrite emit_all_run. cbn [app].
  unfold auto_selected.
  destruct (negb (truthy_str (onboarding_primaryDepartment userData))
            && (0 <? Z.of_nat (length (dept_results outcomes)))) eqn:Hsel.
  - destruct (getHighestPriorityDepartment (dept_results outcomes)) as [selected |].
    + destruct (truthy_str (Some selected)) eqn:Htruthy.
      * unfold bind, emit, ret. cbn [fst snd].
        rewrite apply_writes_cons, apply_writes_app. reflexivity.
      * unfold ret. rewrite !app_nil_r. reflexivity.
    + unfold ret. rewrite !app_nil_r. reflexivity.
  - unfold ret. rewrite !app_nil_r. reflexivity.
Qed.

(** ** Department eligibility: one department *)

Lemma evalDepartment_id uid isMain grm now id dept o :
  evalDepartment uid isMain grm now id dept = Some o -> dr_id (do_result o) = id.
Proof.
  unfold evalDepartment.
  destruct (negb (dept_isActive dept)); [discriminate |].
  destruct (bool_decide _); [intros [= <-]; reflexivity |].
  destruct (dept_groupId dept ≫= _) as [info |]; [| intros [= <-]; reflexivity].
  destruct (isMain && _); [| intros [= <-]; reflexivity].
  destruct (dept_autoApprove dept); intros [= <-]; reflexivity.
Qed.

(** A member entry is written only for an active, auto-approving department
    the user is newly eligible for, with the role and rank of the backing
    group. *)
Lemma evalDepartment_write uid isMain grm now id dept o entry :
  evalDepartment uid isMain grm now id dept = Some o ->
  do_write o = Some entry ->
  dept_isActive dept = true /\ dept_autoApprove dept = true
  /\ dept_members dept !! uid = None /\ isMain = true
  /\ exists g info,
       dept_groupId dept = Some g /\ grm !! g = Some info
       /\ default 0 (dept_requiredRole dept) <= gi_rank info
       /\ entry = member_entry now info.
Proof.
  unfold evalDepartment.
  destruct (dept_isActive dept); [cbn [negb] | discriminate].
  case_bool_decide as Hmember; [intros [= <-]; discriminate |].
  destruct (dept_groupId dept) as [g |]; cbn [mbind option_bind];
    [| intros [= <-]; discriminate].
  destruct (grm !! g) as [info |] eqn:Hinfo; [| intros [= <-]; discriminate].
  destruct isMain; cbn [andb]; [| intros [= <-]; discriminate].
  destruct (default 0 (dept_requiredRole dept) <=? gi_rank info) eqn:Hrank;
    [| intros [= <-]; discriminate].
  destruct (dept_autoApprove dept); intros [= <-]; [| discriminate].
  cbn [do_write]. intros [= <-].
  repeat split; try reflexivity.
  - destruct (dept_members dept !! uid) eqn:Hm; [| reflexivity].
    exfalso. apply Hmember. eauto.
  - exists g, info. repeat split; try assumption; try reflexivity.
    apply Z.leb_le. assumption.
Qed.

Lemma evalDepartment_newly_eligible uid memberships now id dept info :
  dept_isActive dept = true ->
  newly_eligible uid memberships dept info ->
  evalDepartment uid
    (bool_decide (is_Some (build_groupRoleMap memberships !! MAIN_GROUP_ID)))
    (build_groupRoleMap memberships) now id dept
  = Some
      {| do_result :=
           {| dr_id := id; dr_name := default "" (dept_name dept);
              dr_role := Some (gi_name info); dr_rank := Some (gi_rank info);
              dr_eligible := true;
              dr_status := if dept_autoApprove dept then "active" else "pending" |};
         do_write := if dept_autoApprove dept then Some (member_entry now info)
                     else None |}.
Proof.
  intros Hactive (Hmain & (g & Hg & Hinfo) & Hrank & Hmember).
  unfold evalDepartment. rewrite Hactive. cbn [negb].
  rewrite Hmember, Hg. cbn [mbind option_bind]. rewrite Hinfo.
  rewrite bool_decide_eq_false_2 by (intros [? ?]; discriminate).
  rewrite bool_decide_eq_true_2 by assumption. cbn [andb].
  apply Z.leb_le in Hrank. rewrite Hrank.
  destruct (dept_autoApprove dept); reflexivity.
Qed.

(** ** Department eligibility: the loop *)

Lemma In_dept_outcomes uid isMain grm now depts o :
  In o (dept_outcomes uid isMain grm now depts)
  <-> exists id dept, In (id, dept) depts
        /\ evalDepartment uid isMain grm now id dept = Some o.
Proof.
  unfold dept_outcomes. rewrite <- list_elem_of_In, list_elem_of_omap. split.
  - intros ([id dept] & Hin & Ho). apply list_elem_of_In in Hin. eauto.
  - intros (id & dept & Hin & Ho). exists (id, dept).
    rewrite list_elem_of_In. auto.
Qed.

Lemma In_dept_results outcomes res :
  In res (dept_results outcomes) <-> exists o, In o outcomes /\ do_result o = res.
Proof.
  unfold dept_results. rewrite in_app_iff, !in_map_iff. split.
  - intros [(o & <- & Ho) | (o & <- & Ho)]; apply filter_In in Ho as [Ho _]; eauto.
  - intros (o & Ho & <-). destruct (awaited o) eqn:Ha.
    + right. exists o. split; [reflexivity |]. apply filter_In. auto.
    + left. exists o. split; [reflexivity |]. apply filter_In. rewrite Ha. auto.
Qed.

Lemma In_auto_added outcomes id :
  In id (auto_added outcomes)
  <-> exists o, In o outcomes /\ awaited o = true /\ dr_id (do_result o) = id.
Proof.
  unfold auto_added. rewrite in_map_iff. split.
  - intros (o & <- & Ho). apply filter_In in Ho as [Ho Ha]. eauto.
  - intros (o & Ho & Ha & <-). exists o. split; [reflexivity |].
    apply filter_In. auto.
Qed.

Lemma In_member_writes uid outcomes w :
  In w (omap (member_write uid) outcomes)
  <-> exists o entry, In o outcomes /\ do_write o = Some entry
        /\ w = WSetMember (dr_id (do_result o)) uid entry.
Proof.
  rewrite <- list_elem_of_In, list_elem_of_omap. unfold member_write. split.
  - intros (o & Ho & Hw). apply list_elem_of_In in Ho.
    destruct (do_write o) as [entry |] eqn:He; [| discriminate].
    injection Hw as <-. eauto.
  - intros (o & entry & Ho & He & ->). exists o.
    rewrite list_elem_of_In, He. auto.
Qed.

(** Two entries of the registry with the same id are the same entry. *)
Lemma distinct_ids_same (depts : list (string * Department)) id d1 d2 :
  NoDup (map fst depts) -> In (id, d1) depts -> In (id, d2) depts -> d1 = d2.
Proof.
  induction depts as [|[k d] rest IH]; simpl; [intros _ [] |].
  intros Hnd. apply NoDup_cons in Hnd as [Hk Hnd].
  assert (Hfresh : forall d', In (k, d') rest -> False).
  { intros d' Hin. apply Hk, list_elem_of_In, in_map_iff. exists (k, d'). auto. }
  intros [E1 | H1] [E2 | H2].
  - congruence.
  - injection E1 as <- <-. exfalso. eauto.
  - injection E2 as <- <-. exfalso. eauto.
  - apply IH; assumption.
Qed.

(** ** Department eligibility: the effect of the writes *)

Lemma departments_apply_writes (ws : list Write) (db : DB) :
  departments (apply_writes ws db)
  = map (fun '(k, d) => (k, dept_after k ws d)) (departments db).
Proof.
  revert db. induction ws as [|w rest IH]; intros db.
  - cbn. induction (departments db) as [|[k d] l IHl]; [reflexivity |].
    cbn. rewrite <- IHl. reflexivity.
  - rewrite apply_writes_cons, IH.
    destruct w; try reflexivity.
    cbn [apply_write departments with_departments]. rewrite map_map.
    apply map_ext. intros [k d]. cbn [dept_after fold_left].
    destruct (String.eqb k deptId); reflexivity.
Qed.

Lemma find_after (l : list (string * Department)) (id : string)
    (dept : Department) (g : string -> Department -> Department) :
  NoDup (map fst l) -> In (id, dept) l ->
  List.find (fun '(k, _) => String.eqb k id) (map (fun '(k, d) => (k, g k d)) l)
  = Some (id, g id dept).
Proof.
  induction l as [|[k d] rest IH]; [intros _ [] |].
  intros Hnd Hin. cbn [map List.find].
  destruct (String.eqb_spec k id) as [-> | Hne].
  - rewrite (distinct_ids_same _ id dept d Hnd Hin (or_introl eq_refl)).
    reflexivity.
  - cbn [map fst] in Hnd. apply NoDup_cons in Hnd as [_ Hnd].
    destruct Hin as [[= -> _] | Hin]; [contradiction |].
    apply IH; assumption.
Qed.

Lemma members_of_after (ws : list Write) (db : DB) (id : string) (dept : Department) :
  distinct_ids db -> In (id, dept) (departments db) ->
  members_of (apply_writes ws db) id = dept_members (dept_after id ws dept).
Proof.
  intros Hnd Hin. unfold members_of.
  rewrite departments_apply_writes, (find_after _ id dept) by assumption.
  reflexivity.
Qed.

Lemma dept_after_untouched (id : string) (ws : list Write) (d : Department) :
  (forall uid entry, ~ In (WSetMember id uid entry) ws) ->
  dept_after id ws d = d.
Proof.
  revert d. induction ws as [|w rest IH]; intros d Hno; [reflexivity |].
  cbn [dept_after fold_left].
  assert (Hrest : forall uid entry, ~ In (WSetMember id uid entry) rest).
  { intros uid entry Hin. apply (Hno uid entry). right. assumption. }
  destruct w; try (apply IH; assumption).
  destruct (String.eqb_spec id deptId) as [-> | Hne]; [| apply IH; assumption].
  exfalso. apply (Hno uid entry). left. reflexivity.
Qed.

Lemma dept_after_added (id uid : string) (entry : MemberEntry)
    (ws : list Write) (d : Department) :
  (forall u e, In (WSetMember id u e) ws -> u = uid /\ e = entry) ->
  dept_members (dept_after id ws (add_member uid entry d))
  = <[uid := entry]> (dept_members d).
Proof.
  revert d. induction ws as [|w rest IH]; intros d Hall; [reflexivity |].
  cbn [dept_after fold_left].
  assert (Hrest : forall u e, In (WSetMember id u e) rest -> u = uid /\ e = entry).
  { intros u e Hin. apply Hall. right. assumption. }
  destruct w; try (apply IH; assumption).
  destruct (String.eqb_spec id deptId) as [-> | Hne]; [| apply IH; assumption].
  destruct (Hall uid0 entry0 (or_introl eq_refl)) as [-> ->].
  change (fold_left _ rest ?x) with (dept_after deptId rest x).
  rewrite IH by assumption. cbn [add_member dept_members].
  apply insert_insert_eq.
Qed.

Lemma dept_after_target (id uid : string) (entry : MemberEntry)
    (ws : list Write) (d : Department) :
  (forall u e, In (WSetMember id u e) ws -> u = uid /\ e = entry) ->
  In (WSetMember id uid entry) ws ->
  dept_members (dept_after id ws d) = <[uid := entry]> (dept_members d).
Proof.
  revert d. induction ws as [|w rest IH]; intros d Hall Hin; [destruct Hin |].
  assert (Hrest : forall u e, In (WSetMember id u e) rest -> u = uid /\ e = entry).
  { intros u e Hin'. apply Hall. right. assumption. }
  cbn [dept_after fold_left].
  destruct w;
    try (destruct Hin as [Hw | Hin]; [discriminate Hw | apply IH; assumption]).
  destruct (String.eqb_spec id deptId) as [-> | Hne].
  - destruct (Hall uid0 entry0 (or_introl eq_refl)) as [-> ->].
    apply dept_after_added. assumption.
  - destruct Hin as [[= -> _ _] | Hin]; [contradiction | apply IH; assumption].
Qed.

Lemma stored_primary_apply_write (w : Write) (db : DB) (uid : string) :
  ~ writes_primary w uid ->
  stored_primary (apply_write w db) uid = stored_primary db uid.
Proof.
  intros Hno. unfold stored_primary.
  destruct w; try reflexivity; cbn [apply_write users with_users].
  - destruct role as [r |].
    + rewrite lookup_insert. case_decide as Hu; [subst uid0 | reflexivity].
      destruct (users db !! uid); reflexivity.
    + rewrite lookup_alter. case_decide as Hu; [subst uid0 | reflexivity].
      destruct (users db !! uid); reflexivity.
  - rewrite lookup_insert. case_decide as Hu; [subst uid0 | reflexivity].
    exfalso. apply Hno. unfold writes_primary. eauto.
Qed.

Lemma stored_primary_apply_writes (ws : list Write) (db : DB) (uid : string) :
  (forall w, In w ws -> ~ writes_primary w uid) ->
  stored_primary (apply_writes ws db) uid = stored_primary db uid.
Proof.
  revert db. induction ws as [|w rest IH]; intros db Hno; [reflexivity |].
  rewrite apply_writes_cons, IH.
  - apply stored_primary_apply_write. apply Hno. left. reflexivity.
  - intros w' Hin. apply Hno. right. assumption.
Qed.

(** ** Department eligibility: the writes of a run *)

Lemma handler_member_writes uid userData memberships now db id u entry :
  In (WSetMember id u entry) (handler_writes uid userData memberships now db)
  <-> u = uid
      /\ exists dept o,
           In (id, dept) (departments db)
           /\ evalDepartment uid
                (bool_decide (is_Some (build_groupRoleMap memberships !! MAIN_GROUP_ID)))
                (build_groupRoleMap memberships) now id dept = Some o
           /\ do_write o = Some entry.
Proof.
  unfold handler_writes. cbn [In]. rewrite in_app_iff, In_member_writes. split.
  - intros [Hw | [(o & e & Ho & He & Hw) | Hw]]; [discriminate Hw | |].
    + injection Hw as -> -> ->. split; [reflexivity |].
      apply In_dept_outcomes in Ho as (id & dept & Hin & Heval).
      rewrite (evalDepartment_id _ _ _ _ _ _ _ Heval). eauto.
    + destruct (auto_selected _ _); [| destruct Hw].
      destruct Hw as [Hw | []]. discriminate Hw.
  - intros (-> & dept & o & Hin & Heval & He). right. left.
    exists o, entry. rewrite (evalDepartment_id _ _ _ _ _ _ _ Heval).
    repeat split; [| assumption]. apply In_dept_outcomes. eauto.
Qed.

Lemma handler_primary_writes uid userData memberships now db w u :
  In w (handler_writes uid userData memberships now db) ->
  writes_primary w u ->
  truthy_str (onboarding_primaryDepartment userData) = false.
Proof.
  unfold handler_writes, writes_primary. cbn [In]. rewrite in_app_iff, In_member_writes.
  intros [<- | [(o & e & _ & _ & ->) | Hw]] (p & t & Hp);
    [discriminate Hp | discriminate Hp |].
  unfold auto_selected in Hw.
  destruct (truthy_str (onboarding_primaryDepartment userData));
    [destruct Hw | reflexivity].
Qed.

Lemma eligibleRequest_run (uid : string) (external : option (list Membership))
    (now : Z) (db : DB) (u : UserRecord) :
  users db !! uid = Some u ->
  run (eligibleRequest uid external now) db
  = run (eligibleHandler uid u external now) db.
Proof.
  intros Hu. unfold run, eligibleRequest, authenticateToken.
  unfold bind at 1. unfold bind at 1. unfold snapshot at 1. cbn [fst snd].
  rewrite Hu. reflexivity.
Qed.

Lemma eligibleRequest_keeps_primary (uid : string)
    (external : option (list Membership)) (now : Z) (db : DB) (u : UserRecord) :
  users db !! uid = Some u ->
  (truthy_str (onboarding_primaryDepartment u) = true ->
     stored_primary (db_after (run (eligibleRequest uid external now) db)) uid
     = onboarding_primaryDepartment u
     /\ (forall w, In w (writes_of (run (eligibleRequest uid external now) db)) ->
           ~ writes_primary w uid)
     /\ (forall data,
           outcome_of (run (eligibleRequest uid external now) db)
           = Return (Eligible200 data) ->
           resp_primaryDepartment data = onboarding_primaryDepartment u))
  /\ (forall w, In w (writes_of (run (eligibleRequest uid external now) db)) ->
        writes_primary w uid ->
        truthy_str (onboarding_primaryDepartment u) = false).
Proof.
  intros Hu. rewrite (eligibleRequest_run _ _ _ _ _ Hu).
  assert (Hstored : stored_primary db uid = onboarding_primaryDepartment u)
    by (unfold stored_primary; rewrite Hu; reflexivity).
  destruct external as [memberships |].
  2: { unfold run, eligibleHandler, ret, db_after, writes_of, outcome_of.
       cbn [fst snd]. split; [| intros ? []].
       intros _. split; [assumption |]. split; [intros ? [] | intros ? [=]]. }
  rewrite eligibleHandler_run. unfold db_after, writes_of, outcome_of. cbn [fst snd].
  assert (Honly : forall w,
            In w (handler_writes uid u memberships now db) ->
            writes_primary w uid ->
            truthy_str (onboarding_primaryDepartment u) = false).
  { intros w Hin Hp. eapply handler_primary_writes; eassumption. }
  split; [| exact Honly].
  intros Htruthy.
  assert (Hnone : forall w,
            In w (handler_writes uid u memberships now db) ->
            ~ writes_primary w uid).
  { intros w Hin Hp. rewrite (Honly w Hin Hp) in Htruthy. discriminate. }
  split; [| split].
  - rewrite stored_primary_apply_writes by assumption. assumption.
  - assumption.
  - intros data [= <-]. unfold handler_data, auto_selected.
    cbn [resp_primaryDepartment]. rewrite Htruthy. reflexivity.
Qed.

(** C1.  For a user with a stored primary department, a run of the
    eligibility request leaves the stored primary department as it is, issues
    no write of it and reports it; the write of an auto-selected primary
    department is issued only when none is stored.  Hence, whatever a first
    run did, a second run keeps the primary department stored after the
    first. *)
Theorem primary_department_persisted_once (uid : string)
    (external : option (list Membership)) (now : Z) (db : DB) (u : UserRecord) :
  users db !! uid = Some u ->
  (truthy_str (onboarding_primaryDepartment u) = true ->
     stored_primary (db_after (run (eligibleRequest uid external now) db)) uid
     = onboarding_primaryDepartment u
     /\ (forall w, In w (writes_of (run (eligibleRequest uid external now) db)) ->
           ~ writes_primary w uid)
     /\ (forall data,
           outcome_of (run (eligibleRequest uid external now) db)
           = Return (Eligible200 data) ->
           resp_primaryDepartment data = onboarding_primaryDepartment u))
  /\ (forall w, In w (writes_of (run (eligibleRequest uid external now) db)) ->
        writes_primary w uid ->
        truthy_str (onboarding_primaryDepartment u) = false)
  /\ (forall external' now',
        truthy_str
          (stored_primary (db_after (run (eligibleRequest uid external now) db)) uid)
        = true ->
        stored_primary
          (db_after (run (eligibleRequest uid external' now')
                       (db_after (run (eligibleRequest uid external now) db)))) uid
        = stored_primary (db_after (run (eligibleRequest uid external now) db)) uid).
Proof.
  intros Hu.
  destruct (eligibleRequest_keeps_primary uid external now db u Hu) as [Hkeep Honly].
  split; [exact Hkeep |]. split; [exact Honly |].
  intros external' now' Htruthy.
  set (db1 := db_after (run (eligibleRequest uid external now) db)) in *.
  unfold stored_primary in Htruthy |- *.
  destruct (users db1 !! uid) as [u1 |] eqn:Hu1; [| discriminate Htruthy].
  cbn [mbind option_bind] in Htruthy |- *.
  destruct (eligibleRequest_keeps_primary uid external' now' db1 u1 Hu1)
    as [Hkeep1 _].
  destruct (Hkeep1 Htruthy) as [Hsame _].
  exact Hsame.
Qed.


Lemma primary_department_persisted_once_witness :
  stored_primary
    (db_after (run (eligibleRequest "42" (Some sample_memberships) 1700000000000)
                 (onboarding_db (Some "lr")))) "42" = Some "lr".
Proof.
  destruct (primary_department_persisted_once "42" (Some sample_memberships)
              1700000000000 (onboarding_db (Some "lr"))
              (user_with (Some 1) (Some "lr") None)) as (Hkeep & _ & _).
  - reflexivity.
  - destruct Hkeep as (Hstored & _ & _); [reflexivity | exact Hstored].
Defined.

(** A first run selects moderation, which comes before hr in the hierarchy,
    and stores it; the user is auto-added to hr only. *)
Example first_run_selects_primary :
  stored_primary
    (db_after (run (eligibleRequest "42" (Some sample_memberships) 1700000000000)
                 (onboarding_db None))) "42" = Some "moderation"
  /\ writes_of (run (eligibleRequest "42" (Some sample_memberships) 1700000000000)
                  (onboarding_db None))
     = [ WSetProfileRole "42" (Some "Member");
         WSetMember "hr" "42"
           {| joinedAt := 1700000000000; m_role := Some "HR Staff";
              m_rank := Some 20 |};
         WUpdatePrimary "42" "moderation" 1700000000000 ].
Proof. split; vm_compute; reflexivity. Qed.

(** C2.  For an active department that does not auto-approve and a user who
    is newly eligible for it, a run of the eligibility handler issues no
    write of the user into the members of the department, leaves its
    members as they were, reports the department as eligible with status
    "pending" and does not list it among the auto-added ones. *)
Theorem pending_without_auto_approve (uid : string) (userData : UserRecord)
    (memberships : list Membership) (now : Z) (db : DB)
    (id : string) (dept : Department) (info : GroupInfo) :
  distinct_ids db ->
  In (id, dept) (departments db) ->
  dept_isActive dept = true ->
  dept_autoApprove dept = false ->
  newly_eligible uid memberships dept info ->
  (forall w,
     In w (writes_of (run (eligibleHandler uid userData (Some memberships) now) db)) ->
     ~ writes_member w id uid)
  /\ members_of
       (db_after (run (eligibleHandler uid userData (Some memberships) now) db)) id
     = dept_members dept
  /\ exists data,
       outcome_of (run (eligibleHandler uid userData (Some memberships) now) db)
       = Return (Eligible200 data)
       /\ (exists res, In res (resp_departments data) /\ dr_id res = id
                       /\ dr_eligible res = true /\ dr_status res = "pending")
       /\ (forall res, In res (resp_departments data) -> dr_id res = id ->
                       dr_status res = "pending")
       /\ ~ In id (autoAddDepartments data).
Proof.
  intros Hnd Hin Hactive Hauto Hnew.
  rewrite eligibleHandler_run. unfold db_after, writes_of, outcome_of. cbn [fst snd].
  pose proof (evalDepartment_newly_eligible uid memberships now id dept info
                Hactive Hnew) as Heval.
  rewrite Hauto in Heval.
  assert (Hnowrite : forall u entry,
            ~ In (WSetMember id u entry) (handler_writes uid userData memberships now db)).
  { intros u entry Hw.
    apply handler_member_writes in Hw as (_ & dept' & o & Hin' & Heval' & Hwrite).
    rewrite (distinct_ids_same _ _ _ _ Hnd Hin' Hin) in Heval'.
    rewrite Heval in Heval'. injection Heval' as <-. discriminate Hwrite. }
  split; [| split].
  - intros w Hw (entry & ->). exact (Hnowrite _ _ Hw).
  - rewrite (members_of_after _ _ _ _ Hnd Hin), dept_after_untouched by assumption.
    reflexivity.
  - eexists. split; [reflexivity |].
    unfold handler_data. cbn [resp_departments autoAddDepartments].
    split; [| split].
    + eexists. split.
      { apply In_dept_results. eexists. split; [| reflexivity].
        apply In_dept_outcomes. exists id, dept. split; [exact Hin | exact Heval]. }
      repeat split.
    + intros res Hres Hid.
      apply In_dept_results in Hres as (o & Ho & <-).
      apply In_dept_outcomes in Ho as (id' & dept' & Hin' & Heval').
      rewrite (evalDepartment_id _ _ _ _ _ _ _ Heval') in Hid. subst id'.
      rewrite (distinct_ids_same _ _ _ _ Hnd Hin' Hin) in Heval'.
      rewrite Heval in Heval'. injection Heval' as <-. reflexivity.
    + intros Hadded.
      apply In_auto_added in Hadded as (o & Ho & Hawaited & Hid).
      apply In_dept_outcomes in Ho as (id' & dept' & Hin' & Heval').
      rewrite (evalDepartment_id _ _ _ _ _ _ _ Heval') in Hid. subst id'.
      rewrite (distinct_ids_same _ _ _ _ Hnd Hin' Hin) in Heval'.
      rewrite Heval in Heval'. injection Heval' as <-. discriminate Hawaited.
Qed.

(** C3.  For an active department that auto-approves and a user who is newly
    eligible for it, a run of the eligibility handler writes the entry
    {joinedAt, role, rank} of the user into the members of the department,
    role and rank being the user's role name and rank in the backing group
    as the membership service gave them; nobody else is added; the
    department is reported as eligible with status "active" and is listed
    among the auto-added ones. *)
Theorem auto_approve_adds_member (uid : string) (userData : UserRecord)
    (memberships : list Membership) (now : Z) (db : DB)
    (id : string) (dept : Department) (info : GroupInfo) :
  distinct_ids db ->
  In (id, dept) (departments db) ->
  dept_isActive dept = true ->
  dept_autoApprove dept = true ->
  newly_eligible uid memberships dept info ->
  In (WSetMember id uid (member_entry now info))
     (writes_of (run (eligibleHandler uid userData (Some memberships) now) db))
  /\ members_of
       (db_after (run (eligibleHandler uid userData (Some memberships) now) db)) id
     = <[uid := member_entry now info]> (dept_members dept)
  /\ exists data,
       outcome_of (run (eligibleHandler uid userData (Some memberships) now) db)
       = Return (Eligible200 data)
       /\ (exists res, In res (resp_departments data) /\ dr_id res = id
                       /\ dr_eligible res = true /\ dr_status res = "active"
                       /\ dr_role res = Some (gi_name info)
                       /\ dr_rank res = Some (gi_rank info))
       /\ (forall res, In res (resp_departments data) -> dr_id res = id ->
                       dr_status res = "active")
       /\ In id (autoAddDepartments data).
Proof.
  intros Hnd Hin Hactive Hauto Hnew.
  rewrite eligibleHandler_run. unfold db_after, writes_of, outcome_of. cbn [fst snd].
  pose proof (evalDepartment_newly_eligible uid memberships now id dept info
                Hactive Hnew) as Heval.
  rewrite Hauto in Heval.
  assert (Hwrite : In (WSetMember id uid (member_entry now info))
                      (handler_writes uid userData memberships now db)).
  { apply handler_member_writes. split; [reflexivity |].
    eexists dept, _. split; [exact Hin |]. split; [exact Heval | reflexivity]. }
  assert (Hall : forall u e,
            In (WSetMember id u e) (handler_writes uid userData memberships now db) ->
            u = uid /\ e = member_entry now info).
  { intros u e Hw.
    apply handler_member_writes in Hw as (-> & dept' & o & Hin' & Heval' & He).
    rewrite (distinct_ids_same _ _ _ _ Hnd Hin' Hin) in Heval'.
    rewrite Heval in Heval'. injection Heval' as <-.
    injection He as <-. auto. }
  split; [exact Hwrite |]. split.
  - rewrite (members_of_after _ _ _ _ Hnd Hin).
    apply dept_after_target; assumption.
  - eexists. split; [reflexivity |].
    unfold handler_data. cbn [resp_departments autoAddDepartments].
    assert (Hout : In _ (dept_outcomes uid
              (bool_decide (is_Some (build_groupRoleMap memberships !! MAIN_GROUP_ID)))
              (build_groupRoleMap memberships) now (departments db)))
      by (apply In_dept_outcomes; exists id, dept; split; [exact Hin | exact Heval]).
    split; [| split].
    + eexists. split.
      { apply In_dept_results. eexists. split; [exact Hout | reflexivity]. }
      repeat split.
    + intros res Hres Hid.
      apply In_dept_results in Hres as (o & Ho & <-).
      apply In_dept_outcomes in Ho as (id' & dept' & Hin' & Heval').
      rewrite (evalDepartment_id _ _ _ _ _ _ _ Heval') in Hid. subst id'.
      rewrite (distinct_ids_same _ _ _ _ Hnd Hin' Hin) in Heval'.
      rewrite Heval in Heval'. injection Heval' as <-. reflexivity.
    + apply In_auto_added. eexists. split; [exact Hout |]. split; reflexivity.
Qed.

Lemma sample_newly_eligible (groupId : string) (requiredRole : Z)
    (autoApprove : bool) (info : GroupInfo) :
  build_groupRoleMap sample_memberships !! groupId = Some info ->
  requiredRole <= gi_rank info ->
  newly_eligible "42" sample_memberships
    (sample_department groupId requiredRole autoApprove) info.
Proof.
  intros Hinfo Hrank. unfold newly_eligible. repeat split.
  - exists {| gi_name := "Member"; gi_rank := 1 |}. vm_compute. reflexivity.
  - exists groupId. split; [reflexivity | exact Hinfo].
  - exact Hrank.
Qed.

Lemma onboarding_db_distinct_ids (primary : option string) :
  distinct_ids (onboarding_db primary).
Proof.
  unfold distinct_ids. cbn. apply (bool_decide_unpack _). vm_compute. exact I.
Qed.

Lemma pending_without_auto_approve_witness :
  members_of
    (db_after (run (eligibleHandler "42" (user_with (Some 1) None None)
                      (Some sample_memberships) 1700000000000)
                 (onboarding_db None))) "moderation" = ∅.
Proof.
  refine (proj1 (proj2 (pending_without_auto_approve "42"
            (user_with (Some 1) None None) sample_memberships 1700000000000
            (onboarding_db None) "moderation" (sample_department "100" 50 false)
            {| gi_name := "Moderator"; gi_rank := 60 |} _ _ _ _ _))).
  - apply onboarding_db_distinct_ids.
  - cbn. auto.
  - reflexivity.
  - reflexivity.
  - apply sample_newly_eligible; [vm_compute; reflexivity | cbn; lia].
Defined.

Lemma auto_approve_adds_member_witness :
  members_of
    (db_after (run (eligibleHandler "42" (user_with (Some 1) None None)
                      (Some sample_memberships) 1700000000000)
                 (onboarding_db None))) "hr"
  = <["42" := member_entry 1700000000000
                {| gi_name := "HR Staff"; gi_rank := 20 |}]> ∅.
Proof.
  refine (proj1 (proj2 (auto_approve_adds_member "42"
            (user_with (Some 1) None None) sample_memberships 1700000000000
            (onboarding_db None) "hr" (sample_department "200" 10 true)
            {| gi_name := "HR Staff"; gi_rank := 20 |} _ _ _ _ _))).
  - apply onboarding_db_distinct_ids.
  - cbn. auto.
  - reflexivity.
  - reflexivity.
  - apply sample_newly_eligible; [vm_compute; reflexivity | cbn; lia].
Defined.

(* ===================================================================== *)
(** * Part III.  Further properties of the code                           *)
(* ===================================================================== *)

(** ** Department eligibility: what a run never does *)

Lemma dept_after_lookup_other (id u : string) (ws : list Write) (d : Department) :
  (forall e, ~ In (WSetMember id u e) ws) ->
  dept_members (dept_after id ws d) !! u = dept_members d !! u.
Proof.
  revert d. induction ws as [|w rest IH]; intros d Hno; [reflexivity |].
  cbn [dept_after fold_left].
  assert (Hrest : forall e, ~ In (WSetMember id u e) rest).
  { intros e Hin. apply (Hno e). right. assumption. }
  destruct w; try (apply IH; assumption).
  destruct (String.eqb_spec id deptId) as [-> | Hne]; [| apply IH; assumption].
  change (fold_left _ rest ?x) with (dept_after deptId rest x).
  rewrite IH by assumption. cbn [add_member dept_members].
  apply lookup_insert_ne. intros ->. apply (Hno entry). left. reflexivity.
Qed.

Lemma dept_after_fields (id : string) (ws : list Write) (d : Department) :
  dept_isActive (dept_after id ws d) = dept_isActive d
  /\ dept_autoApprove (dept_after id ws d) = dept_autoApprove d
  /\ dept_groupId (dept_after id ws d) = dept_groupId d
  /\ dept_requiredRole (dept_after id ws d) = dept_requiredRole d
  /\ dept_name (dept_after id ws d) = dept_name d.
Proof.
  revert d. induction ws as [|w rest IH]; intros d; [repeat split |].
  cbn [dept_after fold_left].
  destruct w; try apply IH.
  destruct (String.eqb id deptId); [| apply IH].
  change (fold_left _ rest ?x) with (dept_after id rest x).
  destruct (IH (add_member uid entry d)) as (-> & -> & -> & -> & ->).
  repeat split.
Qed.

Lemma members_of_unchanged (db : DB) (id : string) (dept : Department) :
  distinct_ids db -> In (id, dept) (departments db) ->
  members_of db id = dept_members dept.
Proof.
  intros Hnd Hin. exact (members_of_after [] db id dept Hnd Hin).
Qed.

(** X1.  A run of the eligibility handler only ever adds member entries: an
    entry that a department holds for any user before the run is the entry
    it holds after the run. *)
Theorem eligible_keeps_member_entries (uid : string) (userData : UserRecord)
    (external : option (list Membership)) (now : Z) (db : DB)
    (id : string) (dept : Department) (u : string) (e : MemberEntry) :
  distinct_ids db ->
  In (id, dept) (departments db) ->
  dept_members dept !! u = Some e ->
  members_of (db_after (run (eligibleHandler uid userData external now) db)) id !! u
  = Some e.
Proof.
  intros Hnd Hin He.
  destruct external as [memberships |].
  2: { unfold run, eligibleHandler, ret, db_after. cbn [fst snd].
       rewrite (members_of_unchanged _ _ _ Hnd Hin). exact He. }
  rewrite eligibleHandler_run. unfold db_after. cbn [fst snd].
  rewrite (members_of_after _ _ _ _ Hnd Hin), dept_after_lookup_other; [exact He |].
  intros e' Hw.
  apply handler_member_writes in Hw as (-> & dept' & o & Hin' & Heval & Hwrite).
  rewrite (distinct_ids_same _ _ _ _ Hnd Hin' Hin) in Heval.
  destruct (evalDepartment_write _ _ _ _ _ _ _ _ Heval Hwrite) as (_ & _ & Hnone & _).
  congruence.
Qed.

Lemma eligible_keeps_member_entries_witness :
  members_of
    (db_after (run (eligibleHandler "42" (user_with (Some 1) None None)
                      (Some sample_memberships) 1700000000000)
                 (with_departments (onboarding_db None)
                    [("hr", add_member "7" (member_entry 5 {| gi_name := "Old";
                                                              gi_rank := 3 |})
                              (sample_department "200" 10 true))]))) "hr" !! "7"
  = Some (member_entry 5 {| gi_name := "Old"; gi_rank := 3 |}).
Proof.
  eapply eligible_keeps_member_entries.
  - unfold distinct_ids. cbn. apply (bool_decide_unpack _). vm_compute. exact I.
  - cbn. left. reflexivity.
  - vm_compute. reflexivity.
Defined.

Lemma build_groupRoleMap_absent (memberships : list Membership) (k : string) :
  (forall g, In g memberships -> g_groupId g <> k) ->
  build_groupRoleMap memberships !! k = None.
Proof.
  unfold build_groupRoleMap.
  assert (Hgen : forall (m : gmap string GroupInfo),
            (forall g, In g memberships -> g_groupId g <> k) ->
            fold_left (fun m g => <[g_groupId g :=
                         {| gi_name := g_roleName g; gi_rank := g_roleRank g |}]> m)
                      memberships m !! k = m !! k).
  { induction memberships as [|g rest IH]; intros m Hno; [reflexivity |].
    cbn [fold_left]. rewrite IH by (intros g' Hg'; apply Hno; right; assumption).
    apply lookup_insert_ne. apply Hno. left. reflexivity. }
  intros Hno. rewrite Hgen by assumption. apply lookup_empty.
Qed.

Lemma evalDepartment_eligible_without_write uid isMain grm now id dept o :
  evalDepartment uid isMain grm now id dept = Some o ->
  do_write o = None ->
  dr_eligible (do_result o) = true ->
  (dr_status (do_result o) = "active" /\ is_Some (dept_members dept !! uid))
  \/ (dr_status (do_result o) = "pending" /\ dept_autoApprove dept = false
      /\ isMain = true).
Proof.
  unfold evalDepartment.
  destruct (negb (dept_isActive dept)); [discriminate |].
  case_bool_decide as Hmember; [intros [= <-] _ _; left; auto |].
  destruct (dept_groupId dept ≫= _) as [info |]; [| intros [= <-] _ [=]].
  destruct isMain; cbn [andb]; [| intros [= <-] _ [=]].
  destruct (_ <=? _); [| intros [= <-] _ [=]].
  destruct (dept_autoApprove dept); intros [= <-]; [intros [=] |].
  intros _ _. right. auto.
Qed.

(** X2.  For a user who is in no way a member of the main group, a run adds
    the user to no department and auto-adds nothing; the only departments
    reported as eligible are those the user is already a member of, with
    status "active". *)
Theorem outside_main_group_nothing_added (uid : string) (userData : UserRecord)
    (memberships : list Membership) (now : Z) (db : DB) :
  (forall g, In g memberships -> g_groupId g <> MAIN_GROUP_ID) ->
  (forall w id u,
     In w (writes_of (run (eligibleHandler uid userData (Some memberships) now) db)) ->
     ~ writes_member w id u)
  /\ exists data,
       outcome_of (run (eligibleHandler uid userData (Some memberships) now) db)
       = Return (Eligible200 data)
       /\ mainGroupMember data = false
       /\ autoAddDepartments data = []
       /\ forall res, In res (resp_departments data) -> dr_eligible res = true ->
            dr_status res = "active"
            /\ exists dept, In (dr_id res, dept) (departments db)
                            /\ is_Some (dept_members dept !! uid).
Proof.
  intros Hout. apply build_groupRoleMap_absent in Hout.
  rewrite eligibleHandler_run. unfold writes_of, outcome_of. cbn [fst snd].
  assert (Hmain : bool_decide (is_Some (build_groupRoleMap memberships !! MAIN_GROUP_ID))
                  = false).
  { apply bool_decide_eq_false_2. rewrite Hout. intros [? ?]. discriminate. }
  assert (Hnowrite : forall id dept o entry,
            evalDepartment uid
              (bool_decide (is_Some (build_groupRoleMap memberships !! MAIN_GROUP_ID)))
              (build_groupRoleMap memberships) now id dept = Some o ->
            do_write o = Some entry -> False).
  { intros id dept o entry Heval Hw.
    destruct (evalDepartment_write _ _ _ _ _ _ _ _ Heval Hw) as (_ & _ & _ & Hm & _).
    congruence. }
  split.
  - intros w id u Hw (entry & ->).
    apply handler_member_writes in Hw as (_ & dept & o & _ & Heval & Hwrite).
    eauto.
  - eexists. split; [reflexivity |].
    unfold handler_data.
    cbn [mainGroupMember autoAddDepartments resp_departments].
    split; [exact Hmain |]. split.
    + destruct (auto_added _) as [|id rest] eqn:Hadded; [reflexivity |].
      assert (Hin : In id (id :: rest)) by (left; reflexivity).
      rewrite <- Hadded in Hin.
      apply In_auto_added in Hin as (o & Ho & Hawaited & _).
      apply In_dept_outcomes in Ho as (id' & dept & _ & Heval).
      unfold awaited in Hawaited.
      destruct (do_write o) as [entry |] eqn:Hw; [| discriminate].
      exfalso. eauto.
    + intros res Hres Hel.
      apply In_dept_results in Hres as (o & Ho & <-).
      apply In_dept_outcomes in Ho as (id & dept & Hin & Heval).
      destruct (do_write o) as [entry |] eqn:Hw; [exfalso; eauto |].
      destruct (evalDepartment_eligible_without_write _ _ _ _ _ _ _ Heval Hw Hel)
        as [[Hst Hmem] | (_ & _ & Hm)]; [| congruence].
      split; [exact Hst |].
      rewrite (evalDepartment_id _ _ _ _ _ _ _ Heval). eauto.
Qed.

Lemma outside_main_group_nothing_added_witness :
  Forall (fun w => ~ writes_member w "hr" "42")
    (writes_of (run (eligibleHandler "42" (user_with (Some 1) None None)
                       (Some [ {| g_groupId := "200"; g_roleName := "HR Staff";
                                  g_roleRank := 20 |} ])
                       1700000000000) (onboarding_db None))).
Proof.
  apply Forall_forall. intros w Hw.
  refine (proj1 (outside_main_group_nothing_added "42" (user_with (Some 1) None None)
                   [ {| g_groupId := "200"; g_roleName := "HR Staff";
                        g_roleRank := 20 |} ]
                   1700000000000 (onboarding_db None) _) w "hr" "42" _).
  - intros g [<- | []]. discriminate.
  - apply list_elem_of_In. exact Hw.
Defined.

Lemma dept_after_is_Some (id u : string) (ws : list Write) (d : Department) :
  is_Some (dept_members d !! u) ->
  is_Some (dept_members (dept_after id ws d) !! u).
Proof.
  revert d. induction ws as [|w rest IH]; intros d Hd; [exact Hd |].
  cbn [dept_after fold_left].
  destruct w; try (apply IH; assumption).
  destruct (String.eqb id deptId); [| apply IH; assumption].
  apply IH. cbn [add_member dept_members].
  rewrite lookup_insert. case_decide; [eauto | assumption].
Qed.

(** The member writes of a run for one department all carry the same entry. *)
Lemma handler_member_writes_same uid userData memberships now db id dept info :
  distinct_ids db -> In (id, dept) (departments db) ->
  dept_isActive dept = true -> dept_autoApprove dept = true ->
  newly_eligible uid memberships dept info ->
  In (WSetMember id uid (member_entry now info))
     (handler_writes uid userData memberships now db)
  /\ forall u e,
       In (WSetMember id u e) (handler_writes uid userData memberships now db) ->
       u = uid /\ e = member_entry now info.
Proof.
  intros Hnd Hin Hactive Hauto Hnew.
  pose proof (evalDepartment_newly_eligible uid memberships now id dept info
                Hactive Hnew) as Heval.
  rewrite Hauto in Heval. split.
  - apply handler_member_writes. split; [reflexivity |].
    eexists dept, _. split; [exact Hin |]. split; [exact Heval | reflexivity].
  - intros u e Hw.
    apply handler_member_writes in Hw as (-> & dept' & o & Hin' & Heval' & He).
    rewrite (distinct_ids_same _ _ _ _ Hnd Hin' Hin) in Heval'.
    rewrite Heval in Heval'. injection Heval' as <-.
    injection He as <-. auto.
Qed.

(** X3.  Running the eligibility handler again on the database a first run
    left, with the same answer of the membership service, adds the user to
    no department: whoever was to be auto-added is a member already. *)
Theorem second_run_adds_nobody (uid : string) (userData userData' : UserRecord)
    (memberships : list Membership) (now now' : Z) (db : DB) :
  distinct_ids db ->
  forall w id u,
    In w (writes_of
            (run (eligibleHandler uid userData' (Some memberships) now')
               (db_after (run (eligibleHandler uid userData (Some memberships) now)
                            db)))) ->
    ~ writes_member w id u.
Proof.
  intros Hnd w id u Hw (e & ->).
  rewrite (eligibleHandler_run uid userData) in Hw. unfold db_after in Hw.
  cbn [fst snd] in Hw.
  rewrite eligibleHandler_run in Hw. unfold writes_of in Hw. cbn [fst snd] in Hw.
  remember (handler_writes uid userData memberships now db) as ws eqn:Hws.
  apply handler_member_writes in Hw as (-> & dept1 & o & Hin1 & Heval1 & Hwrite1).
  rewrite departments_apply_writes in Hin1.
  apply in_map_iff in Hin1 as ([k d] & [= -> <-] & Hin).
  destruct (evalDepartment_write _ _ _ _ _ _ _ _ Heval1 Hwrite1)
    as (Hactive & Hauto & Hnone & Hmain & g & info & Hg & Hinfo & Hrank & _).
  destruct (dept_after_fields id ws d) as (Ea & Eb & Ec & Ed & _).
  rewrite Ea in Hactive. rewrite Eb in Hauto. rewrite Ec in Hg. rewrite Ed in Hrank.
  assert (Hnone0 : dept_members d !! uid = None).
  { destruct (dept_members d !! uid) as [e0 |] eqn:He0; [| reflexivity].
    assert (Hs : is_Some (dept_members (dept_after id ws d) !! uid))
      by (apply dept_after_is_Some; rewrite He0; eauto).
    rewrite Hnone in Hs. destruct Hs as [? Hs]. discriminate Hs. }
  assert (Hnew : newly_eligible uid memberships d info).
  { unfold newly_eligible. split; [| split; [eauto | split; assumption]].
    apply bool_decide_eq_true in Hmain. exact Hmain. }
  destruct (handler_member_writes_same uid userData memberships now db id d info
              Hnd Hin Hactive Hauto Hnew) as [Hwritten Hall].
  rewrite <- Hws in Hwritten, Hall.
  rewrite (dept_after_target id uid (member_entry now info) ws d Hall Hwritten)
    in Hnone.
  rewrite lookup_insert_eq in Hnone. discriminate Hnone.
Qed.

Lemma second_run_adds_nobody_witness :
  Forall (fun w => ~ writes_member w "hr" "42")
    (writes_of
       (run (eligibleHandler "42" (user_with (Some 1) None None)
               (Some sample_memberships) 1700000000500)
          (db_after (run (eligibleHandler "42" (user_with (Some 1) None None)
                            (Some sample_memberships) 1700000000000)
                       (onboarding_db None))))).
Proof.
  apply Forall_forall. intros w Hw.
  apply (second_run_adds_nobody "42" (user_with (Some 1) None None)
           (user_with (Some 1) None None) sample_memberships
           1700000000000 1700000000500 (onboarding_db None)
           (onboarding_db_distinct_ids None) w "hr" "42").
  apply list_elem_of_In. exact Hw.
Defined.

Lemma stored_primary_update (uid primary : string) (now : Z) (db : DB) :
  stored_primary (apply_write (WUpdatePrimary uid primary now) db) uid = Some primary.
Proof.
  unfold stored_primary. cbn [apply_write users with_users].
  rewrite lookup_insert_eq. reflexivity.
Qed.

Lemma auto_selected_least (userData : UserRecord) (results : list DeptResult)
    (selected : string) :
  auto_selected userData results = Some selected ->
  truthy_str (onboarding_primaryDepartment userData) = false
  /\ exists best, selected = dr_id best /\ In best results /\ dr_eligible best = true
       /\ forall d, In d results -> dr_eligible d = true ->
            (hierarchy_place (dr_id best) <= hierarchy_place (dr_id d))%nat.
Proof.
  unfold auto_selected.
  destruct (truthy_str (onboarding_primaryDepartment userData)); [discriminate |].
  cbn [negb andb]. destruct (0 <? _); [| discriminate].
  destruct (getHighestPriorityDepartment results) as [p |] eqn:Hp; [| discriminate].
  destruct (truthy_str (Some p)); [| discriminate].
  intros [= <-]. split; [reflexivity |].
  exact (getHighestPriorityDepartment_least results p Hp).
Qed.

(** X4.  When a run stores an auto-selected primary department, it stores
    it for the requesting user, reports it in the same answer, and it is a
    department that this answer lists as eligible, none of the eligible ones
    coming earlier in the hierarchy; no primary department was stored
    before. *)
Theorem auto_selected_primary_is_reported (uid : string) (userData : UserRecord)
    (memberships : list Membership) (now : Z) (db : DB)
    (u primary : string) (updatedAt : Z) :
  In (WUpdatePrimary u primary updatedAt)
     (writes_of (run (eligibleHandler uid userData (Some memberships) now) db)) ->
  u = uid /\ updatedAt = now
  /\ truthy_str (onboarding_primaryDepartment userData) = false
  /\ stored_primary
       (db_after (run (eligibleHandler uid userData (Some memberships) now) db)) uid
     = Some primary
  /\ exists data,
       outcome_of (run (eligibleHandler uid userData (Some memberships) now) db)
       = Return (Eligible200 data)
       /\ resp_primaryDepartment data = Some primary
       /\ exists res, In res (resp_departments data) /\ dr_id res = primary
            /\ dr_eligible res = true
            /\ forall res', In res' (resp_departments data) ->
                 dr_eligible res' = true ->
                 (hierarchy_place primary <= hierarchy_place (dr_id res'))%nat.
Proof.
  rewrite eligibleHandler_run. unfold writes_of, db_after, outcome_of. cbn [fst snd].
  unfold handler_writes, handler_data. cbn [In resp_primaryDepartment resp_departments].
  set (outcomes := dept_outcomes uid _ _ now (departments db)).
  rewrite in_app_iff, In_member_writes.
  intros [Hw | [(o & e & _ & _ & Hw) | Hw]]; [discriminate Hw | discriminate Hw |].
  destruct (auto_selected userData (dept_results outcomes)) as [selected |] eqn:Hsel;
    [| destruct Hw].
  destruct Hw as [[= <- <- <-] | []].
  destruct (auto_selected_least _ _ _ Hsel)
    as (Hfalsy & best & -> & Hbest & Hel & Hmin).
  repeat split; try assumption.
  - rewrite app_comm_cons, apply_writes_app. cbn [apply_writes fold_left].
    apply stored_primary_update.
  - eexists. split; [reflexivity |]. split; [reflexivity |].
    exists best. repeat split; assumption.
Qed.

Lemma auto_selected_primary_is_reported_witness :
  stored_primary
    (db_after (run (eligibleHandler "42" (user_with (Some 1) None None)
                      (Some sample_memberships) 1700000000000)
                 (onboarding_db None))) "42" = Some "moderation".
Proof.
  refine (proj1 (proj2 (proj2 (proj2
            (auto_selected_primary_is_reported "42" (user_with (Some 1) None None)
               sample_memberships 1700000000000 (onboarding_db None)
               "42" "moderation" 1700000000000 _))))).
  vm_compute. auto.
Defined.

(** ** Primary department: order of the results *)

Lemma hierarchy_place_in_inj (h : list string) (x y : string) :
  hierarchy_place_in h x = hierarchy_place_in h y ->
  (hierarchy_place_in h x < length h)%nat -> x = y.
Proof.
  induction h as [|z r IH]; simpl; [lia |].
  destruct (String.eqb_spec x z) as [-> | Hx], (String.eqb_spec y z) as [-> | Hy];
    try reflexivity; try discriminate.
  intros [= Heq] Hlt. apply IH; [assumption | lia].
Qed.

(** X5.  The order in which the per-department results arrive does not
    matter as soon as one eligible department is in the hierarchy: any
    reordering of the results selects the same primary department. *)
Theorem highest_priority_order_independent (results results' : list DeptResult)
    (d : DeptResult) :
  Permutation results results' ->
  In d results -> dr_eligible d = true -> In (dr_id d) DEPARTMENT_HIERARCHY ->
  getHighestPriorityDepartment results = getHighestPriorityDepartment results'.
Proof.
  intros Hperm Hd Hel Hlisted.
  assert (Hd' : In d results') by (eapply Permutation_in; eassumption).
  destruct (getHighestPriorityDepartment_some results d Hd Hel) as [id Hid].
  destruct (getHighestPriorityDepartment_some results' d Hd' Hel) as [id' Hid'].
  rewrite Hid, Hid'. f_equal.
  destruct (getHighestPriorityDepartment_least results id Hid)
    as (best & -> & Hin & Hbel & Hmin).
  destruct (getHighestPriorityDepartment_least results' id' Hid')
    as (best' & -> & Hin' & Hbel' & Hmin').
  assert (Hle : (hierarchy_place (dr_id best) <= hierarchy_place (dr_id best'))%nat).
  { apply Hmin; [| assumption].
    eapply Permutation_in; [apply Permutation_sym; eassumption | assumption]. }
  assert (Hge : (hierarchy_place (dr_id best') <= hierarchy_place (dr_id best))%nat).
  { apply Hmin'; [| assumption]. eapply Permutation_in; eassumption. }
  assert (Hlt : (hierarchy_place (dr_id best) < 7)%nat).
  { specialize (Hmin d Hd Hel).
    destruct (hierarchy_place_listed (dr_id d)) as [Hl _].
    specialize (Hl Hlisted). lia. }
  apply (hierarchy_place_in_inj DEPARTMENT_HIERARCHY); [| exact Hlt].
  unfold hierarchy_place in Hle, Hge. lia.
Qed.

Lemma highest_priority_order_independent_witness :
  getHighestPriorityDepartment
    [dept_result "games" true "pending"; dept_result "hr" true "active";
     dept_result "moderation" true "pending"]
  = getHighestPriorityDepartment
      [dept_result "moderation" true "pending"; dept_result "games" true "pending";
       dept_result "hr" true "active"].
Proof.
  apply (highest_priority_order_independent _ _ (dept_result "hr" true "active")).
  - apply Permutation_sym. apply perm_trans with
      [dept_result "games" true "pending"; dept_result "moderation" true "pending";
       dept_result "hr" true "active"];
      [apply perm_swap | apply perm_skip, perm_swap].
  - simpl. auto.
  - reflexivity.
  - simpl. auto 8.
Defined.

(** ** Setting the primary department by hand *)

Lemma lookup_department_In (db : DB) (id : string) (dept : Department) :
  lookup_department db id = Some dept -> In (id, dept) (departments db).
Proof.
  unfold lookup_department.
  destruct (List.find _ (departments db)) as [[k d] |] eqn:Hfind; [| discriminate].
  intros [= <-]. apply find_some in Hfind as [Hin Hk].
  apply String.eqb_eq in Hk. subst k. exact Hin.
Qed.

Lemma setPrimaryDepartment_cases (userId : string)
    (departmentId : option string) (external : option (list Membership))
    (now : Z) (db : DB) :
  (forall p,
     outcome_of (run (setPrimaryDepartment userId departmentId external now) db)
     = Return (SetPrimary200 p)
     <-> departmentId = Some p /\ p <> ""
         /\ exists memberships dept,
              external = Some memberships
              /\ lookup_department db p = Some dept
              /\ may_set_primary userId memberships dept)
  /\ (forall p,
        outcome_of (run (setPrimaryDepartment userId departmentId external now) db)
        = Return (SetPrimary200 p) ->
        writes_of (run (setPrimaryDepartment userId departmentId external now) db)
        = [WUpdatePrimary userId p now]
        /\ stored_primary
             (db_after (run (setPrimaryDepartment userId departmentId external now)
                          db)) userId = Some p)
  /\ ((forall p,
         outcome_of (run (setPrimaryDepartment userId departmentId external now) db)
         <> Return (SetPrimary200 p)) ->
      db_after (run (setPrimaryDepartment userId departmentId external now) db) = db
      /\ writes_of (run (setPrimaryDepartment userId departmentId external now) db)
         = []).
Proof.
  unfold run, setPrimaryDepartment, outcome_of, db_after, writes_of, may_set_primary.
  destruct departmentId as [id |].
  2: { cbn. split; [| split; [intros ? [=] | auto]].
       intros p. split; [intros [=] | intros ([=] & _)]. }
  unfold truthy_str. destruct (String.eqb_spec id "") as [-> | Hid]; cbn [negb].
  { cbn. split; [| split; [intros ? [=] | auto]].
    intros p. split; [intros [=] | intros ([= <-] & Hp & _); contradiction]. }
  destruct external as [memberships |].
  2: { cbn. split; [| split; [intros ? [=] | auto]].
       intros p. split; [intros [=] | intros (_ & _ & ? & ? & [=] & _)]. }
  case_bool_decide as Hmain; cbn [negb].
  2: { cbn. split; [| split; [intros ? [=] | auto]].
       intros p. split; [intros [=] |].
       intros (_ & _ & ms & dept & [= <-] & _ & Hm & _). contradiction. }
  unfold bind, snapshot, ret, emit. cbn [fst snd].
  destruct (lookup_department db id) as [dept |] eqn:Hdept.
  2: { cbn. split; [| split; [intros ? [=] | auto]].
       intros p. split; [intros [=] |].
       intros ([= <-] & _ & ms & dept & _ & Hl & _). congruence. }
  destruct (dept_isActive dept) eqn:Hactive; cbn [negb].
  2: { cbn. split; [| split; [intros ? [=] | auto]].
       intros p. split; [intros [=] |].
       intros ([= <-] & _ & ms & dept' & _ & Hl & _ & Ha & _).
       rewrite Hdept in Hl. injection Hl as <-. congruence. }
  case_bool_decide as Hmember; cbn [negb].
  { cbn. split; [| split].
    - intros p. split.
      + intros [= <-]. repeat split; try assumption.
        exists memberships, dept. repeat split; auto.
      + intros ([= <-] & _). reflexivity.
    - intros p [= <-]. split; [reflexivity | apply stored_primary_update].
    - intros Hno. exfalso. eapply Hno. reflexivity. }
  destruct (dept_groupId dept) as [g |] eqn:Hg; cbn [mbind option_bind].
  2: { cbn. split; [| split; [intros ? [=] | auto]].
       intros p. split; [intros [=] |].
       intros ([= <-] & _ & ms & dept' & [= <-] & Hl & _ & _ & Hel).
       rewrite Hdept in Hl. injection Hl as <-.
       destruct Hel as [? | (g & info & Hg' & _)]; [contradiction | congruence]. }
  destruct (build_groupRoleMap memberships !! g) as [info |] eqn:Hinfo.
  2: { cbn. split; [| split; [intros ? [=] | auto]].
       intros p. split; [intros [=] |].
       intros ([= <-] & _ & ms & dept' & [= <-] & Hl & _ & _ & Hel).
       rewrite Hdept in Hl. injection Hl as <-.
       destruct Hel as [? | (g' & info & Hg' & Hi & _)]; [contradiction |].
       congruence. }
  cbn [andb].
  destruct (default 0 (dept_requiredRole dept) <=? gi_rank info) eqn:Hrank;
    cbn [negb].
  2: { cbn. split; [| split; [intros ? [=] | auto]].
       intros p. split; [intros [=] |].
       intros ([= <-] & _ & ms & dept' & [= <-] & Hl & _ & _ & Hel).
       rewrite Hdept in Hl. injection Hl as <-.
       destruct Hel as [? | (g' & info' & Hg' & Hi & Hr)]; [contradiction |].
       rewrite Hg in Hg'. injection Hg' as <-. rewrite Hinfo in Hi.
       injection Hi as <-. apply Z.leb_gt in Hrank. lia. }
  cbn. split; [| split].
  - intros p. split.
    + intros [= <-]. repeat split; try assumption.
      exists memberships, dept. repeat split; auto.
      right. exists g, info. repeat split; auto. apply Z.leb_le. assumption.
    + intros ([= <-] & _). reflexivity.
  - intros p [= <-]. split; [reflexivity | apply stored_primary_update].
  - intros Hno. exfalso. eapply Hno. reflexivity.
Qed.

(** X6.  For a user id and a department id that name one child each (not
    empty, no [/], none of the characters the database client refuses; an
    empty department id is refused first): the handler accepts a request
    exactly when the department id is not empty, the membership service
    answered, the user is in the main group, the department exists and is
    active, and the user is a member of it or has the required rank.  An
    accepted request issues the single write of the primary department,
    which replaces whatever was stored; any other request writes nothing. *)
Theorem set_primary_department_outcomes (userId : string)
    (departmentId : option string) (external : option (list Membership))
    (now : Z) (db : DB) :
  plain_key userId = true ->
  (forall d, departmentId = Some d -> d = "" \/ plain_key d = true) ->
  (forall p,
     outcome_of (run (setPrimaryDepartment userId departmentId external now) db)
     = Return (SetPrimary200 p)
     <-> departmentId = Some p /\ p <> ""
         /\ exists memberships dept,
              external = Some memberships
              /\ lookup_department db p = Some dept
              /\ may_set_primary userId memberships dept)
  /\ (forall p,
        outcome_of (run (setPrimaryDepartment userId departmentId external now) db)
        = Return (SetPrimary200 p) ->
        writes_of (run (setPrimaryDepartment userId departmentId external now) db)
        = [WUpdatePrimary userId p now]
        /\ stored_primary
             (db_after (run (setPrimaryDepartment userId departmentId external now)
                          db)) userId = Some p)
  /\ ((forall p,
         outcome_of (run (setPrimaryDepartment userId departmentId external now) db)
         <> Return (SetPrimary200 p)) ->
      db_after (run (setPrimaryDepartment userId departmentId external now) db) = db
      /\ writes_of (run (setPrimaryDepartment userId departmentId external now) db)
         = []).
Proof.
  intros _ _.
  destruct (setPrimaryDepartment_cases userId departmentId external now db)
    as (Haccepts & Heffect & Hotherwise).
  split; [exact Haccepts |]. split; [exact Heffect | exact Hotherwise].
Qed.

Lemma set_primary_department_outcomes_witness :
  outcome_of (run (setPrimaryDepartment "42" (Some "hr") (Some sample_memberships)
                     1700000000000) (onboarding_db (Some "moderation")))
  = Return (SetPrimary200 "hr").
Proof.
  assert (Hid : forall d, Some "hr" = Some d -> d = "" \/ plain_key d = true)
    by (intros d [= <-]; right; reflexivity).
  apply (proj1 (set_primary_department_outcomes "42" (Some "hr")
                  (Some sample_memberships) 1700000000000
                  (onboarding_db (Some "moderation")) eq_refl Hid) "hr").
  split; [reflexivity |]. split; [discriminate |].
  exists sample_memberships, (sample_department "200" 10 true).
  split; [reflexivity |]. split; [reflexivity |].
  unfold may_set_primary. split; [| split; [reflexivity |]].
  - exists {| gi_name := "Member"; gi_rank := 1 |}. vm_compute. reflexivity.
  - right. exists "200", {| gi_name := "HR Staff"; gi_rank := 20 |}.
    split; [reflexivity |]. split; [vm_compute; reflexivity | cbn; lia].
Defined.

Lemma setPrimaryRequest_run (userId : string) (departmentId : option string)
    (external : option (list Membership)) (now : Z) (db : DB) (u : UserRecord) :
  users db !! userId = Some u ->
  run (setPrimaryRequest userId departmentId external now) db
  = run (setPrimaryDepartment userId departmentId external now) db.
Proof.
  intros Hu. unfold run, setPrimaryRequest, authenticateToken.
  unfold bind at 1. unfold bind at 1. unfold snapshot at 1. cbn [fst snd].
  rewrite Hu. reflexivity.
Qed.

Lemma setPrimaryRequest_unknown_user (userId : string) (departmentId : option string)
    (external : option (list Membership)) (now : Z) (db : DB) :
  users db !! userId = None ->
  run (setPrimaryRequest userId departmentId external now) db
  = (Throw "User not found", (db, [])).
Proof.
  intros Hu. unfold run, setPrimaryRequest, authenticateToken.
  unfold bind at 1. unfold bind at 1. unfold snapshot at 1. cbn [fst snd].
  rewrite Hu. reflexivity.
Qed.

(** X7.  A primary department set by hand is not touched by the eligibility
    computation: after an accepted request, any later eligibility request of
    the user, whatever the membership service answers, leaves that primary
    department stored. *)
Theorem explicit_primary_is_kept (userId : string) (departmentId : option string)
    (external external' : option (list Membership)) (now now' : Z) (db : DB)
    (p : string) :
  outcome_of (run (setPrimaryRequest userId departmentId external now) db)
  = Return (SetPrimary200 p) ->
  stored_primary
    (db_after (run (eligibleRequest userId external' now')
                 (db_after (run (setPrimaryRequest userId departmentId external now)
                              db)))) userId
  = Some p.
Proof.
  destruct (users db !! userId) as [u |] eqn:Hu.
  2: { rewrite (setPrimaryRequest_unknown_user _ _ _ _ _ Hu). intros [=]. }
  rewrite (setPrimaryRequest_run _ _ _ _ _ _ Hu). intros Hok.
  destruct (setPrimaryDepartment_cases userId departmentId external now db)
    as (Hiff & Heffect & _).
  destruct (Heffect p Hok) as [_ Hstored].
  apply Hiff in Hok as (_ & Hne & _).
  set (db1 := db_after (run (setPrimaryDepartment userId departmentId external now) db))
    in *.
  unfold stored_primary in Hstored.
  destruct (users db1 !! userId) as [u1 |] eqn:Hu1; [| discriminate Hstored].
  cbn [mbind option_bind] in Hstored.
  destruct (eligibleRequest_keeps_primary userId external' now' db1 u1 Hu1)
    as [Hkeep _].
  rewrite Hstored in Hkeep.
  destruct Hkeep as [Hsame _]; [| exact Hsame].
  cbn. destruct (String.eqb_spec p ""); [contradiction | reflexivity].
Qed.

Lemma explicit_primary_is_kept_witness :
  stored_primary
    (db_after (run (eligibleRequest "42" (Some sample_memberships) 1700000000500)
                 (db_after (run (setPrimaryRequest "42" (Some "hr")
                                   (Some sample_memberships) 1700000000000)
                              (onboarding_db None))))) "42"
  = Some "hr".
Proof.
  apply explicit_primary_is_kept. vm_compute. reflexivity.
Defined.

(** X8.  For a user id and a department id that name one child each (not
    empty, no [/], none of the characters the database client refuses), the
    handler accepts only a department that the eligibility handler, on the
    same database and with the same answer of the membership service,
    reports as eligible. *)
Theorem set_primary_accepts_only_eligible (userId : string)
    (departmentId : option string) (memberships : list Membership)
    (now now' : Z) (db : DB) (userData : UserRecord) (p : string) :
  plain_key userId = true ->
  (forall d, departmentId = Some d -> plain_key d = true) ->
  outcome_of (run (setPrimaryDepartment userId departmentId (Some memberships) now)
                db)
  = Return (SetPrimary200 p) ->
  exists data res,
    outcome_of (run (eligibleHandler userId userData (Some memberships) now') db)
    = Return (Eligible200 data)
    /\ In res (resp_departments data) /\ dr_id res = p /\ dr_eligible res = true.
Proof.
  intros _ _ Hok.
  apply (proj1 (setPrimaryDepartment_cases userId departmentId
                  (Some memberships) now db)) in Hok
    as (_ & _ & ms & dept & [= <-] & Hlookup & Hmain & Hactive & Hel).
  apply lookup_department_In in Hlookup.
  rewrite eligibleHandler_run. unfold outcome_of. cbn [fst snd].
  eexists. 
  assert (Hres : exists o,
             evalDepartment userId
               (bool_decide (is_Some (build_groupRoleMap memberships !! MAIN_GROUP_ID)))
               (build_groupRoleMap memberships) now' p dept = Some o
             /\ dr_eligible (do_result o) = true).
  { destruct (dept_members dept !! userId) as [e |] eqn:Hmember.
    - unfold evalDepartment. rewrite Hactive. cbn [negb].
      rewrite Hmember, bool_decide_eq_true_2 by eauto.
      eexists. split; reflexivity.
    - destruct Hel as [[? Hs] | (g & info & Hg & Hinfo & Hrank)]; [discriminate Hs |].
      eexists. split.
      + apply (evalDepartment_newly_eligible userId memberships now' p dept info
                 Hactive).
        unfold newly_eligible. eauto 8.
      + reflexivity. }
  destruct Hres as (o & Heval & Ho).
  exists (do_result o). split; [reflexivity |].
  unfold handler_data. cbn [resp_departments]. split; [| split].
  - apply In_dept_results. exists o. split; [| reflexivity].
    apply In_dept_outcomes. eauto.
  - apply (evalDepartment_id _ _ _ _ _ _ _ Heval).
  - exact Ho.
Qed.

Lemma set_primary_accepts_only_eligible_witness :
  exists data res,
    outcome_of (run (eligibleHandler "42" (user_with (Some 1) None None)
                       (Some sample_memberships) 1700000000500) (onboarding_db None))
    = Return (Eligible200 data)
    /\ In res (resp_departments data) /\ dr_id res = "hr" /\ dr_eligible res = true.
Proof.
  apply (set_primary_accepts_only_eligible "42" (Some "hr") sample_memberships
           1700000000000 1700000000500 (onboarding_db None)).
  - reflexivity.
  - intros d [= <-]. reflexivity.
  - vm_compute. reflexivity.
Defined.

(** ** Route guards *)

(** X9.  The combined guard lets a request through exactly when the
    department guard or the role guard would. *)
Theorem department_or_role_guard (department : string) (roles : RolesArg)
    (req : option ReqUser) :
  requireDepartmentOrRole department roles req = Next
  <-> requireDepartment department req = Next \/ requireRole roles req = Next.
Proof.
  unfold requireDepartmentOrRole, requireDepartment, requireRole.
  destruct (guard_isApiKey req && (10 <=? guard_level req)); [tauto |].
  destruct (8 <=? guard_level req); cbn [orb]; [tauto |].
  destruct (bool_decide (_ = Some department)); cbn [orb]; [tauto |].
  destruct (includes_opt (allowedRoles roles) _); cbn [negb].
  - tauto.
  - split; [discriminate | intros [? | ?]; discriminate].
Qed.

Lemma department_or_role_guard_witness :
  requireDepartmentOrRole "hr" (ManyRoles ["moderation_head"; "acquisition_head"])
    (req_user (Some 7) (Some "moderation") (Some "moderation_head") false) = Next.
Proof.
  apply (proj2 (department_or_role_guard "hr"
                  (ManyRoles ["moderation_head"; "acquisition_head"])
                  (req_user (Some 7) (Some "moderation") (Some "moderation_head")
                     false))).
  right. reflexivity.
Defined.

(** X10.  The permission guard is monotone: a request that passes for a
    minimum level passes for every lower one, and among requests of the same
    kind a higher level passes wherever a lower one does.  A request without
    user data counts as level 0. *)
Theorem require_permission_monotone (minLevel minLevel' : Z)
    (req req' : option ReqUser) :
  (requirePermission minLevel req = Next -> minLevel' <= minLevel ->
   requirePermission minLevel' req = Next)
  /\ (requirePermission minLevel req = Next ->
      guard_isApiKey req' = guard_isApiKey req ->
      guard_level req <= guard_level req' ->
      requirePermission minLevel req' = Next)
  /\ (requirePermission minLevel None = Next <-> minLevel <= 0).
Proof.
  unfold requirePermission. split; [| split].
  - destruct (guard_isApiKey req && (10 <=? guard_level req)); [reflexivity |].
    destruct (guard_level req <? minLevel) eqn:Hlt; [discriminate |].
    intros _ Hle. apply Z.ltb_ge in Hlt.
    destruct (guard_level req <? minLevel') eqn:Hlt'; [| reflexivity].
    apply Z.ltb_lt in Hlt'. lia.
  - intros Hpass -> Hle.
    destruct (guard_isApiKey req) eqn:Hkey; cbn [andb] in *.
    + destruct (10 <=? guard_level req) eqn:H10.
      * apply Z.leb_le in H10.
        assert (H10' : (10 <=? guard_level req') = true) by (apply Z.leb_le; lia).
        rewrite H10'. reflexivity.
      * destruct (10 <=? guard_level req'); [reflexivity |].
        destruct (guard_level req <? minLevel) eqn:Hlt; [discriminate |].
        apply Z.ltb_ge in Hlt.
        destruct (guard_level req' <? minLevel) eqn:Hlt'; [| reflexivity].
        apply Z.ltb_lt in Hlt'. lia.
    + destruct (guard_level req <? minLevel) eqn:Hlt; [discriminate |].
      apply Z.ltb_ge in Hlt.
      destruct (guard_level req' <? minLevel) eqn:Hlt'; [| reflexivity].
      apply Z.ltb_lt in Hlt'. lia.
  - cbn. destruct (0 <? minLevel) eqn:Hlt.
    + apply Z.ltb_lt in Hlt. split; [discriminate | lia].
    + apply Z.ltb_ge in Hlt. split; [intros _; exact Hlt | reflexivity].
Qed.

Lemma require_permission_monotone_witness :
  requirePermission 3 (req_user (Some 4) None None false) = Next.
Proof.
  apply (proj1 (require_permission_monotone 4 3
                  (req_user (Some 4) None None false) None)).
  - reflexivity.
  - lia.
Defined.

(** X11.  Level 8 and above passes the department guard, the role guard and
    the combined guard whatever they ask for; an API key of level 10 passes
    every guard, the permission guard included whatever minimum it asks
    for, while an ordinary user of level 10 does not pass a minimum of 11. *)
Theorem guards_bypass (minLevel : Z) (department : string) (roles : RolesArg)
    (req : option ReqUser) :
  (8 <= guard_level req ->
     requireDepartment department req = Next
     /\ requireRole roles req = Next
     /\ requireDepartmentOrRole department roles req = Next)
  /\ (guard_isApiKey req = true -> 10 <= guard_level req ->
      requirePermission minLevel req = Next)
  /\ requirePermission 11 (req_user (Some 10) None None false)
     = Deny403 "Insufficient permissions. Required: 11, Current: 10".
Proof.
  split; [| split].
  - intros H8. apply Z.leb_le in H8.
    unfold requireDepartment, requireRole, requireDepartmentOrRole. rewrite H8.
    destruct (guard_isApiKey req && (10 <=? guard_level req)); auto.
  - intros Hkey H10. apply Z.leb_le in H10.
    unfold requirePermission. rewrite Hkey, H10. reflexivity.
  - vm_compute. reflexivity.
Qed.

Lemma guards_bypass_witness :
  requirePermission 99 (req_user (Some 10) (Some "system") (Some "system_admin") true)
  = Next.
Proof.
  apply (proj1 (proj2 (guards_bypass 99 "hr" (OneRole "x")
                         (req_user (Some 10) (Some "system") (Some "system_admin")
                            true)))).
  - reflexivity.
  - cbn. lia.
Defined.

(** ** App access *)

Lemma assoc_In {A : Type} (k : string) (l : list (string * A)) (a : A) :
  assoc k l = Some a -> In (k, a) l.
Proof.
  induction l as [|[k' a'] r IH]; simpl; [discriminate |].
  destruct (String.eqb_spec k k') as [-> | Hne].
  - intros [= ->]. auto.
  - intros H. right. apply IH, H.
Qed.

Lemma ordinary_apps_in_universe (userData : UserRecord) (apps : list string)
    (appId : string) :
  getUserAccessibleApps userData = Return apps ->
  In appId apps -> in_app_universe appId.
Proof.
  destruct (classic_privileged userData) as [Hp | Hp].
  - rewrite (getUserAccessibleApps_privileged _ Hp). intros [= <-].
    rewrite In_dedupe. apply In_all_matrix_apps.
  - rewrite (getUserAccessibleApps_ordinary _ Hp).
    destruct (inherited_key (getUserDepartmentGroup userData)); [discriminate |].
    intros Heq. apply Return_inj in Heq. rewrite <- Heq.
    rewrite In_dedupe, in_app_iff.
    unfold in_app_universe.
    intros [H | H].
    + destruct (assoc "universal" APP_ACCESS_MATRIX) as [listed |] eqn:Ha;
        [| destruct H].
      apply assoc_In in Ha. eauto.
    + destruct (assoc (getUserDepartmentGroup userData) APP_ACCESS_MATRIX)
        as [listed |] eqn:Ha; [| destruct H].
      apply assoc_In in Ha. eauto.
Qed.

(** X12.  Whatever a user may open, every privileged user (level 5 or more,
    or corporate department) may open too.  The apps of the universal
    category are open to every privileged user and to every user whose
    department is not the name of a property the matrix inherits; a user
    who is not privileged and has such a department ([constructor],
    [toString], ...) is denied every app, the universal ones included. *)
Theorem app_access_monotone (userData privilegedData : UserRecord) (appId : string) :
  (hasAppAccess userData appId = true -> privileged privilegedData ->
   hasAppAccess privilegedData appId = true)
  /\ (In appId (default [] (assoc "universal" APP_ACCESS_MATRIX)) ->
      privileged userData
      \/ inherited_key (getUserDepartmentGroup userData) = false ->
      hasAppAccess userData appId = true)
  /\ (~ privileged userData ->
      inherited_key (getUserDepartmentGroup userData) = true ->
      hasAppAccess userData appId = false).
Proof.
  split; [| split].
  - intros Hu Hp. apply hasAppAccess_In in Hu as (apps & Hrun & Hin).
    apply hasAppAccess_In. eexists.
    split; [apply (getUserAccessibleApps_privileged _ Hp) |].
    rewrite In_dedupe.
    apply In_all_matrix_apps, (ordinary_apps_in_universe userData apps); assumption.
  - intros Hin Hok. apply hasAppAccess_In.
    destruct (classic_privileged userData) as [Hp | Hp].
    + eexists. split; [apply (getUserAccessibleApps_privileged _ Hp) |].
      rewrite In_dedupe. apply In_all_matrix_apps.
      exists "universal", (default [] (assoc "universal" APP_ACCESS_MATRIX)).
      split; [left; reflexivity | exact Hin].
    + destruct Hok as [Hyes | Hk]; [contradiction |].
      eexists. split.
      * rewrite (getUserAccessibleApps_ordinary _ Hp), Hk. reflexivity.
      * rewrite In_dedupe, in_app_iff. left. exact Hin.
  - intros Hp Hk. unfold hasAppAccess.
    rewrite (getUserAccessibleApps_ordinary _ Hp), Hk. reflexivity.
Qed.

Lemma app_access_monotone_witness :
  hasAppAccess (user_with (Some 6) None None) "bake-mod" = true
  /\ hasAppAccess (user_with (Some 1) None (Some "toString")) "forms" = false.
Proof.
  split.
  - apply (proj1 (app_access_monotone (user_with (Some 2) (Some "moderation") None)
                    (user_with (Some 6) None None) "bake-mod")).
    + reflexivity.
    + right; right. vm_compute. discriminate.
  - apply (proj2 (proj2 (app_access_monotone
                           (user_with (Some 1) None (Some "toString"))
                           (user_with (Some 6) None None) "forms"))).
    + unfold privileged. vm_compute.
      intros [H | [H | H]]; try discriminate; apply H; reflexivity.
    + reflexivity.
Defined.

Lemma privileged_tests (userData : UserRecord) :
  privileged userData ->
  (PERMISSION_LEVELS.DEVELOPER <=? userLevelOf userData) = true
  \/ (String.eqb (getUserDepartmentGroup userData) DEPARTMENTS.CORPORATE
      || (PERMISSION_LEVELS.CORPORATE <=? userLevelOf userData)) = true.
Proof.
  unfold privileged, PERMISSION_LEVELS.DEVELOPER, PERMISSION_LEVELS.CORPORATE.
  intros [H | [H | H]].
  - left. apply Z.leb_le. exact H.
  - right. rewrite H, String.eqb_refl. reflexivity.
  - right. apply orb_true_iff. right. apply Z.leb_le. exact H.
Qed.

Lemma ordinary_tests (userData : UserRecord) :
  ~ privileged userData ->
  (PERMISSION_LEVELS.DEVELOPER <=? userLevelOf userData) = false
  /\ String.eqb (getUserDepartmentGroup userData) DEPARTMENTS.CORPORATE = false
  /\ (PERMISSION_LEVELS.CORPORATE <=? userLevelOf userData) = false
  /\ (PERMISSION_LEVELS.ADMIN <=? userLevelOf userData) = false.
Proof.
  unfold privileged, PERMISSION_LEVELS.DEVELOPER, PERMISSION_LEVELS.CORPORATE,
    PERMISSION_LEVELS.ADMIN.
  intros Hn.
  assert (H5 : ~ 5 <= userLevelOf userData) by tauto.
  repeat split.
  - apply Z.leb_gt. lia.
  - apply String.eqb_neq. tauto.
  - apply Z.leb_gt. lia.
  - apply Z.leb_gt. lia.
Qed.

Lemma hasRequiredPermissions_privileged (roles : option (list string))
    (userData : UserRecord) (required : option (list string)) :
  privileged userData -> hasRequiredPermissions roles userData required = true.
Proof.
  intros Hp. unfold hasRequiredPermissions.
  destruct required as [[|perm perms] |]; try reflexivity.
  destruct (privileged_tests _ Hp) as [-> | Hc]; [reflexivity |].
  rewrite Hc.
  destruct (PERMISSION_LEVELS.DEVELOPER <=? userLevelOf userData); reflexivity.
Qed.

(** X13.  No requirement, or an empty one, is met by every user, and a
    privileged user meets every requirement.  For any other user the tokens
    corporate_access, admin_access and developer_access are never met, even
    when the user's own roles carry these names, whereas basic_access is met
    exactly from level 1 on. *)
Theorem required_permissions_cases (roles : option (list string))
    (userData : UserRecord) (required : list string) :
  hasRequiredPermissions roles userData None = true
  /\ hasRequiredPermissions roles userData (Some []) = true
  /\ (privileged userData ->
      hasRequiredPermissions roles userData (Some required) = true)
  /\ (~ privileged userData -> required <> [] ->
      (forall perm, In perm required ->
         In perm ["corporate_access"; "admin_access"; "developer_access"]) ->
      hasRequiredPermissions roles userData (Some required) = false)
  /\ (~ privileged userData ->
      (hasRequiredPermissions roles userData (Some ["basic_access"]) = true
       <-> 1 <= userLevelOf userData)).
Proof.
  split; [reflexivity |]. split; [reflexivity |]. split; [| split].
  - apply hasRequiredPermissions_privileged.
  - intros Hn Hne Hall. destruct (ordinary_tests _ Hn) as (H10 & Hc & H5 & H8).
    unfold hasRequiredPermissions.
    destruct required as [|perm perms]; [contradiction |].
    rewrite H10, Hc, H5. cbn [orb].
    apply not_true_is_false. intros Hex.
    apply existsb_exists in Hex as (p & Hin & Hpass).
    specialize (Hall p Hin).
    simpl in Hall. destruct Hall as [<- | [<- | [<- | []]]].
    + change (permission_passes roles userData "corporate_access")
        with (String.eqb (getUserDepartmentGroup userData) DEPARTMENTS.CORPORATE)
        in Hpass.
      congruence.
    + change (permission_passes roles userData "admin_access")
        with (PERMISSION_LEVELS.ADMIN <=? userLevelOf userData) in Hpass.
      congruence.
    + change (permission_passes roles userData "developer_access")
        with (PERMISSION_LEVELS.DEVELOPER <=? userLevelOf userData) in Hpass.
      congruence.
  - intros Hn. destruct (ordinary_tests _ Hn) as (H10 & Hc & H5 & H8).
    unfold hasRequiredPermissions. rewrite H10, Hc, H5. cbn [orb existsb].
    change (permission_passes roles userData "basic_access")
      with (PERMISSION_LEVELS.BASIC <=? userLevelOf userData).
    rewrite orb_false_r. unfold PERMISSION_LEVELS.BASIC. apply Z.leb_le.
Qed.

Lemma required_permissions_cases_witness :
  hasRequiredPermissions (Some ["admin_access"])
    (user_with (Some 4) None (Some "hr")) (Some ["admin_access"; "corporate_access"])
  = false.
Proof.
  apply (proj1 (proj2 (proj2 (proj2
           (required_permissions_cases (Some ["admin_access"])
              (user_with (Some 4) None (Some "hr"))
              ["admin_access"; "corporate_access"]))))).
  - unfold privileged. vm_compute.
    intros [H | [H | H]]; try discriminate; apply H; reflexivity.
  - discriminate.
  - intros perm [<- | [<- | []]]; simpl; auto.
Defined.

(** X14.  Every listed application is in the catalog, is open to the user
    and has its requirement met; a disabled one is not listed unless the
    filter asks for it; and for a user of level 5 or more, an id that
    contains "-basic" is not listed when the id with "-corporate" in its
    place is in the catalog.  With no filter such a user is shown exactly the
    catalog entries that are not disabled, belong to the access matrix and
    are not such a lesser duplicate. *)
Theorem listed_applications (roles : option (list string))
    (applications : list (string * Application)) (userData : UserRecord)
    (filters : AppFilters) (appId : string) (app : Application) :
  (In (appId, app) (filterApplications roles applications userData filters) ->
     In (appId, app) applications
     /\ hasAppAccess userData appId = true
     /\ hasRequiredPermissions roles userData (app_requiredPermissions app) = true
     /\ (default true (flt_enabled filters) = true -> app_enabled app <> Some false)
     /\ (5 <= userLevelOf userData -> js_includes "-basic" appId = true ->
         assoc (js_replace "-basic" "-corporate" appId) applications = None))
  /\ (5 <= userLevelOf userData ->
      (In (appId, app) (filterApplications roles applications userData no_filters)
       <-> In (appId, app) applications
           /\ app_enabled app <> Some false
           /\ in_app_universe appId
           /\ ~ (js_includes "-basic" appId = true
                 /\ is_Some (assoc (js_replace "-basic" "-corporate" appId)
                               applications)))).
Proof.
  unfold filterApplications. rewrite !filter_In. unfold app_listed.
  split.
  - intros [Hin Hlisted]. split; [exact Hin |].
    destruct (default true (flt_enabled filters)
              && bool_decide (app_enabled app = Some false)) eqn:Hen;
      [discriminate |].
    destruct ((PERMISSION_LEVELS.CORPORATE <=? userLevelOf userData)
              && js_includes "-basic" appId
              && bool_decide (is_Some (assoc (js_replace "-basic" "-corporate" appId)
                                         applications))) eqn:Hdup;
      [discriminate |].
    destruct (hasAppAccess userData appId); [| discriminate].
    destruct (hasRequiredPermissions roles userData (app_requiredPermissions app));
      [| discriminate].
    repeat split.
    + intros Hdef Hdis. rewrite Hdef, bool_decide_eq_true_2 in Hen by assumption.
      discriminate.
    + intros H5 Hbasic. apply Z.leb_le in H5.
      unfold PERMISSION_LEVELS.CORPORATE in Hdup.
      rewrite H5, Hbasic in Hdup. cbn [andb] in Hdup.
      apply bool_decide_eq_false in Hdup.
      destruct (assoc _ applications); [exfalso; apply Hdup; eauto | reflexivity].
  - intros H5.
    assert (Hp : privileged userData) by (right; right; exact H5).
    rewrite (hasRequiredPermissions_privileged _ _ _ Hp).
    apply Z.leb_le in H5. unfold PERMISSION_LEVELS.CORPORATE. rewrite H5.
    cbn [no_filters flt_enabled flt_department flt_category default truthy_str
         andb negb].
    assert (Haccess : hasAppAccess userData appId = true <-> in_app_universe appId).
    { unfold hasAppAccess. rewrite (getUserAccessibleApps_privileged _ Hp).
      rewrite bool_decide_eq_true, list_elem_of_In, In_dedupe.
      apply In_all_matrix_apps. }
    split.
    + intros [Hin Hlisted]. split; [exact Hin |].
      case_bool_decide as Hdis; [discriminate |].
      destruct (js_includes "-basic" appId) eqn:Hbasic; cbn [andb] in Hlisted.
      * case_bool_decide as Hsib; [discriminate |].
        destruct (hasAppAccess userData appId) eqn:Ha; [| discriminate].
        repeat split; [assumption | apply Haccess; reflexivity |].
        intros [_ Hs]. contradiction.
      * destruct (hasAppAccess userData appId) eqn:Ha; [| discriminate].
        repeat split; [assumption | apply Haccess; reflexivity |].
        intros [Hb _]. discriminate.
    + intros (Hin & Hen & Hu & Hdup). split; [exact Hin |].
      rewrite bool_decide_eq_false_2 by assumption.
      apply Haccess in Hu. rewrite Hu.
      destruct (js_includes "-basic" appId); cbn [andb negb]; [| reflexivity].
      rewrite bool_decide_eq_false_2; [reflexivity |].
      intros Hs. apply Hdup. auto.
Qed.

Lemma listed_applications_witness :
  In ("forms", plain_app)
     (filterApplications None sample_catalog (user_with (Some 6) None None)
        no_filters)
  /\ ~ In ("oam-basic", plain_app)
         (filterApplications None sample_catalog (user_with (Some 6) None None)
            no_filters).
Proof.
  split.
  - apply (proj2 (listed_applications None sample_catalog
                    (user_with (Some 6) None None) no_filters "forms" plain_app)).
    + vm_compute. discriminate.
    + split; [simpl; auto |]. split; [discriminate |]. split.
      * exists "universal", ["maia"; "forms"; "bake"; "dof"; "community"; "sessions"].
        simpl. auto.
      * intros [Hb _]. vm_compute in Hb. discriminate.
  - intros Hin.
    apply (proj2 (listed_applications None sample_catalog
                    (user_with (Some 6) None None) no_filters "oam-basic" plain_app))
      in Hin as (_ & _ & _ & Hdup).
    + apply Hdup. split; [reflexivity | vm_compute; eauto].
    + vm_compute. discriminate.
Defined.

(** ** Session registration: what a registration leaves behind *)

Lemma registerForSession_run_cases (now : Z) (key sessionId userId : string)
    (db : DB) :
  (exists message,
     run (registerForSession now key sessionId userId) db
     = (Throw message, (db, [])))
  \/ (exists session capacity,
        sessions db !! sessionId = Some session
        /\ s_capacity session = Some capacity
        /\ ge_undef (cap_current capacity) (cap_max capacity) = false
        /\ run (registerForSession now key sessionId userId) db
           = (Return true,
              (apply_writes
                 [ WPushAttendee sessionId key (confirmed_attendee userId now);
                   WIncrementCurrent sessionId ] db,
               [ WPushAttendee sessionId key (confirmed_attendee userId now);
                 WIncrementCurrent sessionId ]))).
Proof.
  unfold run, registerForSession, bind, snapshot, throw, ret, emit.
  cbn [fst snd].
  destruct (sessions db !! sessionId) as [session |] eqn:Hs; [| left; eauto].
  destruct (s_capacity session) as [capacity |] eqn:Hcap; [| left; eauto].
  destruct (ge_undef (cap_current capacity) (cap_max capacity)) eqn:Hfull;
    [left; eauto |].
  pose proof (checkSessionEligibility_reads_only session userId (db, [])) as Hro.
  destruct (checkSessionEligibility session userId (db, [])) as [[res | err] s'];
    cbn [snd] in Hro; subst s'; [| left; eauto].
  destruct (negb (eligible res)); [left; eauto |].
  right. exists session, capacity. repeat split; assumption.
Qed.

Lemma session_after_registration (now : Z) (key sessionId userId : string)
    (db : DB) (session : Session) (capacity : Capacity) :
  sessions db !! sessionId = Some session ->
  s_capacity session = Some capacity ->
  sessions
    (apply_writes [ WPushAttendee sessionId key (confirmed_attendee userId now);
                    WIncrementCurrent sessionId ] db) !! sessionId
  = Some {| s_capacity :=
              Some {| cap_max := cap_max capacity;
                      cap_current := Some (num_or (cap_current capacity) 0 + 1) |};
            s_minLevel := s_minLevel session;
            s_departments := s_departments session;
            s_attendees :=
              AttObject (attendee_children (s_attendees session)
                         ++ [(key, confirmed_attendee userId now)]) |}.
Proof.
  intros Hs Hcap. cbn [apply_writes fold_left apply_write sessions with_sessions].
  rewrite lookup_insert_eq, lookup_insert_eq. cbn [default].
  rewrite Hs. unfold increment_current, push_attendee.
  cbn [default id s_capacity s_minLevel s_departments s_attendees].
  rewrite Hcap. reflexivity.
Qed.



(** X16.  The attendees of a session are tested with [some], which only an
    array has, while a registration adds its attendee with [push], which
    leaves an object keyed by push ids: once a registration has gone through,
    every further registration for that session, by anyone, throws and
    writes nothing. *)
Theorem registration_closes_session (now now' : Z)
    (key key' sessionId userId userId' : string) (db : DB) (ok : bool) :
  outcome_of (run (registerForSession now key sessionId userId) db) = Return ok ->
  exists message,
    run (registerForSession now' key' sessionId userId')
      (db_after (run (registerForSession now key sessionId userId) db))
    = (Throw message,
       (db_after (run (registerForSession now key sessionId userId) db), [])).
Proof.
  unfold outcome_of, db_after.
  destruct (registerForSession_run_cases now key sessionId userId db)
    as [(message & ->) | (session & capacity & Hs & Hcap & Hfull & ->)]; cbn [fst snd];
    [intros [=] |].
  intros _.
  pose proof (session_after_registration now key sessionId userId db session
                capacity Hs Hcap) as Hafter.
  set (db1 := apply_writes _ db) in *.
  destruct (registerForSession_run_cases now' key' sessionId userId' db1)
    as [(message & ->) | (session' & capacity' & Hs' & Hcap' & Hfull' & Hrun)];
    [eauto |].
  exfalso. rewrite Hafter in Hs'. injection Hs' as <-.
  cbn [s_capacity] in Hcap'. injection Hcap' as <-.
  revert Hrun. unfold run, registerForSession, bind at 1, snapshot at 1.
  cbn [fst snd]. rewrite Hafter. cbn [s_capacity]. rewrite Hfull'.
  unfold bind at 1, checkSessionEligibility, bind at 1, snapshot at 1.
  cbn [fst snd s_minLevel s_departments s_attendees].
  destruct (users db1 !! userId') as [user |]; [| discriminate].
  destruct (below_min_level _ _); [discriminate |].
  destruct (not_in_required _ _); [discriminate |].
  discriminate.
Qed.

Lemma registration_closes_session_witness :
  exists message,
    run (registerForSession 1700000000500 "-Nk2" "s1" "u2")
      (db_after (run (registerForSession 1700000000000 "-Nk1" "s1" "u1")
                   (session_db 3 10 AttUndefined)))
    = (Throw message,
       (db_after (run (registerForSession 1700000000000 "-Nk1" "s1" "u1")
                    (session_db 3 10 AttUndefined)), [])).
Proof.
  apply (registration_closes_session 1700000000000 1700000000500 "-Nk1" "-Nk2"
           "s1" "u1" "u2" (session_db 3 10 AttUndefined) true).
  reflexivity.
Defined.

(** ** Assignment status workflow: sequences of updates *)

(** X17.  A task that is completed stays completed: no sequence of status
    update requests, by anyone and for any task, changes its status. *)
Theorem completed_is_final (rqs : list PatchRequest) (db : DB) (id : string) :
  stored_status db id = Some "completed" ->
  stored_status (run_patches rqs db) id = Some "completed".
Proof.
  revert db. induction rqs as [|rq rest IH]; intros db Hdone; [exact Hdone |].
  cbn [run_patches fold_left]. apply IH. unfold patch_step, db_after.
  destruct (patchAssignmentStatus_run_cases (pr_now rq) (pr_assignmentId rq)
              (pr_status rq) (pr_userId rq) (pr_level rq) db)
    as [(outcome & _ & ->)
       | (assignment & from & to & Ht & Hfrom & _ & Hin & _ & _ & ->)];
    cbn [fst snd]; [exact Hdone |].
  rewrite stored_status_status_write. case_decide as Hid; [| exact Hdone].
  exfalso. subst id. unfold stored_status in Hdone. rewrite Ht in Hdone.
  cbn in Hdone. rewrite Hfrom in Hdone. injection Hdone as ->.
  exact (workflow_edges_not_from_completed _ _ Hin eq_refl).
Qed.

Lemma completed_is_final_witness :
  stored_status
    (run_patches
       [ {| pr_now := 1; pr_assignmentId := "t1"; pr_status := Some "in_progress";
            pr_userId := "boss"; pr_level := Some 10 |};
         {| pr_now := 2; pr_assignmentId := "t1"; pr_status := Some "pending";
            pr_userId := "u1"; pr_level := Some 3 |} ]
       (task_db "completed")) "t1" = Some "completed".
Proof. apply completed_is_final. reflexivity. Defined.

Lemma progress_edge (from to : string) :
  In (from, to) workflow_edges ->
  (progress (Some to) <= S (progress (Some from)))%nat.
Proof.
  simpl. intros Hin.
  repeat (destruct Hin as [[= <- <-] | Hin]; [cbn; lia |]). destruct Hin.
Qed.

Lemma progress_step (db : DB) (rq : PatchRequest) (id : string) :
  (progress (stored_status (patch_step db rq) id)
   <= S (progress (stored_status db id)))%nat.
Proof.
  unfold patch_step, db_after.
  destruct (patchAssignmentStatus_run_cases (pr_now rq) (pr_assignmentId rq)
              (pr_status rq) (pr_userId rq) (pr_level rq) db)
    as [(outcome & _ & ->)
       | (assignment & from & to & Ht & Hfrom & _ & Hin & _ & _ & ->)];
    cbn [fst snd]; [lia |].
  rewrite stored_status_status_write. case_decide as Hid; [| lia].
  subst id. unfold stored_status. rewrite Ht. cbn [mbind option_bind].
  rewrite Hfrom. apply progress_edge. exact Hin.
Qed.

(** X18.  Each request moves a task at most one step along pending,
    in_progress, under_review, completed: a pending task is not completed by
    fewer than three requests. *)
Theorem completion_takes_three_updates (rqs : list PatchRequest) (db : DB)
    (id : string) :
  (progress (stored_status (run_patches rqs db) id)
   <= progress (stored_status db id) + length rqs)%nat
  /\ (stored_status db id = Some "pending" ->
      stored_status (run_patches rqs db) id = Some "completed" ->
      (3 <= length rqs)%nat).
Proof.
  assert (Hbound : forall rqs db,
            (progress (stored_status (run_patches rqs db) id)
             <= progress (stored_status db id) + length rqs)%nat).
  { clear. intros rqs. induction rqs as [|rq rest IH]; intros db; cbn [run_patches fold_left length];
      [lia |].
    specialize (IH (patch_step db rq)). unfold run_patches in IH.
    pose proof (progress_step db rq id). lia. }
  split; [apply Hbound |].
  intros Hstart Hend. specialize (Hbound rqs db).
  rewrite Hstart, Hend in Hbound. cbn in Hbound. lia.
Qed.

Lemma completion_takes_three_updates_witness :
  (3 <= length sample_requests)%nat.
Proof.
  apply (proj2 (completion_takes_three_updates sample_requests (task_db "pending")
                  "t1")).
  - reflexivity.
  - vm_compute. reflexivity.
Defined.

(** X19.  A status update that completes a task starts from under_review,
    is made by a manager (level 5 or more) and records that manager as
    [completedBy], with the time of completion; any other accepted update
    leaves [completedBy] and [completedAt] as they were.  The assigned user
    is never changed. *)
Theorem completion_is_recorded (now : Z) (assignmentId : string)
    (status : option string) (userId : string) (level : option Z) (db : DB)
    (old : option string) (new : string) :
  outcome_of (run (patchAssignmentStatus now assignmentId status userId level) db)
  = Return (Patch200 old new) ->
  exists before after,
    tasks db !! assignmentId = Some before
    /\ tasks (db_after (run (patchAssignmentStatus now assignmentId status userId
                               level) db)) !! assignmentId = Some after
    /\ a_status after = Some new
    /\ a_assignedTo after = a_assignedTo before
    /\ a_updatedAt after = Some (now / 1000)
    /\ (new = "completed" ->
        old = Some "under_review" /\ 5 <= num_or level 0
        /\ a_completedBy after = Some userId
        /\ a_completedAt after = Some (now / 1000))
    /\ (new <> "completed" ->
        a_completedBy after = a_completedBy before
        /\ a_completedAt after = a_completedAt before).
Proof.
  unfold outcome_of, db_after.
  destruct (patchAssignmentStatus_run_cases now assignmentId status userId level db)
    as [(outcome & Hno & ->)
       | (assignment & from & to & Ht & Hfrom & _ & Hin & Hmgr & _ & ->)];
    cbn [fst snd].
  - intros ->. exfalso. exact (Hno old new eq_refl).
  - intros [= <- <-]. exists assignment. eexists.
    split; [exact Ht |]. split.
    { unfold status_write. cbn [apply_write tasks with_tasks].
      rewrite lookup_insert_eq, Ht. reflexivity. }
    cbn [update_task default a_status a_assignedTo a_updatedAt a_completedBy
         a_completedAt].
    repeat split.
    + subst to. f_equal.
      simpl in Hin. repeat destruct Hin as [[= <-] | Hin]; try reflexivity.
      destruct Hin.
    + apply Hmgr. assumption.
    + subst to. reflexivity.
    + subst to. reflexivity.
    + destruct (String.eqb_spec to "completed"); [contradiction | reflexivity].
    + destruct (String.eqb_spec to "completed"); [contradiction | reflexivity].
Qed.

Lemma completion_is_recorded_witness :
  exists before after,
    tasks (task_db "under_review") !! "t1" = Some before
    /\ tasks (db_after (run (patchAssignmentStatus 1700000000000 "t1"
                               (Some "completed") "boss" (Some 7))
                          (task_db "under_review"))) !! "t1" = Some after
    /\ a_status after = Some "completed"
    /\ a_assignedTo after = a_assignedTo before
    /\ a_updatedAt after = Some (1700000000000 / 1000)
    /\ ("completed" = "completed" ->
        Some "under_review" = Some "under_review" /\ 5 <= num_or (Some 7) 0
        /\ a_completedBy after = Some "boss"
        /\ a_completedAt after = Some (1700000000000 / 1000))
    /\ ("completed" <> "completed" ->
        a_completedBy after = a_completedBy before
        /\ a_completedAt after = a_completedAt before).
Proof.
  apply (completion_is_recorded 1700000000000 "t1" (Some "completed") "boss"
           (Some 7) (task_db "under_review") (Some "under_review") "completed").
  vm_compute. reflexivity.
Defined.

(** ** Text responses *)








(** ** The overall score of a submission *)







(** ** A quiz without questions *)

Lemma score_field_max_mono `{Rounding}
    (text : JsVal -> Validation -> TextScore)
    (responses : list (string * JsVal)) (acc : ScoreAcc) (field : Field) :
  acc_max acc <= acc_max (score_field text responses acc field).
Proof.
  unfold score_field. cbn zeta.
  destruct (f_validation field); destruct (String.eqb (f_type field) "text");
    destruct (String.eqb (f_type field) "quiz"); cbn [acc_max]; lia.
Qed.

Lemma score_field_nan_sticky `{Rounding}
    (text : JsVal -> Validation -> TextScore)
    (responses : list (string * JsVal)) (acc : ScoreAcc) (field : Field) :
  acc_total acc = NaN -> acc_total (score_field text responses acc field) = NaN.
Proof.
  intros Hnan. unfold score_field. cbn zeta.
  destruct (f_validation field); destruct (String.eqb (f_type field) "text");
    destruct (String.eqb (f_type field) "quiz"); cbn [acc_total];
    rewrite ?Hnan; reflexivity.
Qed.

Lemma fold_score_field_nan `{Rounding}
    (text : JsVal -> Validation -> TextScore)
    (responses : list (string * JsVal)) (fields : list Field) (acc : ScoreAcc) :
  acc_total acc = NaN ->
  acc_total (fold_left (score_field text responses) fields acc) = NaN
  /\ acc_max acc <= acc_max (fold_left (score_field text responses) fields acc).
Proof.
  revert acc. induction fields as [| field rest IH]; intros acc Hnan.
  - split; [exact Hnan | cbn; lia].
  - cbn [fold_left].
    destruct (IH _ (score_field_nan_sticky text responses acc field Hnan)) as [Ht Hm].
    split; [exact Ht |].
    pose proof (score_field_max_mono text responses acc field). lia.
Qed.

Lemma fold_score_field_max_mono `{Rounding}
    (text : JsVal -> Validation -> TextScore)
    (responses : list (string * JsVal)) (fields : list Field) (acc : ScoreAcc) :
  acc_max acc <= acc_max (fold_left (score_field text responses) fields acc).
Proof.
  revert acc. induction fields as [| field rest IH]; intros acc; [cbn; lia |].
  cbn [fold_left]. specialize (IH (score_field text responses acc field)).
  pose proof (score_field_max_mono text responses acc field). lia.
Qed.

Lemma score_field_empty_quiz `{Rounding}
    (text : JsVal -> Validation -> TextScore)
    (responses : list (string * JsVal)) (acc : ScoreAcc) (field : Field) :
  f_type field = "quiz" -> f_questions field = [] ->
  is_array (js_get (default VUndefined (assoc (f_id field) responses)) "answers") = true ->
  acc_total (score_field text responses acc field) = NaN
  /\ acc_max acc + 100 <= acc_max (score_field text responses acc field).
Proof.
  intros Hq Hnone Harr. unfold score_field. cbn zeta. rewrite Hq.
  cbn [String.eqb Ascii.eqb Bool.eqb].
  assert (Hquiz : evaluateQuizResponse
                    (default VUndefined (assoc (f_id field) responses)) field = NaN).
  { unfold evaluateQuizResponse. rewrite Harr, Hnone.
    destruct (default VUndefined (assoc (f_id field) responses)) as [| | b | z | s | l | l];
      try discriminate Harr.
    cbn [js_truthy negb orb].
    destruct (js_get (VObj l) "answers"); try discriminate Harr. reflexivity. }
  rewrite Hquiz. cbn [acc_total acc_max].
  split.
  - destruct (acc_total _); reflexivity.
  - destruct (f_validation field); lia.
Qed.

(** X22.  A quiz field without questions, answered with an array, makes the
    overall score of the whole submission [NaN], whatever the other fields
    score; the recommendation is then a manual review, for any thresholds. *)
Theorem empty_quiz_gives_no_score `{Rounding} (form : Form)
    (responses : list (string * JsVal)) (field : Field) :
  In field (form_fields form) ->
  f_type field = "quiz" ->
  f_questions field = [] ->
  is_array (js_get (default VUndefined (assoc (f_id field) responses)) "answers") = true ->
  overallScore (scoreSubmission form responses) = NaN
  /\ recommendation (scoreSubmission form responses) = RecReview.
Proof.
  intros Hin Hq Hnone Harr.
  apply in_split in Hin. destruct Hin as (before & after & Hfields).
  assert (Hoverall : overallScore (scoreSubmission form responses) = NaN).
  { unfold scoreSubmission, evaluateFormSubmission. cbn [overallScore].
    rewrite Hfields, fold_left_app. cbn [fold_left].
    set (acc0 := {| acc_grammar := Fin 0; acc_length := Fin 0; acc_quiz := Fin 0;
                    acc_total := Fin 0; acc_max := 0 |}).
    set (acc1 := fold_left (score_field evaluateTextResponse responses) before acc0).
    pose proof (fold_score_field_max_mono evaluateTextResponse responses before acc0)
      as H0.
    fold acc1 in H0. cbn [acc_max acc0] in H0.
    destruct (score_field_empty_quiz evaluateTextResponse responses acc1 field
                Hq Hnone Harr) as [Hnan Hmax].
    destruct (fold_score_field_nan evaluateTextResponse responses after _ Hnan)
      as [Ht Hm].
    rewrite Ht.
    destruct (0 <? _) eqn:Hpos; [reflexivity |].
    apply Z.ltb_ge in Hpos. lia. }
  split; [exact Hoverall |].
  unfold scoreSubmission, evaluateFormSubmission in *.
  cbn [overallScore recommendation] in *.
  rewrite Hoverall. reflexivity.
Qed.

Lemma empty_quiz_gives_no_score_witness :
  overallScore (scoreSubmission (H := exact_rounding)
                  (form_with [sample_quiz; empty_quiz] None)
                  (("field_2", VObj [("answers", VArr [])]) :: sample_responses))
  = NaN
  /\ recommendation (scoreSubmission (H := exact_rounding)
                       (form_with [sample_quiz; empty_quiz] None)
                       (("field_2", VObj [("answers", VArr [])]) :: sample_responses))
     = RecReview.
Proof.
  apply (empty_quiz_gives_no_score (H := exact_rounding) _ _ empty_quiz).
  - right. left. reflexivity.
  - reflexivity.
  - reflexivity.
  - reflexivity.
Defined.

(** ** Submissions, reviews and the counters of a form *)

Section FilterCount.
Context {A : Type} (P : string * A -> Prop) `{!forall e, Decision (P e)}.



End FilterCount.



Lemma num_or_Some_0 (z : Z) : num_or (Some z) 0 = z.
Proof. unfold num_or. destruct (Z.eqb_spec z 0); congruence. Qed.



Lemma review_decision_cases (decision : JsVal) (d : string) :
  review_decision decision = Some d ->
  decision = VStr d /\ (d = "approved" \/ d = "rejected").
Proof.
  destruct decision as [| | b | z | s | l | l]; try discriminate. cbn.
  destruct (String.eqb_spec s "approved") as [-> | _]; cbn.
  - intros [= <-]. auto.
  - destruct (String.eqb_spec s "rejected") as [-> | _]; [| discriminate].
    intros [= <-]. auto.
Qed.


Lemma requirePermission_needs_user (minLevel : Z) :
  0 < minLevel -> requirePermission minLevel None <> Next.
Proof.
  intros Hmin. unfold requirePermission, guard_level, guard_isApiKey. cbn.
  destruct (Z.ltb_spec 0 minLevel); [discriminate | lia].
Qed.

(** Either the review leaves the store alone and does not answer with a
    success, or it is a success on a pending submission. *)
Lemma reviewSubmission_cases (now : Z) (req : option ReqUser)
    (reviewerId submissionId : string) (decision : JsVal)
    (feedback : option string) (score : option Z) (fs : FormsStore) :
  (snd (reviewSubmission now req reviewerId submissionId decision feedback score fs)
   = fs
   /\ forall message,
        fst (reviewSubmission now req reviewerId submissionId decision feedback score fs)
        <> Return (ReviewOk message))
  \/ exists submission tpl d s,
       fs_submissions fs !! submissionId = Some submission
       /\ sub_status (st_sub submission) = "pending"
       /\ review_decision decision = Some d
       /\ fs_templates fs !! sub_formId (st_sub submission) = Some tpl
       /\ reviewSubmission now req reviewerId submissionId decision feedback score fs
          = (Return (ReviewOk ("Submission " +:+ d)),
             after_review fs submissionId d tpl
               (reviewed now reviewerId d s feedback submission)).
Proof.
  unfold reviewSubmission.
  destruct (requirePermission 3 req) as [| error];
    [| left; split; [reflexivity | discriminate]].
  destruct req as [r |]; [| left; split; [reflexivity | discriminate]].
  destruct (review_decision decision) as [d |] eqn:Hd;
    [| left; split; [reflexivity | discriminate]].
  destruct (feedback_too_short feedback);
    [left; split; [reflexivity | discriminate] |].
  destruct (score_out_of_range score);
    [left; split; [reflexivity | discriminate] |].
  destruct (fs_submissions fs !! submissionId) as [submission |] eqn:Hsub;
    [| left; split; [reflexivity | discriminate]].
  destruct (String.eqb_spec (sub_status (st_sub submission)) "pending") as [Hst | Hst];
    cbn [negb]; [| left; split; [reflexivity | discriminate]].
  destruct (fs_templates fs !! sub_formId (st_sub submission)) as [tpl |] eqn:Htpl;
    [| left; split; [reflexivity | discriminate]].
  destruct (other_department tpl (ru_data r));
    [left; split; [reflexivity | discriminate] |].
  destruct (manual_score score submission) as [s |];
    [| left; split; [reflexivity | discriminate]].
  right. exists submission, tpl, d, s. auto.
Qed.








(** ** Reviews *)

(** X25.  A successful review was a review of a pending submission; it
    stores the decision as the status of that submission, keeps its author,
    form, responses and automated evaluation, and closes it: every later
    review of the same submission, by anyone and with any input, is answered
    with an error and changes nothing. *)
Theorem reviewed_submission_is_final (now : Z) (req : option ReqUser)
    (reviewerId submissionId : string) (decision : JsVal)
    (feedback : option string) (score : option Z) (fs fs' : FormsStore)
    (message : string) :
  reviewSubmission now req reviewerId submissionId decision feedback score fs
  = (Return (ReviewOk message), fs') ->
  (exists before after d,
     fs_submissions fs !! submissionId = Some before
     /\ sub_status (st_sub before) = "pending"
     /\ decision = VStr d /\ (d = "approved" \/ d = "rejected")
     /\ fs_submissions fs' !! submissionId = Some after
     /\ sub_status (st_sub after) = d
     /\ sub_userId (st_sub after) = sub_userId (st_sub before)
     /\ sub_formId (st_sub after) = sub_formId (st_sub before)
     /\ st_responses after = st_responses before
     /\ st_automated after = st_automated before
     /\ (reviewedBy <$> st_manual after) = Some reviewerId)
  /\ forall now2 req2 reviewerId2 decision2 feedback2 score2,
       exists status error,
         reviewSubmission now2 req2 reviewerId2 submissionId decision2 feedback2
           score2 fs'
         = (Return (ReviewError status error), fs').
Proof.
  intros Hrun.
  destruct (reviewSubmission_cases now req reviewerId submissionId decision
              feedback score fs)
    as [[_ Hno] | (submission & tpl & d & s & Hsub & Hst & Hd & Htpl & Heq)].
  { exfalso. apply (Hno message). rewrite Hrun. reflexivity. }
  rewrite Heq in Hrun. injection Hrun as _ <-.
  apply review_decision_cases in Hd as [Hdec Hd].
  assert (Hafter : fs_submissions (after_review fs submissionId d tpl
                                     (reviewed now reviewerId d s feedback submission))
                   !! submissionId
                   = Some (reviewed now reviewerId d s feedback submission)).
  { unfold after_review. cbn [fs_submissions]. apply lookup_insert_eq. }
  split.
  - exists submission, (reviewed now reviewerId d s feedback submission), d.
    split; [exact Hsub |]. split; [exact Hst |]. split; [exact Hdec |].
    split; [exact Hd |]. split; [exact Hafter |].
    cbn. auto 10.
  - intros now2 req2 reviewerId2 decision2 feedback2 score2.
    unfold reviewSubmission.
    destruct (requirePermission 3 req2) as [| error] eqn:Hguard;
      [| eexists _, _; reflexivity].
    destruct req2 as [r2 |];
      [| exfalso; exact (requirePermission_needs_user 3 ltac:(lia) Hguard)].
    destruct (review_decision decision2); [| eexists _, _; reflexivity].
    destruct (feedback_too_short feedback2); [eexists _, _; reflexivity |].
    destruct (score_out_of_range score2); [eexists _, _; reflexivity |].
    rewrite Hafter. cbn [reviewed st_sub sub_status].
    destruct Hd as [-> | ->]; eexists _, _; reflexivity.
Qed.

Lemma reviewed_submission_is_final_witness :
  exists status error,
    reviewSubmission 3000 (req_user (Some 9) None None false) "admin" "s1"
      (VStr "approved") (Some "Changed my mind here.") None reviewed_store
    = (Return (ReviewError status error), reviewed_store).
Proof.
  apply (proj2 (reviewed_submission_is_final 2000 (req_user (Some 5) None None false)
                  "lead" "s1" (VStr "rejected") (Some "Too short an answer.")
                  (Some 30) submitted_store reviewed_store "Submission rejected"
                  eq_refl)).
Defined.



(** ** Favorites *)

Lemma strict_eq_eq (a b : JsVal) : strict_eq a b = true -> a = b.
Proof.
  destruct a, b; cbn; try discriminate; try reflexivity.
  - intros Hb. apply Bool.eqb_prop in Hb. congruence.
  - intros Hz. apply Z.eqb_eq in Hz. congruence.
  - intros Hs. apply String.eqb_eq in Hs. congruence.
Qed.

Lemma strict_eq_sym (a b : JsVal) : strict_eq a b = strict_eq b a.
Proof.
  destruct a, b; cbn; try reflexivity.
  - destruct b0, b; reflexivity.
  - apply Z.eqb_sym.
  - apply String.eqb_sym.
Qed.

Lemma strict_eq_primitive (v : JsVal) : primitive v = true -> strict_eq v v = true.
Proof.
  destruct v; cbn; try discriminate; intros _; try reflexivity.
  - destruct b; reflexivity.
  - apply Z.eqb_refl.
  - apply String.eqb_refl.
Qed.

Lemma array_includes_In (l : list JsVal) (x : JsVal) :
  array_includes l x = true -> In x l.
Proof.
  unfold array_includes. rewrite existsb_exists.
  intros (y & Hin & Heq). apply strict_eq_eq in Heq. subst y. exact Hin.
Qed.

Lemma array_includes_app (l1 l2 : list JsVal) (x : JsVal) :
  array_includes (l1 ++ l2) x = array_includes l1 x || array_includes l2 x.
Proof. unfold array_includes. apply existsb_app. Qed.

Lemma filter_not_included (l : list JsVal) (x : JsVal) :
  array_includes l x = false ->
  List.filter (fun id => negb (strict_eq id x)) l = l.
Proof.
  induction l as [| y rest IH]; [reflexivity |].
  cbn [array_includes existsb List.filter]. intros Hno.
  apply orb_false_iff in Hno as [Hy Hrest]. rewrite Hy. cbn [negb].
  f_equal. apply IH. exact Hrest.
Qed.

Lemma array_includes_filter (l : list JsVal) (x y : JsVal) :
  array_includes (List.filter (fun id => negb (strict_eq id x)) l) y = true ->
  array_includes l y = true.
Proof.
  unfold array_includes. rewrite !existsb_exists.
  intros (z & Hin & Hz). apply filter_In in Hin as [Hin _]. eauto.
Qed.

Lemma distinct_favorites_snoc (l : list JsVal) (x : JsVal) :
  distinct_favorites l = true -> array_includes l x = false ->
  distinct_favorites (l ++ [x]) = true.
Proof.
  induction l as [| y rest IH]; [reflexivity |].
  cbn [distinct_favorites array_includes existsb app]. intros Hd Hno.
  apply andb_true_iff in Hd as [Hy Hd].
  apply orb_false_iff in Hno as [Hyx Hno].
  apply andb_true_iff. split; [| apply IH; assumption].
  fold (array_includes (rest ++ [x]) y). rewrite array_includes_app.
  apply negb_true_iff in Hy. fold (array_includes rest y) in Hy. rewrite Hy.
  cbn [array_includes existsb orb]. rewrite strict_eq_sym, Hyx. reflexivity.
Qed.

Lemma distinct_favorites_filter (l : list JsVal) (x : JsVal) :
  distinct_favorites l = true ->
  distinct_favorites (List.filter (fun id => negb (strict_eq id x)) l) = true.
Proof.
  induction l as [| y rest IH]; [reflexivity |].
  cbn [distinct_favorites List.filter]. intros Hd.
  apply andb_true_iff in Hd as [Hy Hd].
  destruct (strict_eq y x); cbn [negb]; [apply IH; exact Hd |].
  cbn [distinct_favorites]. apply andb_true_iff. split; [| apply IH; exact Hd].
  apply negb_true_iff. apply negb_true_iff in Hy.
  destruct (array_includes (List.filter _ rest) y) eqn:Hin; [| reflexivity].
  apply array_includes_filter in Hin. congruence.
Qed.

Lemma plain_key_accepted (s : string) :
  plain_key s = true -> path_refused s = false.
Proof.
  unfold plain_key. intros Hk. apply andb_true_iff in Hk as [_ Hk].
  apply negb_true_iff in Hk. exact Hk.
Qed.

Lemma plain_value_primitive (v : JsVal) :
  plain_value v = true -> primitive v = true.
Proof. destruct v; cbn; congruence. Qed.

(** X27.  For a valid user id that names one child of [users] (no [/] and
    none of the characters the client refuses), stored favourites that are
    plain values, and an app id that is a non-empty string, a non-zero
    number or [true]: adding the favourite succeeds and the app is then
    among the user's favourites; the earlier favourites stay, in their
    order, with at most the new app appended; the favourites stay plain
    values; no two favourites become equal if none were; and adding the
    same id again writes nothing.  An invalid user id or an empty app id is
    refused, a user id the client refuses makes the function throw, and in
    both cases nothing is written. *)
Theorem added_favorite_is_listed (now : Z) (userId appId : JsVal) (st : Settings) :
  (validateUserId userId = true -> plain_key (user_key userId) = true ->
   plain_favorites st = true ->
   js_truthy appId = true -> plain_value appId = true ->
   exists st',
     addToFavorites now userId appId st = (Return tt, st')
     /\ In appId (getUserFavorites userId st')
     /\ (getUserFavorites userId st' = getUserFavorites userId st
         \/ getUserFavorites userId st'
            = (getUserFavorites userId st ++ [appId])%list)
     /\ plain_favorites st' = true
     /\ (distinct_favorites (getUserFavorites userId st) = true ->
         distinct_favorites (getUserFavorites userId st') = true)
     /\ forall later, addToFavorites later userId appId st' = (Return tt, st'))
  /\ (validateUserId userId = false \/ js_truthy appId = false
      \/ path_refused (user_key userId) = true ->
      exists message, addToFavorites now userId appId st = (Throw message, st)).
Proof.
  split.
  - intros Huser Hkey Hplain Happ Hvalue.
    apply plain_key_accepted in Hkey.
    pose proof (plain_value_primitive _ Hvalue) as Hprim.
    unfold addToFavorites, getUserFavorites.
    rewrite Huser, Happ, Hkey. cbn [negb orb].
    destruct (array_includes (favorite_ids (us_favorites st)) appId) eqn:Hinc;
      cbn [negb].
    + exists st. split; [reflexivity |].
      split; [apply array_includes_In; exact Hinc |].
      split; [left; reflexivity |]. split; [exact Hplain |]. split; [auto |].
      intros later. rewrite Hinc. reflexivity.
    + eexists. split; [reflexivity |]. cbn [us_favorites favorite_ids].
      split; [apply in_or_app; right; left; reflexivity |].
      split; [right; reflexivity |].
      split.
      { unfold plain_favorites in *. cbn [us_favorites favorite_ids].
        rewrite forallb_app, Hplain. cbn [forallb]. rewrite Hvalue. reflexivity. }
      split; [intros Hd; apply distinct_favorites_snoc; assumption |].
      intros later. rewrite array_includes_app.
      cbn [array_includes existsb]. rewrite (strict_eq_primitive appId Hprim).
      rewrite orb_true_r. reflexivity.
  - intros Hbad. unfold addToFavorites.
    destruct Hbad as [-> | [-> | Hrefused]].
    + eexists; reflexivity.
    + rewrite orb_true_r. eexists; reflexivity.
    + rewrite Hrefused.
      destruct (negb (validateUserId userId) || negb (js_truthy appId));
        eexists; reflexivity.
Qed.

Lemma added_favorite_is_listed_witness :
  exists st',
    addToFavorites 1700000000000 (VStr "42") (VStr "forms") new_settings
    = (Return tt, st')
    /\ In (VStr "forms") (getUserFavorites (VStr "42") st').
Proof.
  destruct (proj1 (added_favorite_is_listed 1700000000000 (VStr "42") (VStr "forms")
                     new_settings) eq_refl eq_refl eq_refl eq_refl eq_refl)
    as (st' & Hrun & Hin & _).
  exists st'. split; assumption.
Defined.

(** X28.  For a valid user id that names one child of [users] (no [/] and
    none of the characters the client refuses) and stored favourites that
    are plain values: removing a favourite with a non-empty app id
    succeeds; afterwards the app is not among the favourites, the other
    favourites are all there and no new one is; the favourites stay plain
    values; no two favourites become equal if none were.  Removing an app
    right after adding it gives back the list of favourites there was, when
    the app was not in it. *)
Theorem removed_favorite_is_gone (now : Z) (userId appId : JsVal) (st : Settings) :
  validateUserId userId = true -> plain_key (user_key userId) = true ->
  plain_favorites st = true ->
  js_truthy appId = true ->
  exists st',
    removeFromFavorites now userId appId st = (Return tt, st')
    /\ array_includes (getUserFavorites userId st') appId = false
    /\ (forall x, In x (getUserFavorites userId st')
                  <-> In x (getUserFavorites userId st) /\ strict_eq x appId = false)
    /\ plain_favorites st' = true
    /\ (distinct_favorites (getUserFavorites userId st) = true ->
        distinct_favorites (getUserFavorites userId st') = true)
    /\ (plain_value appId = true ->
        array_includes (getUserFavorites userId st) appId = false ->
        forall earlier,
          getUserFavorites userId
            (snd (removeFromFavorites now userId appId
                    (snd (addToFavorites earlier userId appId st))))
          = getUserFavorites userId st).
Proof.
  intros Huser Hkey Hplain Happ. apply plain_key_accepted in Hkey.
  unfold removeFromFavorites, getUserFavorites.
  rewrite Huser, Happ, Hkey. cbn [negb orb].
  eexists. split; [reflexivity |]. cbn [us_favorites favorite_ids].
  split; [| split; [| split; [| split]]].
  - unfold array_includes.
    destruct (existsb _ _) eqn:Hex; [| reflexivity].
    apply existsb_exists in Hex as (y & Hin & Hy).
    apply filter_In in Hin as [_ Hn]. rewrite Hy in Hn. discriminate.
  - intros x. rewrite filter_In, negb_true_iff. reflexivity.
  - unfold plain_favorites in *. cbn [us_favorites favorite_ids].
    apply forallb_forall. intros x Hx. apply filter_In in Hx as [Hx _].
    exact (proj1 (forallb_forall _ _) Hplain x Hx).
  - apply distinct_favorites_filter.
  - intros Hvalue Hno earlier. unfold addToFavorites.
    rewrite Huser, Happ, Hkey, Hno. cbn [negb orb snd us_favorites favorite_ids].
    rewrite List.filter_app. cbn [List.filter].
    rewrite (strict_eq_primitive appId (plain_value_primitive _ Hvalue)).
    cbn [negb].
    rewrite filter_not_included by exact Hno. apply app_nil_r.
Qed.

Lemma removed_favorite_is_gone_witness :
  exists st',
    removeFromFavorites 1700000000000 (VStr "42") (VStr "forms")
      (snd (addToFavorites 1600000000000 (VStr "42") (VStr "forms") new_settings))
    = (Return tt, st')
    /\ array_includes (getUserFavorites (VStr "42") st') (VStr "forms") = false.
Proof.
  destruct (removed_favorite_is_gone 1700000000000 (VStr "42") (VStr "forms")
              (snd (addToFavorites 1600000000000 (VStr "42") (VStr "forms")
                      new_settings)) eq_refl eq_refl eq_refl eq_refl)
    as (st' & Hrun & Hgone & _).
  exists st'. split; assumption.
Defined.

(** ** Usage statistics *)

Lemma trackAppAccess_counts (now : Z) (userId : JsVal) (appId : string)
    (st : Settings) :
  validateUserId userId = true -> path_refused (user_key userId) = false ->
  appId <> "" -> path_refused appId = false ->
  exists analytics,
    us_analytics (trackAppAccess now userId appId st) = Some analytics
    /\ totalAccesses analytics
       = Some (num_or (us_analytics st ≫= totalAccesses) 0 + 1)
    /\ lastAccessed analytics = Some (appId, unix_seconds now)
    /\ forall a,
         usageStats analytics !! a
         = if String.eqb a appId
           then Some (num_or (us_analytics st ≫= (fun d => usageStats d !! a)) 0 + 1)
           else us_analytics st ≫= (fun d => usageStats d !! a).
Proof.
  intros Huser Hkey Happ Hid. unfold trackAppAccess. rewrite Huser, Hkey, Hid.
  apply String.eqb_neq in Happ. rewrite Happ. cbn [negb orb us_analytics].
  eexists. split; [reflexivity |]. cbn [totalAccesses lastAccessed usageStats].
  split; [destruct (us_analytics st); reflexivity |].
  split; [reflexivity |].
  intros a. destruct (String.eqb_spec a appId) as [-> | Hne].
  - rewrite lookup_insert_eq. destruct (us_analytics st); reflexivity.
  - rewrite lookup_insert_ne by congruence.
    destruct (us_analytics st); [reflexivity | apply lookup_empty].
Qed.

Lemma track_all_snoc (userId : JsVal) (calls : list (Z * string))
    (call : Z * string) (st : Settings) :
  track_all userId (calls ++ [call]) st
  = trackAppAccess (fst call) userId (snd call) (track_all userId calls st).
Proof. unfold track_all. rewrite fold_left_app. reflexivity. Qed.

Lemma times_tracked_snoc (appId : string) (calls : list (Z * string))
    (call : Z * string) :
  times_tracked appId (calls ++ [call])
  = times_tracked appId calls + (if String.eqb (snd call) appId then 1 else 0).
Proof.
  unfold times_tracked. rewrite List.filter_app, length_app. cbn [List.filter].
  destruct (String.eqb (snd call) appId); cbn [length]; lia.
Qed.

Lemma tracked_snoc (calls : list (Z * string)) (call : Z * string) :
  tracked (calls ++ [call])
  = tracked calls + (if String.eqb (snd call) "" then 0 else 1).
Proof.
  unfold tracked. rewrite List.filter_app, length_app. cbn [List.filter].
  destruct (String.eqb (snd call) ""); cbn [negb length]; lia.
Qed.

Lemma plain_calls_snoc (calls : list (Z * string)) (call : Z * string) :
  plain_calls (calls ++ [call]) = true ->
  plain_calls calls = true
  /\ (snd call = "" \/ path_refused (snd call) = false).
Proof.
  unfold plain_calls. rewrite forallb_app. cbn [forallb].
  rewrite andb_true_r. intros Hall. apply andb_true_iff in Hall as [Hrest Hcall].
  split; [exact Hrest |]. apply orb_true_iff in Hcall as [Hempty | Hkey].
  - left. apply String.eqb_eq. exact Hempty.
  - right. apply plain_key_accepted. exact Hkey.
Qed.

Lemma track_all_counts (userId : JsVal) (calls : list (Z * string)) :
  validateUserId userId = true -> path_refused (user_key userId) = false ->
  plain_calls calls = true ->
  num_or (us_analytics (track_all userId calls new_settings) ≫= totalAccesses) 0
  = tracked calls
  /\ (us_analytics (track_all userId calls new_settings) = None <-> tracked calls = 0)
  /\ forall a,
       us_analytics (track_all userId calls new_settings)
         ≫= (fun d => usageStats d !! a)
       = if String.eqb a "" || (times_tracked a calls =? 0) then None
         else Some (times_tracked a calls).
Proof.
  intros Huser Hkey Hcalls. induction calls as [| call calls IH] using rev_ind.
  - split; [reflexivity |]. split; [split; reflexivity |].
    intros a. cbn. rewrite orb_true_r. reflexivity.
  - apply plain_calls_snoc in Hcalls as [Hrest Hcall].
    destruct (IH Hrest) as (Htotal & Hnone & Husage). clear IH.
    rewrite track_all_snoc, tracked_snoc.
    destruct (String.eqb_spec (snd call) "") as [Hempty | Hvalid].
    + assert (Hskip : trackAppAccess (fst call) userId (snd call)
                        (track_all userId calls new_settings)
                      = track_all userId calls new_settings).
      { unfold trackAppAccess. rewrite Hempty. cbn [String.eqb].
        rewrite orb_true_r. reflexivity. }
      rewrite Hskip. split; [lia |]. split; [rewrite Hnone; lia |].
      intros a. rewrite Husage, times_tracked_snoc, Hempty.
      destruct (String.eqb_spec a "") as [-> | Ha]; [reflexivity |].
      assert (Hne : String.eqb "" a = false) by (apply String.eqb_neq; congruence).
      rewrite Hne, Z.add_0_r. reflexivity.
    + assert (Hid : path_refused (snd call) = false)
        by (destruct Hcall as [Hempty | Hid]; [contradiction | exact Hid]).
      destruct (trackAppAccess_counts (fst call) userId (snd call)
                  (track_all userId calls new_settings) Huser Hkey Hvalid Hid)
        as (analytics & Hnode & Ht & _ & Hu).
      rewrite Hnode. cbn [mbind option_bind].
      split; [rewrite Ht, num_or_Some_0; lia |].
      split.
      { split; [discriminate |]. intros Hz. unfold tracked in *. lia. }
      intros a. rewrite Hu, times_tracked_snoc, Husage.
      destruct (String.eqb_spec a (snd call)) as [-> | Hne].
      * rewrite String.eqb_refl.
        apply String.eqb_neq in Hvalid. rewrite Hvalid. cbn [orb].
        unfold times_tracked.
        destruct (Z.eqb_spec (Z.of_nat (length (List.filter
                    (fun c => String.eqb (snd c) (snd call)) calls))) 0) as [Hz | Hz].
        -- rewrite Hz. cbn [num_or].
           destruct (Z.eqb_spec (0 + 1) 0); [lia | reflexivity].
        -- rewrite num_or_Some_0.
           destruct (Z.eqb_spec (Z.of_nat (length (List.filter
                       (fun c => String.eqb (snd c) (snd call)) calls)) + 1) 0);
             [lia | reflexivity].
      * assert (Hne' : String.eqb (snd call) a = false)
          by (apply String.eqb_neq; congruence).
        rewrite Hne', Z.add_0_r. reflexivity.
Qed.

(** X29.  For a valid user id that names one child of [users] and app ids
    that each name one child of [usageStats] (no [/] and none of the
    characters the client refuses): after any series of tracked accesses on
    fresh settings, the analytics report as [totalAccesses] the number of
    calls with a non-empty app id and, for every app, as usage count the
    number of calls made for it; an app never accessed has no count, and
    calls with an empty app id leave no trace. *)
Theorem tracked_accesses_are_counted
    (entries : gmap string Z -> list (string * Z))
    (userId : JsVal) (calls : list (Z * string)) :
  validateUserId userId = true -> plain_key (user_key userId) = true ->
  plain_calls calls = true ->
  ua_totalAccesses (getUserAnalytics entries userId
                      (track_all userId calls new_settings))
  = tracked calls
  /\ forall appId,
       ua_usageStats (getUserAnalytics entries userId
                        (track_all userId calls new_settings)) !! appId
       = if String.eqb appId "" || (times_tracked appId calls =? 0) then None
         else Some (times_tracked appId calls).
Proof.
  intros Huser Hkey Hcalls. apply plain_key_accepted in Hkey.
  destruct (track_all_counts userId calls Huser Hkey Hcalls)
    as (Htotal & _ & Husage).
  unfold getUserAnalytics. rewrite Huser. cbn [negb].
  destruct (us_analytics (track_all userId calls new_settings)) as [analytics |].
  - cbn [ua_totalAccesses ua_usageStats]. split; [exact Htotal |].
    intros appId. exact (Husage appId).
  - cbn [ua_totalAccesses ua_usageStats empty_analytics].
    split; [exact Htotal |]. intros appId. rewrite <- (Husage appId).
    apply lookup_empty.
Qed.

Lemma tracked_accesses_are_counted_witness :
  ua_totalAccesses
    (getUserAnalytics map_to_list (VStr "42")
       (track_all (VStr "42")
          [(1700000000000, "forms"); (1700000001000, ""); (1700000002000, "forms")]
          new_settings))
  = tracked [(1700000000000, "forms"); (1700000001000, ""); (1700000002000, "forms")].
Proof.
  apply (proj1 (tracked_accesses_are_counted map_to_list (VStr "42")
                  [(1700000000000, "forms"); (1700000001000, "");
                   (1700000002000, "forms")] eq_refl eq_refl eq_refl)).
Defined.

(** ** The most used apps *)

Lemma sort_insert_Permutation {A : Type} (cmp : A -> A -> Z) (x : A) (l : list A) :
  sort_insert cmp x l ≡ₚ x :: l.
Proof.
  induction l as [| y rest IH]; [reflexivity |]. cbn [sort_insert].
  destruct (cmp x y <=? 0); [reflexivity |].
  rewrite IH. apply perm_swap.
Qed.

Lemma js_sort_Permutation {A : Type} (cmp : A -> A -> Z) (l : list A) :
  js_sort cmp l ≡ₚ l.
Proof.
  induction l as [| x rest IH]; [reflexivity |]. cbn [js_sort].
  rewrite sort_insert_Permutation, IH. reflexivity.
Qed.

Lemma sort_insert_descending (x : string * Z) (l : list (string * Z)) :
  descending l -> descending (sort_insert compare_usage x l).
Proof.
  induction l as [| y rest IH]; cbn [sort_insert descending].
  - intros _. split; [constructor | exact I].
  - intros [Hy Hrest]. unfold compare_usage at 1.
    destruct (Z.leb_spec (snd y - snd x) 0) as [Hle | Hgt]; cbn [descending].
    + split; [| split; assumption].
      constructor; [lia |].
      eapply Forall_impl; [exact Hy |]. cbn. intros z Hz. lia.
    + split; [| apply IH; exact Hrest].
      rewrite sort_insert_Permutation. constructor; [lia | exact Hy].
Qed.

Lemma js_sort_descending (l : list (string * Z)) :
  descending (js_sort compare_usage l).
Proof.
  induction l as [| x rest IH]; [exact I |].
  cbn [js_sort]. apply sort_insert_descending. exact IH.
Qed.

Lemma descending_app (l1 l2 : list (string * Z)) :
  descending (l1 ++ l2) ->
  descending l1
  /\ forall x y, x ∈ l1 -> y ∈ l2 -> snd y <= snd x.
Proof.
  induction l1 as [| z rest IH]; cbn [app descending].
  - intros _. split; [exact I |]. intros x y Hx. inversion Hx.
  - intros [Hz Hd]. destruct (IH Hd) as [Hrest Hcross].
    apply Forall_app in Hz as [Hz1 Hz2].
    split; [split; assumption |].
    intros x y Hx Hy. apply elem_of_cons in Hx as [-> | Hx].
    + rewrite Forall_forall in Hz2. apply Hz2. exact Hy.
    + apply Hcross; assumption.
Qed.

(** X30.  [mostUsed] lists at most five apps, each once and with its stored
    count, most used first; it lists all apps when there are at most five;
    and no app left out has a higher count than a listed one, in whatever
    order the stored counts are enumerated. *)
Theorem most_used_are_the_top (entries : gmap string Z -> list (string * Z))
    (userId : JsVal) (st : Settings) (analytics : AnalyticsData) :
  (forall m, entries m ≡ₚ map_to_list m) ->
  validateUserId userId = true ->
  us_analytics st = Some analytics ->
  length (mostUsed (getUserAnalytics entries userId st))
  = Nat.min 5 (size (usageStats analytics))
  /\ NoDup (map fst (mostUsed (getUserAnalytics entries userId st)))
  /\ descending (mostUsed (getUserAnalytics entries userId st))
  /\ (forall appId count,
        In (appId, count) (mostUsed (getUserAnalytics entries userId st)) ->
        usageStats analytics !! appId = Some count)
  /\ (forall appId count other n,
        In (appId, count) (mostUsed (getUserAnalytics entries userId st)) ->
        usageStats analytics !! other = Some n ->
        ~ In other (map fst (mostUsed (getUserAnalytics entries userId st))) ->
        n <= count).
Proof.
  intros Hentries Huser Hnode. unfold getUserAnalytics.
  rewrite Huser, Hnode. cbn [negb mostUsed].
  set (sorted := js_sort compare_usage (entries (usageStats analytics))).
  assert (Hperm : sorted ≡ₚ map_to_list (usageStats analytics)).
  { unfold sorted. rewrite js_sort_Permutation. apply Hentries. }
  assert (Hsplit : (take 5 sorted ++ drop 5 sorted)%list = sorted)
    by apply take_drop.
  assert (Hdesc : descending (take 5 sorted ++ drop 5 sorted)).
  { rewrite Hsplit. apply js_sort_descending. }
  apply descending_app in Hdesc as [Hdesc Hcross].
  assert (Hnodup : NoDup (map fst (take 5 sorted ++ drop 5 sorted))).
  { rewrite Hsplit. change (NoDup (fst <$> sorted)). rewrite Hperm.
    apply NoDup_fst_map_to_list. }
  rewrite map_app in Hnodup. apply NoDup_app in Hnodup as (Hnd & _ & _).
  split; [| split; [| split; [| split]]].
  - rewrite length_take. f_equal.
    rewrite (Permutation_length Hperm). apply length_map_to_list.
  - exact Hnd.
  - exact Hdesc.
  - intros appId count Hin. apply elem_of_map_to_list. rewrite <- Hperm.
    rewrite <- Hsplit. apply elem_of_app. left. apply list_elem_of_In. exact Hin.
  - intros appId count other n Hin Hother Hnot.
    apply list_elem_of_In in Hin.
    apply (Hcross (appId, count) (other, n) Hin).
    apply elem_of_map_to_list in Hother. rewrite <- Hperm, <- Hsplit in Hother.
    apply elem_of_app in Hother as [Hl | Hr]; [| exact Hr].
    exfalso. apply Hnot. apply list_elem_of_In.
    apply (list_elem_of_fmap_2 fst _ _ Hl).
Qed.

Lemma most_used_are_the_top_witness :
  length (mostUsed (getUserAnalytics map_to_list (VStr "42") sample_settings))
  = Nat.min 5 (size ({["forms" := 2; "bake" := 1]} : gmap string Z)).
Proof.
  refine (proj1 (most_used_are_the_top map_to_list (VStr "42") sample_settings _
                   _ eq_refl eq_refl)).
  intros m. reflexivity.
Defined.
